(** * NewsExplorer: the ingestion pipeline of [backend.py]

    A shallow embedding of the [NewsScraper] class and of the
    [/news/filter] endpoint, with the properties of its deduplication,
    storage, enrichment and error handling; then of the scraping
    endpoints, of the filters of the dashboard in [frontend.py] and of
    the page of [rss_news_scraper.py].

    Python values are modelled as follows.
    - A [str] is a list of Unicode code points ([pystr]).
    - A [dict] with string keys is a [gmap string _].
    - An exception is a value of [exn]; code that can raise returns a
      [Result].
    - The libraries the scraper calls (requests, feedparser, langdetect,
      VADER, BeautifulSoup, the SQLite engine, the clock) are the fields of
      a [World]; every theorem quantifies over the world. *)

From Stdlib Require Import ZArith QArith Ascii String.
From stdpp Require Import base decidable option list gmap strings pretty.

Local Open Scope string_scope.
Local Open Scope list_scope.

(** ** Python strings *)

Module Py.

(** A Python [str]: its code points, in order. *)
Abbreviation pystr := (list N).

(** A literal made of ASCII characters. *)
Definition py (s : string) : pystr :=
  (fun c => N_of_ascii c) <$> list_ascii_of_string s.

(** [str.isspace] on one character; [re]'s [\s] class on [str] patterns is
    the same set. *)
Definition isspace (c : N) : bool :=
  ((9 <=? c) && (c <=? 13) || (28 <=? c) && (c <=? 32)
   || (c =? 133) || (c =? 160) || (c =? 5760)
   || (8192 <=? c) && (c <=? 8202)
   || (c =? 8232) || (c =? 8233) || (c =? 8239) || (c =? 8287)
   || (c =? 12288))%N.

Fixpoint lstrip (s : pystr) : pystr :=
  match s with
  | [] => []
  | c :: r => if isspace c then lstrip r else s
  end.

Definition rstrip (s : pystr) : pystr := reverse (lstrip (reverse s)).

(** [s.strip()] *)
Definition strip (s : pystr) : pystr := rstrip (lstrip s).

(** [re.sub(r'\s+', ' ', s)]: every maximal run of whitespace becomes one
    space.  [in_run] tells that the previous character was whitespace. *)
Fixpoint sub_ws_from (in_run : bool) (s : pystr) : pystr :=
  match s with
  | [] => []
  | c :: r =>
      if isspace c
      then (if in_run then sub_ws_from true r else 32%N :: sub_ws_from true r)
      else c :: sub_ws_from false r
  end.

Definition sub_ws (s : pystr) : pystr := sub_ws_from false s.

(** Surrogate code points cannot be encoded as UTF-8. *)
Definition is_surrogate (c : N) : bool := ((55296 <=? c) && (c <=? 57343))%N.

(** [s.encode('utf-8', errors='ignore').decode('utf-8')] *)
Definition encode_ignore_decode (s : pystr) : pystr :=
  List.filter (fun c => negb (is_surrogate c)) s.

(** Truthiness of a [str]. *)
Definition truthy (s : pystr) : bool :=
  match s with [] => false | _ => true end.

(** [s1 + s2] is [++]; [s[:n]] is [take n s]; [len(s)] is [length s]. *)

End Py.
Import Py.

(** ** Exceptions and results *)

Inductive exn : Type :=
  | RequestException      (* requests: connection, timeout, HTTP status *)
  | SqliteError           (* sqlite3.Error and its subclasses *)
  | ValueError
  | TypeError
  | KeyError
  | HTTPException (status : Z)   (* fastapi.HTTPException *)
  | OtherException.       (* any other subclass of Exception *)

#[global] Instance exn_eq_dec : EqDecision exn.
Proof. solve_decision. Defined.

Inductive Result (A : Type) : Type :=
  | Ok (a : A)
  | Raise (e : exn).
Arguments Ok {A} a.
Arguments Raise {A} e.

Definition rbind {A B} (r : Result A) (k : A -> Result B) : Result B :=
  match r with
  | Ok a => k a
  | Raise e => Raise e
  end.

(** [except Exception] matches every exception of the model. *)
Definition Exception (e : exn) : bool := true.
Definition is_ValueError (e : exn) : bool := bool_decide (e = ValueError).
Definition is_RequestException (e : exn) : bool :=
  bool_decide (e = RequestException).
Definition is_SqliteError (e : exn) : bool := bool_decide (e = SqliteError).

(** ** Logging and effects *)

Inductive level : Type := INFO | WARNING | ERROR.

#[global] Instance level_eq_dec : EqDecision level.
Proof. solve_decision. Defined.

(** A record written by [logging]: its level and the fixed part of its
    message (the interpolated values are left out). *)
Definition LogRecord : Type := level * string.

(** Code that logs and may raise: the records written, then the outcome.
    The records written before an exception are kept. *)
Definition Eff (A : Type) : Type := list LogRecord * Result A.

Definition ret {A} (a : A) : Eff A := ([], Ok a).
Definition raise {A} (e : exn) : Eff A := ([], Raise e).
Definition call {A} (r : Result A) : Eff A := ([], r).
Definition logging (lvl : level) (msg : string) : Eff unit :=
  ([(lvl, msg)], Ok tt).

Definition ebind {A B} (m : Eff A) (k : A -> Eff B) : Eff B :=
  match m with
  | (l, Ok a) => let '(l', r) := k a in (l ++ l', r)
  | (l, Raise e) => (l, Raise e)
  end.

(** [try: body / except C1: h1 / except C2: h2 ...]: a clause is a pair
    of a test on the exception and a handler; the first matching clause
    handles the exception, and what its handler raises is not handled. *)
Definition Clause (A : Type) : Type := (exn -> bool) * (exn -> Eff A).

Fixpoint find_clause {A} (clauses : list (Clause A)) (e : exn)
    : option (exn -> Eff A) :=
  match clauses with
  | [] => None
  | (catches, handler) :: rest =>
      if catches e then Some handler else find_clause rest e
  end.

Definition try_except {A} (body : Eff A) (clauses : list (Clause A))
    : Eff A :=
  match body with
  | (l, Ok a) => (l, Ok a)
  | (l, Raise e) =>
      match find_clause clauses e with
      | Some handler => let '(l', r) := handler e in (l ++ l', r)
      | None => (l, Raise e)
      end
  end.

Declare Scope eff_scope.
Delimit Scope eff_scope with eff.
Notation "x <- c1 ;; c2" := (ebind c1 (fun x => c2))
  (at level 100, c1 at next level, right associativity) : eff_scope.
Notation "c1 ;; c2" := (ebind c1 (fun _ => c2))
  (at level 100, right associativity) : eff_scope.

(** ** Articles *)

(** The dictionary built by [fetch_feed] and by
    [scrape_historical_articles]: always these eight keys, each a [str]. *)
Record Article : Type := mkArticle {
  title : pystr;
  publication_date : pystr;
  source : pystr;
  country : pystr;
  summary : pystr;
  url : pystr;
  language : pystr;
  sentiment : pystr
}.

#[global] Instance Article_eq_dec : EqDecision Article.
Proof. solve_decision. Defined.

(** [row[col]] for a column name of the frame built from the articles. *)
Definition get_field (a : Article) (col : string) : option pystr :=
  if decide (col = "title") then Some (title a)
  else if decide (col = "publication_date") then Some (publication_date a)
  else if decide (col = "source") then Some (source a)
  else if decide (col = "country") then Some (country a)
  else if decide (col = "summary") then Some (summary a)
  else if decide (col = "url") then Some (url a)
  else if decide (col = "language") then Some (language a)
  else if decide (col = "sentiment") then Some (sentiment a)
  else None.

(** ** pandas: [DataFrame.drop_duplicates(subset, keep='first')] *)

Module Pandas.

Definition subset_key (subset : list string) (a : Article)
    : list (option pystr) :=
  get_field a <$> subset.

(** [DataFrame.duplicated(subset, keep='first')]: the flag of a row is set
    when an earlier row has the same values in the [subset] columns. *)
Fixpoint duplicated_from (subset : list string)
    (seen : list (list (option pystr))) (rows : list Article) : list bool :=
  match rows with
  | [] => []
  | a :: rest =>
      let k := subset_key subset a in
      bool_decide (k ∈ seen) :: duplicated_from subset (k :: seen) rest
  end.

Definition duplicated (subset : list string) (rows : list Article)
    : list bool :=
  duplicated_from subset [] rows.

(** [df[~mask]] *)
Fixpoint select_not (rows : list Article) (mask : list bool) : list Article :=
  match rows, mask with
  | a :: rows', b :: mask' =>
      if b then select_not rows' mask' else a :: select_not rows' mask'
  | _, _ => []
  end.

(** An empty frame is returned as it is; otherwise the rows that are not
    flagged are selected. *)
Definition drop_duplicates (subset : list string) (rows : list Article)
    : list Article :=
  match rows with
  | [] => []
  | _ => select_not rows (duplicated subset rows)
  end.

End Pandas.

(** ** [datetime] *)

Module Datetime.

(** A [datetime]: the reading of its wall clock in microseconds since
    1970-01-01 00:00:00, and its [tzinfo]: [None] for a naive value,
    [Some off] for an aware one whose UTC offset is [off] microseconds. *)
Record datetime : Type := mkDatetime {
  wall_us : Z;
  tzinfo : option Z
}.

Definition naive (wall : Z) : datetime := mkDatetime wall None.
Definition aware (wall off : Z) : datetime := mkDatetime wall (Some off).

Definition us_per_day : Z := 86400 * 1000000.

(** [d - timedelta(days=n)] *)
Definition sub_days (d : datetime) (n : Z) : datetime :=
  mkDatetime (wall_us d - n * us_per_day) (tzinfo d).

(** [a < b]: two naive values compare by wall clock, two aware values by
    UTC instant, and a naive with an aware value raises [TypeError]. *)
Definition lt (a b : datetime) : Result bool :=
  match tzinfo a, tzinfo b with
  | None, None => Ok (wall_us a <? wall_us b)%Z
  | Some oa, Some ob => Ok (wall_us a - oa <? wall_us b - ob)%Z
  | _, _ => Raise TypeError
  end.

(** Year, month and day of a day count since 1970-01-01 (proleptic
    Gregorian calendar). *)
Definition civil_from_days (days : Z) : Z * Z * Z :=
  let z := (days + 719468)%Z in
  let era := (z / 146097)%Z in
  let doe := (z - era * 146097)%Z in
  let yoe := ((doe - doe / 1460 + doe / 36524 - doe / 146096) / 365)%Z in
  let doy := (doe - (365 * yoe + yoe / 4 - yoe / 100))%Z in
  let mp := ((5 * doy + 2) / 153)%Z in
  let d := (doy - (153 * mp + 2) / 5 + 1)%Z in
  let m := (if (mp <? 10)%Z then mp + 3 else mp - 9)%Z in
  let y := (yoe + era * 400 + (if (m <=? 2)%Z then 1 else 0))%Z in
  (y, m, d).

Definition two_digits (n : Z) : pystr :=
  if (n <? 10)%Z then py "0" ++ py (pretty n) else py (pretty n).

(** [d.strftime('%Y-%m-%d %H:%M:%S')] *)
Definition strftime (d : datetime) : pystr :=
  let days := (wall_us d / us_per_day)%Z in
  let secs := ((wall_us d mod us_per_day) / 1000000)%Z in
  let '(y, m, dd) := civil_from_days days in
  py (pretty y) ++ py "-" ++ two_digits m ++ py "-" ++ two_digits dd
    ++ py " " ++ two_digits (secs / 3600) ++ py ":"
    ++ two_digits ((secs / 60) mod 60) ++ py ":" ++ two_digits (secs mod 60).

End Datetime.
Import Datetime.

(** ** [float] *)

Module Float.

(** A [float]: a finite value is given by the rational it stands for
    exactly; comparisons of finite values are then exact. *)
Inductive pyfloat : Type :=
  | Finite (q : Q)
  | PosInf
  | NegInf
  | NaN.

Definition Qltb (a b : Q) : bool :=
  (Qnum a * Zpos (Qden b) <? Qnum b * Zpos (Qden a))%Z.

(** [a < b] *)
Definition lt (a b : pyfloat) : bool :=
  match a, b with
  | NaN, _ | _, NaN => false
  | Finite x, Finite y => Qltb x y
  | NegInf, NegInf => false
  | NegInf, _ => true
  | _, PosInf => match a with PosInf => false | _ => true end
  | _, _ => false
  end.

(** [a > b] *)
Definition gt (a b : pyfloat) : bool := lt b a.

(** [-a] *)
Definition neg (a : pyfloat) : pyfloat :=
  match a with
  | Finite q => Finite (Qopp q)
  | PosInf => NegInf
  | NegInf => PosInf
  | NaN => NaN
  end.

(** The literal [0.05]: the double nearest to 1/20, which is
    3602879701896397 / 2^56. *)
Definition lit_0_05 : pyfloat :=
  Finite (3602879701896397 # 72057594037927936).

(** The double nearest to 0.0501, which is 7220170922600379 / 2^57. *)
Definition lit_0_0501 : pyfloat :=
  Finite (7220170922600379 # 144115188075855872).

End Float.

(** ** The world outside the scraper *)

(** An entry of [feed.entries]; [entry.get(k, d)] is
    [default d (entry !! k)]. *)
Abbreviation FeedEntry := (gmap string pystr).

(** What the scraper reads of a [requests.Response]. *)
Record Response : Type := mkResponse {
  status_code : Z;
  content : pystr;
  text : pystr
}.

(** [response.raise_for_status()] *)
Definition raise_for_status (r : Response) : Result unit :=
  if ((400 <=? status_code r) && (status_code r <? 600))%Z
  then Raise RequestException else Ok tt.

(** What [scrape_historical_articles] reads of a parsed page:
    the text of the first [title] element, the texts of the [p] elements,
    and for a [meta] element found by its [property], its [content]
    attribute when it has one. *)
Record Soup : Type := mkSoup {
  find_title : option pystr;
  find_all_p : list pystr;
  find_meta : string -> option (option pystr)
}.

Record World : Type := mkWorld {
  (** [session.get(url, headers=..., timeout=10)], retries included *)
  session_get : pystr -> Result Response;
  (** [feedparser.parse(content).entries] *)
  feedparser_parse : pystr -> Result (list FeedEntry);
  (** [datetime.strptime(s, '%a, %d %b %Y %H:%M:%S %z')]: [None] stands
      for [ValueError]; a success gives the wall clock and the UTC offset
      of the value, which is aware since the format has [%z]. *)
  strptime : pystr -> option (Z * Z);
  (** the wall clock read by [datetime.now()], taken as one reading for
      the whole call; a later call is made in a later world *)
  now_us : Z;
  (** [langdetect.detect] *)
  detect : pystr -> Result pystr;
  (** [SentimentIntensityAnalyzer.polarity_scores] *)
  polarity_scores : pystr -> Result (gmap string Float.pyfloat);
  (** [BeautifulSoup(text, features)] *)
  BeautifulSoup : pystr -> string -> Result Soup;
  (** an exception raised by [cursor.execute] for the row, if any *)
  execute_fault : Article -> option exn;
  (** an exception raised while writing the CSV or the JSON file, if any *)
  to_csv_fault : option exn;
  to_json_fault : option exn;
  (** when the export raises: [None] if the file was not opened yet, else
      the number of rows written after the file was opened, which empties
      it, and before the exception *)
  to_csv_written : option nat;
  to_json_written : option nat;
  (** SQLite's [value LIKE pattern] and [strftime('%Y', value)] *)
  sql_like : pystr -> pystr -> bool;
  sql_strftime_Y : pystr -> option pystr;
  (** the limits of the engine as it was built,
      [SQLITE_MAX_VARIABLE_NUMBER] and [SQLITE_MAX_SQL_LENGTH] (in bytes) *)
  sql_max_variable_number : N;
  sql_max_sql_length : N;
  (** an exception raised when the value is bound to a [?], if any: a
      value that cannot be encoded, or that is too long *)
  sql_bind_fault : pystr -> option exn
}.

(** [datetime.now()] *)
Definition now (w : World) : datetime := naive (now_us w).

(** [d[k]] on a [dict] *)
Definition getitem {V} (d : gmap string V) (k : string) : Result V :=
  match d !! k with
  | Some v => Ok v
  | None => Raise KeyError
  end.

(** ** [NewsScraper]: text clean-up and classifiers *)

Local Open Scope eff_scope.

(** [NewsScraper.clean_text] *)
Definition clean_text (text : pystr) : pystr :=
  if negb (truthy text) then []
  else encode_ignore_decode (sub_ws (strip text)).

(** [NewsScraper.detect_language] *)
Definition detect_language (w : World) (text : pystr) : Eff pystr :=
  try_except
    (if (length (strip text) <? 10)%nat then ret (py "unknown")
     else
       lang <- call (detect w (take 1000 text)) ;;
       ret (if truthy lang then lang else py "unknown"))
    [(Exception, fun e =>
        logging ERROR "Language detection error" ;;
        ret (py "unknown"))].

(** [NewsScraper.analyze_sentiment] *)
Definition analyze_sentiment (w : World) (text : pystr) : Eff pystr :=
  try_except
    (scores <- call (polarity_scores w text) ;;
     compound <- call (getitem scores "compound") ;;
     if Float.gt compound Float.lit_0_05 then ret (py "positive")
     else if Float.lt compound (Float.neg Float.lit_0_05)
          then ret (py "negative")
          else ret (py "neutral"))
    [(Exception, fun e =>
        logging ERROR "Sentiment analysis error" ;;
        ret (py "unknown"))].

(** ** [NewsScraper.fetch_feed] *)

(** The publication date of an entry (lines 286-299 of [backend.py]):
    [None] stands for the [continue] that skips the entry. *)
Definition entry_pub_date (w : World) (one_year_ago : datetime)
    (entry : FeedEntry) : Eff (option datetime) :=
  try_except
    (let pub_date :=
       default (default [] (entry !! "updated")) (entry !! "published") in
     if truthy pub_date then
       try_except
         (match strptime w pub_date with
          | None => raise ValueError
          | Some (wall, off) =>
              let pub_date := aware wall off in
              older <- call (Datetime.lt pub_date one_year_ago) ;;
              if (older : bool) then ret None else ret (Some pub_date)
          end)
         [(is_ValueError, fun _ => ret (Some (now w)))]
     else ret (Some (now w)))
    [(Exception, fun e =>
        logging ERROR "Error parsing date" ;;
        ret (Some (now w)))].

(** The rest of the loop body (lines 301-316): the article of an entry
    whose date is [pub_date]. *)
Definition build_article (w : World) (country agency : pystr)
    (entry : FeedEntry) (pub_date : datetime) : Eff Article :=
  let title := clean_text (default (py "No Title") (entry !! "title")) in
  let summary :=
    clean_text
      (default (default [] (entry !! "description")) (entry !! "summary")) in
  let url := default [] (entry !! "link") in
  language <- detect_language w (title ++ py " " ++ summary) ;;
  sentiment <- analyze_sentiment w summary ;;
  ret {| title := title;
         publication_date := strftime pub_date;
         source := agency;
         country := country;
         summary := summary;
         url := url;
         language := language;
         sentiment := sentiment |}.

(** [for entry in feed.entries: ...], with [entries] the list built so
    far. *)
Fixpoint fetch_entries (w : World) (country agency : pystr)
    (one_year_ago : datetime) (feed_entries : list FeedEntry)
    (entries : list Article) : Eff (list Article) :=
  match feed_entries with
  | [] => ret entries
  | entry :: rest =>
      pub_date <- entry_pub_date w one_year_ago entry ;;
      match pub_date with
      | None => fetch_entries w country agency one_year_ago rest entries
      | Some pub_date =>
          article <- build_article w country agency entry pub_date ;;
          fetch_entries w country agency one_year_ago rest
            (entries ++ [article])
      end
  end.

Definition fetch_feed (w : World) (country agency feed_url : pystr)
    : Eff (list Article) :=
  try_except
    (response <- call (session_get w feed_url) ;;
     call (raise_for_status response) ;;
     feed_entries <- call (feedparser_parse w (content response)) ;;
     match feed_entries with
     | [] =>
         logging WARNING "No entries found" ;;
         ret []
     | _ =>
         let one_year_ago := sub_days (now w) 365 in
         entries <-
           fetch_entries w country agency one_year_ago feed_entries [] ;;
         logging INFO "Fetched articles" ;;
         ret entries
     end)
    [(is_RequestException, fun e =>
        logging ERROR "Failed to fetch" ;;
        ret []);
     (Exception, fun e =>
        logging ERROR "Error processing" ;;
        ret [])].

(** ** [NewsScraper.scrape_historical_articles] *)

(** [sep.join(parts)] *)
Fixpoint join (sep : pystr) (parts : list pystr) : pystr :=
  match parts with
  | [] => []
  | [p] => p
  | p :: rest => p ++ sep ++ join sep rest
  end.

(** [tag['content'] if tag and tag.get('content') else fallback] *)
Definition meta_content_or (tag : option (option pystr)) (fallback : pystr)
    : pystr :=
  match tag with
  | Some (Some c) => if truthy c then c else fallback
  | _ => fallback
  end.

(** The body of the [try] for one URL (lines 343-365). *)
Definition scrape_historical_url (w : World) (country url : pystr)
    : Eff Article :=
  response <- call (session_get w url) ;;
  soup <- call (BeautifulSoup w (text response) "summary") ;;
  let title :=
    clean_text (default (py "No Title") (find_title soup)) in
  let summary :=
    clean_text
      (match find_all_p soup with
       | [] => []
       | ps => join (py " ") (take 3 ps)
       end) in
  let pub_date :=
    meta_content_or (find_meta soup "article:published_time")
      (strftime (now w)) in
  let source :=
    meta_content_or (find_meta soup "og_site") (py "Unknown") in
  language <- detect_language w (title ++ py " " ++ summary) ;;
  sentiment <- analyze_sentiment w summary ;;
  ret {| title := title;
         publication_date := pub_date;
         source := source;
         country := country;
         summary := summary;
         url := url;
         language := language;
         sentiment := sentiment |}.

(** [for url in urls: try: ... except Exception: ...; continue] *)
Fixpoint scrape_historical_urls (w : World) (country : pystr)
    (urls : list pystr) (entries : list Article) : Eff (list Article) :=
  match urls with
  | [] => ret entries
  | url :: rest =>
      entries' <-
        try_except
          (article <- scrape_historical_url w country url ;;
           ret (entries ++ [article]))
          [(Exception, fun e =>
              logging ERROR "Historical scrape error" ;;
              ret entries)] ;;
      scrape_historical_urls w country rest entries'
  end.

(** [for country, urls in historical_urls.items(): ...]; the dictionary is
    given by its items in insertion order. *)
Fixpoint scrape_historical_from (w : World)
    (historical_urls : list (pystr * list pystr)) (entries : list Article)
    : Eff (list Article) :=
  match historical_urls with
  | [] => ret entries
  | (country, urls) :: rest =>
      entries' <- scrape_historical_urls w country urls entries ;;
      scrape_historical_from w rest entries'
  end.

Definition scrape_historical_articles (w : World)
    (historical_urls : list (pystr * list pystr)) : Eff (list Article) :=
  scrape_historical_from w historical_urls [].

(** ** The scraper and the stores it owns *)

(** [news_data] is the attribute of the [NewsScraper] object; [db] holds
    the rows of the table [news] of [news_data.db] in insertion order;
    [csv_file] and [json_file] hold the records that the files under
    [downloads/] hold completely ([None] before the first export); [log] is
    [news_scraper.log]. *)
Record Scraper : Type := mkScraper {
  news_data : list Article;
  db : list Article;
  csv_file : option (list Article);
  json_file : option (list Article);
  log : list LogRecord
}.

Definition set_news_data (v : list Article) (s : Scraper) : Scraper :=
  mkScraper v (db s) (csv_file s) (json_file s) (log s).
Definition set_db (v : list Article) (s : Scraper) : Scraper :=
  mkScraper (news_data s) v (csv_file s) (json_file s) (log s).
Definition set_csv_file (v : list Article) (s : Scraper) : Scraper :=
  mkScraper (news_data s) (db s) (Some v) (json_file s) (log s).
Definition set_json_file (v : list Article) (s : Scraper) : Scraper :=
  mkScraper (news_data s) (db s) (csv_file s) (Some v) (log s).
Definition add_log (l : list LogRecord) (s : Scraper) : Scraper :=
  mkScraper (news_data s) (db s) (csv_file s) (json_file s) (log s ++ l).

(** A method of the scraper: from the state before the call, the outcome
    and the state after it.  What was changed before an exception stays
    changed. *)
Definition M (A : Type) : Type := Scraper -> Result A * Scraper.

Definition mret {A} (a : A) : M A := fun s => (Ok a, s).
Definition mraise {A} (e : exn) : M A := fun s => (Raise e, s).

Definition mbind {A B} (m : M A) (k : A -> M B) : M B :=
  fun s =>
    match m s with
    | (Ok a, s') => k a s'
    | (Raise e, s') => (Raise e, s')
    end.

(** Code that only logs and raises, run as part of a method. *)
Definition lift {A} (c : Eff A) : M A :=
  fun s => (c.2, add_log c.1 s).

Definition get {A} (f : Scraper -> A) : M A := fun s => (Ok (f s), s).
Definition modify (f : Scraper -> Scraper) : M unit :=
  fun s => (Ok tt, f s).

(** [try: body / except C: handler] around a method body. *)
Definition m_try_except {A} (body : M A) (catches : exn -> bool)
    (handler : exn -> M A) : M A :=
  fun s =>
    match body s with
    | (Ok a, s') => (Ok a, s')
    | (Raise e, s') => if catches e then handler e s' else (Raise e, s')
    end.

Declare Scope m_scope.
Delimit Scope m_scope with M.
Notation "x <- c1 ;; c2" := (mbind c1 (fun x => c2))
  (at level 100, c1 at next level, right associativity) : m_scope.
Notation "c1 ;; c2" := (mbind c1 (fun _ => c2))
  (at level 100, right associativity) : m_scope.

Local Open Scope m_scope.

(** [self.news_data.extend(entries)] *)
Definition extend_news_data (entries : list Article) : M unit :=
  modify (fun s => set_news_data (news_data s ++ entries) s).

(** ** Configuration *)

(** [RSS_FEEDS], as the items of the dictionary in insertion order. *)
Definition RSS_FEEDS : list (pystr * list (pystr * pystr)) :=
  [ (py "UK",
      [ (py "BBC News", py "http://feeds.bbci.co.uk/news/rss.xml");
        (py "The Guardian", py "https://www.theguardian.com/world/rss") ]);
    (py "USA",
      [ (py "CNN", py "http://rss.cnn.com/rss/edition.rss");
        (py "The New York Times",
         py "https://rss.nytimes.com/services/xml/rss/nyt/World.xml") ]);
    (py "Qatar",
      [ (py "Al Jazeera", py "https://www.aljazeera.com/xml/rss/all.xml") ]);
    (py "Japan",
      [ (py "NHK", py "https://www3.nhk.or.jp/rss/news/cat0.xml");
        (py "The Japan Times", py "https://www.japantimes.co.jp/feed/top") ]);
    (py "India",
      [ (py "The Times of India",
         py "https://timesofindia.indiatimes.com/rssfeedstopstories.cms");
        (py "The Hindu", py "https://www.thehindu.com/feeder/default.rss") ]);
    (py "Singapore",
      [ (py "The Straits Times",
         py "https://www.straitstimes.com/rss/latest-news") ]);
    (py "Malaysia", [ (py "The Star", py "https://www.thestar.com.my/rss") ]);
    (py "Indonesia",
      [ (py "Jakarta Post", py "https://www.thejakartapost.com/feed") ]);
    (py "South Korea",
      [ (py "The Korea Herald", py "http://www.koreaherald.com/rss") ]);
    (py "China",
      [ (py "China Daily",
         py "http://www.chinadaily.com.cn/rss/world_rss.xml") ]);
    (py "Australia", [ (py "ABC News", py "https://www.abc.net.au/news/feed") ]);
    (py "Canada",
      [ (py "CBC News", py "https://www.cbc.ca/webfeed/rss/rss-world") ]);
    (py "Germany",
      [ (py "Deutsche Welle", py "https://rss.dw.com/xml/rss_en_world") ]);
    (py "France", [ (py "France 24", py "https://www.france24.com/en/rss") ]);
    (py "Brazil",
      [ (py "Folha de S.Paulo",
         py "https://www1.folha.uol.com.br/internacional/en/rss102.xml") ]);
    (py "South Africa",
      [ (py "News24", py "https://www.news24.com/news24/rss") ]);
    (py "Russia", [ (py "RT", py "https://www.rt.com/rss/news") ]);
    (py "Nigeria", [ (py "The Punch", py "https://punchng.com/feed") ]);
    (py "Mexico",
      [ (py "El Universal", py "https://www.eluniversal.com.mx/rss.xml") ]);
    (py "Italy", [ (py "ANSA", py "https://www.ansa.it/sito/ansait_rss.xml") ]);
    (py "Spain",
      [ (py "El Pa" ++ [8730%N; 8800%N] ++ py "s",
         py "https://feeds.elpais.com/rss") ]);
    (py "Turkey",
      [ (py "Hurriyet Daily News", py "http://www.hurriyetdailynews.com/rss") ]);
    (py "Egypt",
      [ (py "Ahram Online", py "http://english.ahram.org.eg/RSS.aspx") ]);
    (py "Argentina",
      [ (py "La Nacional", py "https://www.lanacion.com.ar/rss/arcio/rss/") ])
  ].

(** [HISTORICAL_URLS] *)
Definition HISTORICAL_URLS : list (pystr * list pystr) :=
  [ (py "UK", [ py "https://www.bbc.com/news/articles/cp00jze920eo" ]);
    (py "USA",
      [ py "https://www.cnn.com/2023/01/31/tennis/atp-alexander-zverev-domestic-abuse-spt-intl/index.html" ]);
    (py "India",
      [ py "https://timesofindia.indiatimes.com/toi/articleshow/121320973.cms" ]);
    (py "Qatar",
      [ py "https://www.aljazeera.com/news/liveblog/2025/5/30/live-israel-forces-new-displacement-in-north-gaza-as-strikes-intensify" ])
  ].

(** ** [NewsScraper]: the methods that change the scraper *)

(** The calls submitted to the executor by [scrape_all_feeds], in
    submission order.  A call reads the world and writes only the log. *)
Definition submit_all (w : World)
    (rss_feeds : list (pystr * list (pystr * pystr)))
    : list (Eff (list Article)) :=
  '(country, feeds) ← rss_feeds;
  '(agency, feed_url) ← feeds;
  [fetch_feed w country agency feed_url].

(** [for future in tasks: self.news_data.extend(future.result())];
    [future.result()] gives what the call returned or raises what it
    raised.  The records logged by a call are placed where its result is
    collected. *)
Fixpoint collect_results (tasks : list (Eff (list Article))) : M unit :=
  match tasks with
  | [] => mret tt
  | future :: rest =>
      entries <- lift future ;;
      extend_news_data entries ;;
      collect_results rest
  end.

(** [NewsScraper.scrape_all_feeds], for given values of the globals
    [RSS_FEEDS] and [HISTORICAL_URLS]. *)
Definition scrape_all_feeds_over (w : World)
    (rss_feeds : list (pystr * list (pystr * pystr)))
    (historical_urls : list (pystr * list pystr)) : M unit :=
  let tasks := submit_all w rss_feeds in
  historical <- lift (scrape_historical_articles w historical_urls) ;;
  extend_news_data historical ;;
  collect_results tasks ;;
  lift (logging INFO "Total articles fetched").

Definition scrape_all_feeds (w : World) : M unit :=
  scrape_all_feeds_over w RSS_FEEDS HISTORICAL_URLS.

(** [NewsScraper.remove_duplicates] *)
Definition remove_duplicates : M unit :=
  df <- get news_data ;;
  let df := Pandas.drop_duplicates ["title"; "source"; "url"] df in
  modify (set_news_data df) ;;
  lift (logging INFO "Removed duplicates").

(** What an export that raises leaves in its file: the file as it was
    when the exception came before the file was opened, else the rows
    written until then. *)
Definition left_in_file (written : option nat) (old : option (list Article))
    (df : list Article) : option (list Article) :=
  match written with
  | None => old
  | Some k => Some (take k df)
  end.

Definition set_csv (v : option (list Article)) (s : Scraper) : Scraper :=
  mkScraper (news_data s) (db s) v (json_file s) (log s).
Definition set_json (v : option (list Article)) (s : Scraper) : Scraper :=
  mkScraper (news_data s) (db s) (csv_file s) v (log s).

(** [NewsScraper.save_to_csv].  [df.to_csv(path)] opens the file for
    writing, which empties it, writes the rows and closes it. *)
Definition save_to_csv (w : World) : M unit :=
  m_try_except
    (df <- get news_data ;;
     match to_csv_fault w with
     | Some e =>
         old <- get csv_file ;;
         modify (set_csv (left_in_file (to_csv_written w) old df)) ;;
         mraise e
     | None => modify (set_csv_file df)
     end ;;
     lift (logging INFO "Saved to CSV"))
    Exception
    (fun e => lift (logging ERROR "Error saving to CSV")).

(** [NewsScraper.save_to_json] *)
Definition save_to_json (w : World) : M unit :=
  m_try_except
    (df <- get news_data ;;
     match to_json_fault w with
     | Some e =>
         old <- get json_file ;;
         modify (set_json (left_in_file (to_json_written w) old df)) ;;
         mraise e
     | None => modify (set_json_file df)
     end ;;
     lift (logging INFO "Saved to JSON"))
    Exception
    (fun e => lift (logging ERROR "Error saving to JSON")).

(** The columns of [UNIQUE(title, publication_date, source, url)] in the
    table created by [setup_database]. *)
Definition unique_columns : list string :=
  ["title"; "publication_date"; "source"; "url"].

(** [INSERT OR IGNORE INTO news ... VALUES (...)]: a row that collides
    with a stored row on the unique columns is skipped.  The columns of an
    article are never NULL, so [language TEXT NOT NULL] never applies. *)
Definition insert_or_ignore (item : Article) (rows : list Article)
    : list Article :=
  if bool_decide (Pandas.subset_key unique_columns item
                    ∈ Pandas.subset_key unique_columns <$> rows)
  then rows
  else rows ++ [item].

(** [for item in self.news_data: cursor.execute(...); conn.commit()] *)
Fixpoint insert_items (w : World) (items : list Article) : M unit :=
  match items with
  | [] => mret tt
  | item :: rest =>
      match execute_fault w item with
      | Some e => mraise e
      | None => modify (fun s => set_db (insert_or_ignore item (db s)) s)
      end ;;
      insert_items w rest
  end.

(** [NewsScraper.save_to_database].  The connection is taken to open; a
    row that was written is committed before the next one is tried, so it
    stays written when a later row fails. *)
Definition save_to_database (w : World) : M unit :=
  m_try_except
    (items <- get news_data ;;
     insert_items w items ;;
     lift (logging INFO "Saved data to database"))
    is_SqliteError
    (fun e => lift (logging ERROR "Error saving to database")).

(** [NewsScraper.scrape_single_feed] *)
Definition scrape_single_feed (w : World) (feed_url country agency : pystr)
    : M (list Article) :=
  entries <- lift (fetch_feed w country agency feed_url) ;;
  extend_news_data entries ;;
  save_to_database w ;;
  save_to_csv w ;;
  save_to_json w ;;
  mret entries.

(** [NewsScraper.run_scrape] *)
Definition run_scrape (w : World) : M unit :=
  m_try_except
    (modify (set_news_data []) ;;
     scrape_all_feeds w ;;
     remove_duplicates ;;
     save_to_csv w ;;
     save_to_json w ;;
     save_to_database w ;;
     lift (logging INFO "Scheduled scraping completed"))
    Exception
    (fun e => lift (logging ERROR "Scheduled scraping failed")).

(** ** The SQLite engine, for the queries of [filter_news] *)

Module Sqlite.

Local Open Scope char_scope.

Inductive token : Type :=
  | TWord (s : string)    (* a keyword or an identifier *)
  | TNum (n : N)
  | TStr (s : string)     (* a string literal, without its quotes *)
  | TQMark
  | TLParen
  | TRParen
  | TComma
  | TEq
  | TStar.

#[global] Instance token_eq_dec : EqDecision token.
Proof. solve_decision. Defined.

Definition is_digit (c : ascii) : bool :=
  (48 <=? nat_of_ascii c)%nat && (nat_of_ascii c <=? 57)%nat.

Definition is_word_char (c : ascii) : bool :=
  let n := nat_of_ascii c in
  is_digit c || (65 <=? n)%nat && (n <=? 90)%nat
  || (97 <=? n)%nat && (n <=? 122)%nat || (n =? 95)%nat.

Fixpoint all_digits (s : string) : bool :=
  match s with
  | EmptyString => true
  | String c r => is_digit c && all_digits r
  end.

Fixpoint number_of (acc : N) (s : string) : N :=
  match s with
  | EmptyString => acc
  | String c r => number_of (10 * acc + (N_of_ascii c - 48))%N r
  end.

(** The token of a finished word, if there is a word. *)
Definition flush (word : string) : list token :=
  match word with
  | EmptyString => []
  | _ => if all_digits word then [TNum (number_of 0 word)] else [TWord word]
  end.

Inductive lexmode : Type :=
  | InWord (word : string)     (* outside a literal; the word read so far *)
  | InStr (lit : string).      (* inside a string literal *)

Definition snoc (s : string) (c : ascii) : string :=
  (s ++ String c EmptyString)%string.

(** The tokens of a statement; [None] for a character that starts no
    token or a literal that is not closed.  (A quote doubled inside a
    literal is not handled: the statements built here have none.) *)
Fixpoint lex (mode : lexmode) (s : string) : option (list token) :=
  match s with
  | EmptyString =>
      match mode with
      | InWord word => Some (flush word)
      | InStr _ => None
      end
  | String c r =>
      match mode with
      | InStr lit =>
          if Ascii.eqb c "'" then cons (TStr lit) <$> lex (InWord "") r
          else lex (InStr (snoc lit c)) r
      | InWord word =>
          if is_word_char c then lex (InWord (snoc word c)) r
          else
            let after (t : list token) :=
              (fun ts => flush word ++ t ++ ts) <$> lex (InWord "") r in
            if Ascii.eqb c " " then after []
            else if Ascii.eqb c "(" then after [TLParen]
            else if Ascii.eqb c ")" then after [TRParen]
            else if Ascii.eqb c "," then after [TComma]
            else if Ascii.eqb c "=" then after [TEq]
            else if Ascii.eqb c "*" then after [TStar]
            else if Ascii.eqb c "?" then after [TQMark]
            else if Ascii.eqb c "'"
                 then app (flush word) <$> lex (InStr "") r
                 else None
      end
  end.

Definition tokenize (s : string) : option (list token) := lex (InWord "") s.

Local Open Scope string_scope.

#[warnings="-register-all"]
Inductive operand : Type :=
  | OCol (c : string)
  | ONum (n : N)
  | OStr (s : string)
  | OParam (i : nat)                       (* the i-th [?] of the statement *)
  | OCall (f : string) (args : list operand).

Inductive expr : Type :=
  | EEq (a b : operand)
  | ELike (a b : operand)
  | EIn (a : operand) (items : list operand)
  | EAnd (e1 e2 : expr)
  | EOr (e1 e2 : expr).

Definition is_keyword (s : string) : bool :=
  bool_decide (s ∈ ["SELECT"; "FROM"; "WHERE"; "AND"; "OR"; "IN"; "LIKE"]).

(** A parser state: the tokens left and the number of [?] read so far. *)
Definition PState : Type := list token * nat.

(** The part of SQLite's expression grammar that the statements of
    [filter_news] use:
    - operand ::= [?] | number | literal | column | function [(] operands [)]
    - operands ::= operand ([,] operand)*
    - pred ::= [(] disj [)] | operand [=] operand | operand [LIKE] operand
               | operand [IN] [(] operands [)]
    - conj ::= pred ([AND] pred)*
    - disj ::= conj ([OR] conj)*
    Each function takes [fuel] larger than the number of tokens. *)
Fixpoint parse_operand (fuel : nat) (st : PState)
    : option (operand * PState) :=
  match fuel with
  | O => None
  | S fuel =>
      match st with
      | (TQMark :: r, n) => Some (OParam n, (r, S n))
      | (TNum k :: r, n) => Some (ONum k, (r, n))
      | (TStr s :: r, n) => Some (OStr s, (r, n))
      | (TWord f :: TLParen :: r, n) =>
          if is_keyword f then None
          else
            match parse_operands fuel (r, n) with
            | Some (args, (TRParen :: r', n')) => Some (OCall f args, (r', n'))
            | _ => None
            end
      | (TWord c :: r, n) =>
          if is_keyword c then None else Some (OCol c, (r, n))
      | _ => None
      end
  end
with parse_operands (fuel : nat) (st : PState)
    : option (list operand * PState) :=
  match fuel with
  | O => None
  | S fuel =>
      match parse_operand fuel st with
      | Some (a, (TComma :: r, n)) =>
          match parse_operands fuel (r, n) with
          | Some (rest, st') => Some (a :: rest, st')
          | None => None
          end
      | Some (a, st') => Some ([a], st')
      | None => None
      end
  end.

Fixpoint parse_pred (fuel : nat) (st : PState) : option (expr * PState) :=
  match fuel with
  | O => None
  | S fuel =>
      match st with
      | (TLParen :: r, n) =>
          match parse_disj fuel (r, n) with
          | Some (e, (TRParen :: r', n')) => Some (e, (r', n'))
          | _ => None
          end
      | _ =>
          match parse_operand fuel st with
          | Some (a, (TEq :: r, n)) =>
              match parse_operand fuel (r, n) with
              | Some (b, st') => Some (EEq a b, st')
              | None => None
              end
          | Some (a, (TWord "LIKE" :: r, n)) =>
              match parse_operand fuel (r, n) with
              | Some (b, st') => Some (ELike a b, st')
              | None => None
              end
          | Some (a, (TWord "IN" :: TLParen :: r, n)) =>
              match parse_operands fuel (r, n) with
              | Some (items, (TRParen :: r', n')) =>
                  Some (EIn a items, (r', n'))
              | _ => None
              end
          | _ => None
          end
      end
  end
with parse_conj (fuel : nat) (st : PState) : option (expr * PState) :=
  match fuel with
  | O => None
  | S fuel =>
      match parse_pred fuel st with
      | Some (p, (TWord "AND" :: r, n)) =>
          match parse_conj fuel (r, n) with
          | Some (c, st') => Some (EAnd p c, st')
          | None => None
          end
      | other => other
      end
  end
with parse_disj (fuel : nat) (st : PState) : option (expr * PState) :=
  match fuel with
  | O => None
  | S fuel =>
      match parse_conj fuel st with
      | Some (c, (TWord "OR" :: r, n)) =>
          match parse_disj fuel (r, n) with
          | Some (d, st') => Some (EOr c d, st')
          | None => None
          end
      | other => other
      end
  end.

(** [SELECT * FROM <table> WHERE <expr>]: the table, the condition and
    the number of [?] of the statement; [None] for a syntax error. *)
Definition parse_select (ts : list token) : option (string * expr * nat) :=
  match ts with
  | t1 :: t2 :: t3 :: TWord table :: t5 :: r =>
      if bool_decide (t1 = TWord "SELECT" /\ t2 = TStar
                      /\ t3 = TWord "FROM" /\ t5 = TWord "WHERE")
      then
        match parse_disj (4 * S (length r)) (r, O) with
        | Some (e, ([], n)) => Some (table, e, n)
        | _ => None
        end
      else None
  | _ => None
  end.

(** SQL values *)
Inductive value : Type :=
  | VNull
  | VInt (n : N)
  | VText (s : pystr).

#[global] Instance value_eq_dec : EqDecision value.
Proof. solve_decision. Defined.

Fixpoint sequence {A} (rs : list (Result A)) : Result (list A) :=
  match rs with
  | [] => Ok []
  | r :: rest =>
      rbind r (fun a => rbind (sequence rest) (fun l => Ok (a :: l)))
  end.

(** The value of an operand on a row.  A column or a function that does
    not exist is an error of the engine. *)
Fixpoint eval_operand (strftime_Y : pystr -> option pystr)
    (params : list pystr) (row : Article) (o : operand) : Result value :=
  match o with
  | OCol c =>
      match get_field row c with
      | Some v => Ok (VText v)
      | None => Raise SqliteError
      end
  | ONum n => Ok (VInt n)
  | OStr s => Ok (VText (py s))
  | OParam i =>
      match params !! i with
      | Some v => Ok (VText v)
      | None => Raise SqliteError
      end
  | OCall "strftime" [OStr "%Y"; a] =>
      rbind (eval_operand strftime_Y params row a) (fun v =>
        match v with
        | VText s =>
            Ok (match strftime_Y s with Some y => VText y | None => VNull end)
        | _ => Ok VNull
        end)
  | OCall _ _ => Raise SqliteError
  end.

(** Three-valued logic: [None] is NULL. *)
Definition and3 (a b : option bool) : option bool :=
  match a, b with
  | Some false, _ | _, Some false => Some false
  | Some true, Some true => Some true
  | _, _ => None
  end.

Definition or3 (a b : option bool) : option bool :=
  match a, b with
  | Some true, _ | _, Some true => Some true
  | Some false, Some false => Some false
  | _, _ => None
  end.

Definition eq3 (a b : value) : option bool :=
  match a, b with
  | VNull, _ | _, VNull => None
  | _, _ => Some (bool_decide (a = b))
  end.

Definition in3 (a : value) (items : list value) : option bool :=
  foldr (fun b acc => or3 (eq3 a b) acc) (Some false) items.

Definition like3 (like : pystr -> pystr -> bool) (a pattern : value)
    : option bool :=
  match a, pattern with
  | VText s, VText p => Some (like s p)
  | VNull, _ | _, VNull => None
  | _, _ => Some false
  end.

Section Eval.
Context (like : pystr -> pystr -> bool)
        (strftime_Y : pystr -> option pystr)
        (params : list pystr) (row : Article).

Definition ev (o : operand) : Result value :=
  eval_operand strftime_Y params row o.

Fixpoint eval_expr (e : expr) : Result (option bool) :=
  match e with
  | EEq a b => rbind (ev a) (fun x => rbind (ev b) (fun y => Ok (eq3 x y)))
  | ELike a b =>
      rbind (ev a) (fun x => rbind (ev b) (fun y => Ok (like3 like x y)))
  | EIn a items =>
      rbind (ev a) (fun x =>
        rbind (sequence (ev <$> items)) (fun ys => Ok (in3 x ys)))
  | EAnd e1 e2 =>
      rbind (eval_expr e1) (fun x =>
        rbind (eval_expr e2) (fun y => Ok (and3 x y)))
  | EOr e1 e2 =>
      rbind (eval_expr e1) (fun x =>
        rbind (eval_expr e2) (fun y => Ok (or3 x y)))
  end.
End Eval.

(** The rows of [rows] on which the condition is true, in stored order;
    an error on a row fails the statement. *)
Fixpoint select_rows (like : pystr -> pystr -> bool)
    (strftime_Y : pystr -> option pystr) (params : list pystr) (e : expr)
    (rows : list Article) : Result (list Article) :=
  match rows with
  | [] => Ok []
  | row :: rest =>
      rbind (eval_expr like strftime_Y params row e) (fun keep =>
        rbind (select_rows like strftime_Y params e rest) (fun sel =>
          Ok (if bool_decide (keep = Some true) then row :: sel else sel)))
  end.

(** The limits of the engine as it was built, and the values that it
    refuses to bind to a [?]. *)
Record Limits : Type := mkLimits {
  max_sql_length : N;          (* SQLITE_MAX_SQL_LENGTH, in bytes *)
  max_variable_number : N;     (* SQLITE_MAX_VARIABLE_NUMBER *)
  bind_fault : pystr -> option exn
}.

(** The parameters are bound in order; the first that is refused raises. *)
Fixpoint bind_all (bind_fault : pystr -> option exn) (params : list pystr)
    : Result unit :=
  match params with
  | [] => Ok tt
  | v :: rest =>
      match bind_fault v with
      | Some e => Raise e
      | None => bind_all bind_fault rest
      end
  end.

(** [pd.read_sql_query(query, conn, params=params)] on the database whose
    only table is [news]: the statement is prepared (a statement that is
    too long, a syntax error, an unknown table, more [?] than the engine
    allows or a number of parameters other than the number of [?] is an
    error), its parameters are bound, then it is run. *)
Definition read_sql_query (like : pystr -> pystr -> bool)
    (strftime_Y : pystr -> option pystr) (limits : Limits) (query : string)
    (params : list pystr) (news : list Article) : Result (list Article) :=
  if (max_sql_length limits <? N.of_nat (String.length query))%N
  then Raise SqliteError
  else
    match tokenize query with
    | None => Raise SqliteError
    | Some ts =>
        match parse_select ts with
        | None => Raise SqliteError
        | Some (table, e, n) =>
            if negb (bool_decide (table = "news")) then Raise SqliteError
            else if (max_variable_number limits <? N.of_nat n)%N
            then Raise SqliteError
            else if negb (n =? length params)%nat then Raise SqliteError
            else
              rbind (bind_all (bind_fault limits) params) (fun _ =>
                select_rows like strftime_Y params e news)
        end
    end.

End Sqlite.

(** ** The endpoint [POST /news/filter] *)

(** [FilterRequest]: every field is a [str] or [None]. *)
Record FilterRequest : Type := mkFilterRequest {
  f_country : option pystr;
  f_source : option pystr;
  f_language : option pystr;
  f_sentiment : option pystr;
  f_year : option pystr;
  f_keyword : option pystr
}.

(** [s.split(sep)] for a separator of one character; [cur] is the part
    read since the last separator. *)
Fixpoint split_from (sep : N) (cur s : pystr) : list pystr :=
  match s with
  | [] => [cur]
  | c :: r =>
      if (c =? sep)%N then cur :: split_from sep [] r
      else split_from sep (cur ++ [c]) r
  end.

Definition split (sep : N) (s : pystr) : list pystr := split_from sep [] s.

(** [','.join(['?' for _ in items])] *)
Definition placeholders (n : nat) : string :=
  String.concat "," (replicate n "?").

(** One of the five blocks
    [if filters.f: items = [x.strip() for x in filters.f.split(',')];
     query += f" AND <lhs> IN (?,...)"; params.extend(items)],
    on the pair of [query] and [params]. *)
Definition filter_block (lhs : string) (field : option pystr)
    (qp : string * list pystr) : string * list pystr :=
  match field with
  | Some v =>
      if truthy v then
        let items := strip <$> split 44%N v in
        ((qp.1 ++ " AND " ++ lhs ++ " IN (" ++ placeholders (length items)
            ++ ")")%string,
         qp.2 ++ items)
      else qp
  | None => qp
  end.

(** The block of [filters.keyword], with the text of the source. *)
Definition keyword_block (field : option pystr) (qp : string * list pystr)
    : string * list pystr :=
  match field with
  | Some kw =>
      if truthy kw then
        ((qp.1 ++ " AND (title LIKE ? summary LIKE ?)")%string,
         qp.2 ++ [py "%" ++ kw ++ py "%"; py "%" ++ kw ++ py "%"])
      else qp
  | None => qp
  end.

(** The statement and the parameters built by [filter_news]. *)
Definition build_query (filters : FilterRequest) : string * list pystr :=
  let qp := ("SELECT * FROM news WHERE 1=1", []) in
  let qp := filter_block "country" (f_country filters) qp in
  let qp := filter_block "source" (f_source filters) qp in
  let qp := filter_block "language" (f_language filters) qp in
  let qp := filter_block "sentiment" (f_sentiment filters) qp in
  let qp :=
    filter_block "strftime('%Y', publication_date)" (f_year filters) qp in
  keyword_block (f_keyword filters) qp.

(** The limits of the engine of the world. *)
Definition sql_limits (w : World) : Sqlite.Limits := {|
  Sqlite.max_sql_length := sql_max_sql_length w;
  Sqlite.max_variable_number := sql_max_variable_number w;
  Sqlite.bind_fault := sql_bind_fault w
|}.

(** [filter_news], on the rows [news] of the scraper's database. *)
Definition filter_news (w : World) (news : list Article)
    (filters : FilterRequest) : Result (list Article) :=
  let '(query, params) := build_query filters in
  match
    Sqlite.read_sql_query (sql_like w) (sql_strftime_Y w) (sql_limits w)
      query params news
  with
  | Ok rows => Ok rows
  | Raise e => Raise (HTTPException 500)
  end.

(** ** The endpoints [POST /news/scrape] and [GET /news/scrape_all] *)

(** [ScrapeRequest]: [country] and [agency] have defaults. *)
Record ScrapeRequest : Type := mkScrapeRequest {
  rss_url : pystr;
  request_country : pystr;
  request_agency : pystr
}.

(** [ScrapeRequest(rss_url=..., country=..., agency=...)], the last two
    optional. *)
Definition ScrapeRequest_of (url : pystr) (c a : option pystr)
    : ScrapeRequest :=
  mkScrapeRequest url (default (py "Custom") c)
    (default (py "Custom Feed") a).

(** [scrape_rss] *)
Definition scrape_rss (w : World) (request : ScrapeRequest)
    : M (list Article) :=
  m_try_except
    (entries <- scrape_single_feed w (rss_url request)
                  (request_country request) (request_agency request) ;;
     mret entries)
    Exception
    (fun e => mraise (HTTPException 500)).

(** [scrape_all]: the answer is the message of the body
    [{"message": ...}]. *)
Definition scrape_all (w : World) : M pystr :=
  m_try_except
    (run_scrape w ;;
     mret (py "Scraping completed"))
    Exception
    (fun e => mraise (HTTPException 500)).

(** * The dashboard: [frontend.py] *)

Module Frontend.

(** A [dict] built by assignments [d[k] = v] in order: a later assignment
    to a key replaces the earlier one. *)
Definition dict_of_items (items : list (pystr * pystr))
    : gmap pystr pystr :=
  foldl (fun d p => <[p.1 := p.2]> d) ∅ items.

(** The items of [LANGUAGE_MAP], in the order of the source. *)
Definition LANGUAGE_ITEMS : list (pystr * pystr) :=
  [ (py "en", py "English");
    (py "hi", py "Hindi");
    (py "ar", py "Japanese");
    (py "es", py "Spanish");
    (py "fr", py "French");
    (py "de", py "German");
    (py "pt", py "Portuguese");
    (py "ru", py "Russian");
    (py "zh-cn", py "Chinese (Simplified)");
    (py "zh-tw", py "Chinese (Traditional)");
    (py "it", py "Italian");
    (py "ko", py "Korean");
    (py "tr", py "Turkish");
    (py "id", py "Indonesian");
    (py "ms", py "Malay");
    (py "unknown", py "Unknown") ].

Definition LANGUAGE_MAP : gmap pystr pystr := dict_of_items LANGUAGE_ITEMS.

(** [{v: k for k, v in LANGUAGE_MAP.items()}] *)
Definition REVERSE_LANGUAGE_MAP : gmap pystr pystr :=
  dict_of_items ((fun p => (p.2, p.1)) <$> LANGUAGE_ITEMS).

(** [LANGUAGE_MAP.get(lang, lang)]: the name shown for a code. *)
Definition display_language (lang : pystr) : pystr :=
  default lang (LANGUAGE_MAP !! lang).

(** [REVERSE_LANGUAGE_MAP.get(lang, lang)]: the code sent for a name. *)
Definition language_code (name : pystr) : pystr :=
  default name (REVERSE_LANGUAGE_MAP !! name).

(** [','.join(xs) if xs else None] *)
Definition join_or_None (xs : list pystr) : option pystr :=
  match xs with
  | [] => None
  | _ => Some (join (py ",") xs)
  end.

(** [s.strip() if s.strip() else None] *)
Definition strip_or_None (s : pystr) : option pystr :=
  if truthy (strip s) then Some (strip s) else None.

(** The dictionary [filters] that [main] posts to [news/filter], read
    there as a [FilterRequest]. *)
Definition build_filters
    (selected_countries selected_sources selected_languages
       selected_sentiments : list pystr)
    (selected_years keyword : pystr) : FilterRequest := {|
  f_country := join_or_None selected_countries;
  f_source := join_or_None selected_sources;
  f_language := join_or_None (language_code <$> selected_languages);
  f_sentiment := join_or_None selected_sentiments;
  f_year := strip_or_None selected_years;
  f_keyword := strip_or_None keyword
|}.

(** [post_data("news/filter", filters)], for a call that reaches the
    endpoint (the cache of [st.cache_data] does not answer it, and the
    connection does not fail): the rows of the answer, or the empty list
    when the status of the answer is an error. *)
Definition post_filter (w : World) (news : list Article)
    (filters : FilterRequest) : list Article :=
  match filter_news w news filters with
  | Ok rows => rows
  | Raise _ => []
  end.

End Frontend.

(** ** The stand-alone page of [rss_news_scraper.py] *)

Module RssNewsScraper.

(** [needle in hay], for two [str]: [hay] holds [needle] at some
    position. *)
Fixpoint startswith (needle hay : pystr) : bool :=
  match needle, hay with
  | [], _ => true
  | _ :: _, [] => false
  | n :: ns, h :: hs => (n =? h)%N && startswith ns hs
  end.

Fixpoint contains (needle hay : pystr) : bool :=
  startswith needle hay
  || match hay with
     | [] => false
     | _ :: r => contains needle r
     end.

(** [detect_country_from_url] *)
Definition detect_country_from_url (url : pystr) : pystr :=
  if contains (py "bbc") url then py "UK"
  else if contains (py "cnn") url then py "USA"
  else if contains (py "aljazeera") url then py "Middle East"
  else if contains (py "nhk") url then py "Japan"
  else py "Unknown".

(** What [feedparser.parse(url)] gives: the fields of [feed.feed] and
    [feed.entries]. *)
Record Feed : Type := mkFeed {
  feed : gmap string pystr;
  entries : list FeedEntry
}.

(** A row of the table shown. *)
Record Row : Type := mkRow {
  Title : pystr;
  Published : pystr;
  Summary : pystr;
  Link : pystr;
  Source : pystr;
  Country : pystr
}.

(** [parse_rss_feed], for the [feedparser.parse] given: the rows of the
    [DataFrame] returned. *)
Definition parse_rss_feed (feedparser_parse : pystr -> Feed) (url : pystr)
    : list Row :=
  let feed := feedparser_parse url in
  (fun entry : FeedEntry => {|
     Title := default (py "N/A") (entry !! "title");
     Published := default (py "N/A") (entry !! "published");
     Summary := default (py "N/A") (entry !! "summary");
     Link := default (py "N/A") (entry !! "link");
     Source := default (py "Unknown Source") (RssNewsScraper.feed feed !! "title");
     Country := detect_country_from_url url
   |}) <$> entries feed.

End RssNewsScraper.

(** * Vocabulary of the properties *)

(** The identity that [remove_duplicates] compares. *)
Definition key3 (a : Article) : pystr * pystr * pystr :=
  (title a, source a, url a).

(** The identity of the store's uniqueness constraint. *)
Definition key4 (a : Article) : pystr * pystr * pystr * pystr :=
  (title a, publication_date a, source a, url a).

(** The labels [analyze_sentiment] can return. *)
Definition sentiment_labels : list pystr :=
  [py "positive"; py "negative"; py "neutral"; py "unknown"].

(** The entries of the feed at the address, when it is fetched with a
    good status and parsed; none otherwise. *)
Definition feed_of (w : World) (feed_url : pystr) : list FeedEntry :=
  match session_get w feed_url with
  | Ok response =>
      match raise_for_status response with
      | Ok _ =>
          match feedparser_parse w (content response) with
          | Ok feed_entries => feed_entries
          | Raise _ => []
          end
      | Raise _ => []
      end
  | Raise _ => []
  end.

(** What a call returned, for a call that did not raise. *)
Definition returned (c : Eff (list Article)) : list Article :=
  match c.2 with
  | Ok entries => entries
  | Raise _ => []
  end.

(** The rows that [save_to_database] attempts to write: the items before
    the first one for which [cursor.execute] raises. *)
Fixpoint attempted (w : World) (items : list Article) : list Article :=
  match items with
  | [] => []
  | item :: rest =>
      match execute_fault w item with
      | Some _ => []
      | None => item :: attempted w rest
      end
  end.

(** The first exception raised by [cursor.execute] over the items. *)
Fixpoint first_fault (w : World) (items : list Article) : option exn :=
  match items with
  | [] => None
  | item :: rest =>
      match execute_fault w item with
      | Some e => Some e
      | None => first_fault w rest
      end
  end.

(** The table after [INSERT OR IGNORE] of the items, in order. *)
Definition insert_all (items rows : list Article) : list Article :=
  foldl (fun rows item => insert_or_ignore item rows) rows items.

(** The clause that [filter_news] appends for a keyword, and its
    tokens. *)
Definition keyword_clause : string := " AND (title LIKE ? summary LIKE ?)".

Definition keyword_clause_tokens : list Sqlite.token :=
  [Sqlite.TWord "AND"; Sqlite.TLParen; Sqlite.TWord "title";
   Sqlite.TWord "LIKE"; Sqlite.TQMark; Sqlite.TWord "summary";
   Sqlite.TWord "LIKE"; Sqlite.TQMark; Sqlite.TRParen].

(** The tokens of the clause that follow its first [?]. *)
Definition after_first_param : list Sqlite.token :=
  [Sqlite.TWord "summary"; Sqlite.TWord "LIKE"; Sqlite.TQMark;
   Sqlite.TRParen].

(** The tokens end with the first [?] of the clause and what follows
    it. *)
Definition ends_in_clause (ts : list Sqlite.token) : Prop :=
  exists pre, ts = pre ++ Sqlite.TQMark :: after_first_param.

(** The tokens left once the first [?] of the clause has been read, or
    before. *)
Definition clause_unread (ts : list Sqlite.token) : Prop :=
  ends_in_clause ts \/ ts = after_first_param.

(** Every whitespace character of the text is a space that does not
    follow another whitespace character ([prev] tells that the character
    before the text is whitespace). *)
Fixpoint single_spaced_from (prev : bool) (s : pystr) : bool :=
  match s with
  | [] => true
  | c :: r =>
      if isspace c
      then (c =? 32)%N && negb prev && single_spaced_from true r
      else single_spaced_from false r
  end.

(** The article of a historical URL, when scraping it did not raise. *)
Definition scraped (w : World) (c u : pystr) : list Article :=
  match (scrape_historical_url w c u).2 with
  | Ok art => [art]
  | Raise _ => []
  end.

(** The URLs of [historical_urls], each with its country, in order. *)
Definition historical_pairs (historical_urls : list (pystr * list pystr))
    : list (pystr * pystr) :=
  '(c, urls) ← historical_urls; (fun u => (c, u)) <$> urls.

(** The batch that a full run scrapes, before duplicates are removed. *)
Definition scraped_batch (w : World) : list Article :=
  returned (scrape_historical_articles w HISTORICAL_URLS)
  ++ concat (returned <$> submit_all w RSS_FEEDS).

(** The records logged while a historical URL is scraped: those of the
    body, and the error of the handler when the body raised. *)
Definition url_log (w : World) (c u : pystr) : list LogRecord :=
  match scrape_historical_url w c u with
  | (l, Ok _) => l
  | (l, Raise _) => l ++ [(ERROR, "Historical scrape error")]
  end.

(** The batch left by [remove_duplicates]. *)
Definition deduplicated (batch : list Article) : list Article :=
  Pandas.drop_duplicates ["title"; "source"; "url"] batch.

(** What an export leaves in its file: the batch when it succeeds, and
    when it raises, what [left_in_file] tells. *)
Definition exported (fault : option exn) (written : option nat)
    (old : option (list Article)) (batch : list Article)
    : option (list Article) :=
  match fault with
  | None => Some batch
  | Some _ => left_in_file written old batch
  end.

(** *** The filters of a request *)

(** The values that a field of a request selects: [None] when the field
    is absent or empty, which [filter_news] treats alike. *)
Definition filter_items (field : option pystr) : option (list pystr) :=
  match field with
  | Some v => if truthy v then Some (strip <$> split 44%N v) else None
  | None => None
  end.

(** A value passes a field when the field selects nothing, or selects the
    value; a NULL value ([None]) passes no selection. *)
Definition in_filter (field : option pystr) (value : option pystr) : bool :=
  match filter_items field with
  | None => true
  | Some items =>
      match value with
      | Some x => bool_decide (x ∈ items)
      | None => false
      end
  end.

(** The row passes the five filters of the request other than the
    keyword. *)
Definition matches (w : World) (filters : FilterRequest) (row : Article)
    : bool :=
  in_filter (f_country filters) (Some (country row))
  && in_filter (f_source filters) (Some (source row))
  && in_filter (f_language filters) (Some (language row))
  && in_filter (f_sentiment filters) (Some (sentiment row))
  && in_filter (f_year filters) (sql_strftime_Y w (publication_date row)).

(** The engine of the world takes the statement and its parameters: the
    statement is not longer than [SQLITE_MAX_SQL_LENGTH], it has no more
    parameters than [SQLITE_MAX_VARIABLE_NUMBER], and every parameter can
    be bound. *)
Definition accepted (w : World) (qp : string * list pystr) : bool :=
  (N.of_nat (String.length qp.1) <=? sql_max_sql_length w)%N
  && (N.of_nat (length qp.2) <=? sql_max_variable_number w)%N
  && forallb (fun v => bool_decide (sql_bind_fault w v = None)) qp.2.

(** The left-hand sides of the five [IN] conditions. *)
Inductive lhs : Type := LCountry | LSource | LLanguage | LSentiment | LYear.

Definition lhs_string (l : lhs) : string :=
  match l with
  | LCountry => "country"
  | LSource => "source"
  | LLanguage => "language"
  | LSentiment => "sentiment"
  | LYear => "strftime('%Y', publication_date)"
  end.

Definition lhs_tokens (l : lhs) : list Sqlite.token :=
  match l with
  | LCountry => [Sqlite.TWord "country"]
  | LSource => [Sqlite.TWord "source"]
  | LLanguage => [Sqlite.TWord "language"]
  | LSentiment => [Sqlite.TWord "sentiment"]
  | LYear =>
      [Sqlite.TWord "strftime"; Sqlite.TLParen; Sqlite.TStr "%Y";
       Sqlite.TComma; Sqlite.TWord "publication_date"; Sqlite.TRParen]
  end.

Definition lhs_operand (l : lhs) : Sqlite.operand :=
  match l with
  | LCountry => Sqlite.OCol "country"
  | LSource => Sqlite.OCol "source"
  | LLanguage => Sqlite.OCol "language"
  | LSentiment => Sqlite.OCol "sentiment"
  | LYear =>
      Sqlite.OCall "strftime"
        [Sqlite.OStr "%Y"; Sqlite.OCol "publication_date"]
  end.

(** The value of a left-hand side on a row; [None] is NULL. *)
Definition lhs_value (w : World) (l : lhs) (row : Article) : option pystr :=
  match l with
  | LCountry => Some (country row)
  | LSource => Some (source row)
  | LLanguage => Some (language row)
  | LSentiment => Some (sentiment row)
  | LYear => sql_strftime_Y w (publication_date row)
  end.

(** The conditions of a request that select something, in the order in
    which [filter_news] appends them, each with its values. *)
Definition active_blocks (filters : FilterRequest)
    : list (lhs * list pystr) :=
  omap (fun p : lhs * option pystr =>
          (fun items => (p.1, items)) <$> filter_items p.2)
    [ (LCountry, f_country filters); (LSource, f_source filters);
      (LLanguage, f_language filters); (LSentiment, f_sentiment filters);
      (LYear, f_year filters) ].

(** [?,?,...,?]: the tokens of [n + 1] placeholders. *)
Fixpoint qmarks_more (n : nat) : list Sqlite.token :=
  match n with
  | O => []
  | S m => Sqlite.TComma :: Sqlite.TQMark :: qmarks_more m
  end.

(** The text and the tokens of the condition of a block with [n + 1]
    values, and its expression when its first parameter is the [k]-th of
    the statement. *)
Definition block_string (l : lhs) (n : nat) : string :=
  (" AND " ++ lhs_string l ++ " IN (" ++ placeholders (S n) ++ ")")%string.

Definition block_tokens (l : lhs) (n : nat) : list Sqlite.token :=
  Sqlite.TWord "AND" :: lhs_tokens l
  ++ Sqlite.TWord "IN" :: Sqlite.TLParen :: Sqlite.TQMark :: qmarks_more n
  ++ [Sqlite.TRParen].

Definition block_expr (l : lhs) (k n : nat) : Sqlite.expr :=
  Sqlite.EIn (lhs_operand l) (Sqlite.OParam <$> seq k (S n)).

(** The conjunction of a condition and of the blocks that follow it. *)
Fixpoint conj_of (e : Sqlite.expr) (k : nat) (blocks : list (lhs * nat))
    : Sqlite.expr :=
  match blocks with
  | [] => e
  | (l, n) :: rest =>
      Sqlite.EAnd e (conj_of (block_expr l k n) (k + S n) rest)
  end.

(** One block of [filter_news] on the pair of [query] and [params], for a
    condition that selects the values [b.2]. *)
Definition apply_block (qp : string * list pystr) (b : lhs * list pystr)
    : string * list pystr :=
  ((qp.1 ++ block_string b.1 (pred (length b.2)))%string, qp.2 ++ b.2).

(** A block without its values: its left-hand side and the number of its
    values, less one. *)
Definition shape (b : lhs * list pystr) : lhs * nat :=
  (b.1, pred (length b.2)).

Definition blocks_tokens (bs : list (lhs * nat)) : list Sqlite.token :=
  concat ((fun b => block_tokens b.1 b.2) <$> bs).

(** The number of [?] of the blocks. *)
Definition blocks_params (bs : list (lhs * nat)) : nat :=
  sum_list ((fun b => S b.2) <$> bs).

(** Fuel that is enough to parse the blocks. *)
Definition blocks_fuel (bs : list (lhs * nat)) : nat :=
  sum_list ((fun b => b.2 + 6) <$> bs).

(** The row satisfies the condition of the block. *)
Definition block_ok (w : World) (row : Article) (b : lhs * list pystr)
    : Prop :=
  exists x, lhs_value w b.1 row = Some x /\ x ∈ b.2.

Definition sql_value (v : option pystr) : Sqlite.value :=
  match v with Some x => Sqlite.VText x | None => Sqlite.VNull end.

(** *** The selections of the dashboard *)

(** A value that a comma-separated field carries unchanged: not empty,
    without a comma, without whitespace at its ends. *)
Definition selectable (x : pystr) : Prop :=
  x <> [] /\ (44%N ∉ x) /\ strip x = x.

(** A multiselect with nothing selected lets every value pass. *)
Definition chosen (xs : list pystr) (v : pystr) : bool :=
  match xs with
  | [] => true
  | _ => bool_decide (v ∈ xs)
  end.

(** The row is one that the selections of the sidebar ask for: the
    countries, sources, language names and sentiments selected, and the
    text typed for the years. *)
Definition selected (w : World) (cs ss ls ses : list pystr) (years : pystr)
    (row : Article) : bool :=
  chosen cs (country row)
  && chosen ss (source row)
  && chosen (Frontend.language_code <$> ls) (language row)
  && chosen ses (sentiment row)
  && in_filter (Frontend.strip_or_None years)
       (sql_strftime_Y w (publication_date row)).

(** *** Substrings *)

(** [needle] occurs in [hay]. *)
Definition occurs_in (needle hay : pystr) : Prop :=
  exists pre post, hay = pre ++ needle ++ post.

(** * Sample inputs *)

Module Samples.

Definition date_2018 : pystr := py "Mon, 01 Jan 2018 10:00:00 +0000".

(** An entry published on 2018-01-01. *)
Definition entry_2018 : FeedEntry :=
  {[ "published" := date_2018; "title" := py "  Old   news " ]}.

(** An entry with neither title nor summary nor date. *)
Definition entry_bare : FeedEntry := ∅.

(** An entry whose title is present and blank. *)
Definition entry_blank_title : FeedEntry :=
  {[ "title" := py "   ";
     "summary" := py "Rain over the northern hills tonight." ]}.

(** A world for the examples.  Every feed holds [feed_entries], except
    the feeds whose URL is in [down], which cannot be reached; the
    polarity scores hold [compound] when it is given; the text is found
    to be English; [fault] tells which rows the database refuses; the
    clock reads 2025-01-01 00:00:00. *)
Definition sample_world (feed_entries : list FeedEntry)
    (down : list pystr) (compound : option Float.pyfloat)
    (fault : Article -> option exn) : World := {|
  session_get := fun u =>
    if bool_decide (u ∈ down) then Raise RequestException
    else Ok (mkResponse 200 (py "<rss/>") (py "<rss/>"));
  feedparser_parse := fun _ => Ok feed_entries;
  (* 2018-01-01 10:00:00 +00:00 *)
  strptime := fun s =>
    if bool_decide (s = date_2018) then Some (1514800800000000, 0)%Z
    else None;
  now_us := 1735689600000000%Z;
  detect := fun _ => Ok (py "en");
  polarity_scores := fun _ =>
    Ok (match compound with
        | Some c => {[ "compound" := c ]}
        | None => ∅
        end);
  BeautifulSoup := fun _ _ => Raise OtherException;
  execute_fault := fault;
  to_csv_fault := None;
  to_json_fault := None;
  to_csv_written := None;
  to_json_written := None;
  sql_like := fun _ _ => true;
  sql_strftime_Y := fun s => Some (take 4 s);
  sql_max_variable_number := 32766;
  sql_max_sql_length := 1000000;
  sql_bind_fault := fun _ => None
|}.

(** Every library call succeeds; each feed holds the entry of 2018. *)
Definition quiet_world : World :=
  sample_world [entry_2018] [] (Some (Float.Finite 0)) (fun _ => None).

(** The feed holds an entry with a blank title, then a bare entry. *)
Definition blank_title_world : World :=
  sample_world [entry_blank_title; entry_bare] []
    (Some (Float.Finite 0)) (fun _ => None).

Definition bbc_url : pystr := py "http://feeds.bbci.co.uk/news/rss.xml".
Definition guardian_url : pystr := py "https://www.theguardian.com/world/rss".
Definition cnn_url : pystr := py "http://rss.cnn.com/rss/edition.rss".

(** Three configured sources. *)
Definition three_sources : list (pystr * list (pystr * pystr)) :=
  [ (py "UK", [ (py "BBC News", bbc_url); (py "The Guardian", guardian_url) ]);
    (py "USA", [ (py "CNN", cnn_url) ]) ].

(** The feed of the BBC cannot be reached; the other feeds hold a bare
    entry. *)
Definition bbc_down_world : World :=
  sample_world [entry_bare] [bbc_url] (Some (Float.Finite 0))
    (fun _ => None).

(** The database refuses the row of [story_tuesday]. *)
Definition refuses_tuesday (item : Article) : option exn :=
  if bool_decide (publication_date item = py "2025-01-07 08:00:00")
  then Some SqliteError else None.

Definition tuesday_fault_world : World :=
  sample_world [entry_bare] [] (Some (Float.Finite 0)) refuses_tuesday.

(** A request with every filter but the keyword, and the same request
    with a keyword. *)
Definition request_without_keyword : FilterRequest := {|
  f_country := Some (py "UK, USA");
  f_source := Some (py "BBC News,CNN");
  f_language := Some (py "en");
  f_sentiment := Some (py "neutral, positive");
  f_year := Some (py "2025");
  f_keyword := None
|}.

Definition request_with_keyword : FilterRequest := {|
  f_country := Some (py "UK, USA");
  f_source := Some (py "BBC News,CNN");
  f_language := Some (py "en");
  f_sentiment := Some (py "neutral, positive");
  f_year := Some (py "2025");
  f_keyword := Some (py "Storm")
|}.

(** A request with a keyword and no other filter. *)
Definition keyword_only (kw : pystr) : FilterRequest := {|
  f_country := None;
  f_source := None;
  f_language := None;
  f_sentiment := None;
  f_year := None;
  f_keyword := Some kw
|}.

(** A title with a surrogate between two spaces. *)
Definition text_with_surrogate : pystr :=
  py "a " ++ [55296%N] ++ py " b".

(** A page with a title, four paragraphs and no metadata. *)
Definition sample_soup : Soup := {|
  find_title := Some (py " Flood   warning ");
  find_all_p := [py "One."; py "Two."; py "Three."; py "Four."];
  find_meta := fun _ => None
|}.

(** The page of the BBC cannot be fetched; every other page is parsed as
    [sample_soup]. *)
Definition historical_world : World := {|
  session_get := fun u =>
    if bool_decide (u = py "https://www.bbc.com/news/articles/cp00jze920eo")
    then Raise RequestException
    else Ok (mkResponse 200 (py "<html/>") (py "<html/>"));
  feedparser_parse := fun _ => Ok [];
  strptime := fun _ => None;
  now_us := 1735689600000000%Z;
  detect := fun _ => Ok (py "en");
  polarity_scores := fun _ => Ok {[ "compound" := Float.Finite 0 ]};
  BeautifulSoup := fun _ _ => Ok sample_soup;
  execute_fault := fun _ => None;
  to_csv_fault := None;
  to_json_fault := None;
  to_csv_written := None;
  to_json_written := None;
  sql_like := fun _ _ => true;
  sql_strftime_Y := fun s => Some (take 4 s);
  sql_max_variable_number := 32766;
  sql_max_sql_length := 1000000;
  sql_bind_fault := fun _ => None
|}.


(** As [quiet_world], with an engine built for two parameters at most. *)
Definition small_engine_world : World := {|
  session_get := session_get quiet_world;
  feedparser_parse := feedparser_parse quiet_world;
  strptime := strptime quiet_world;
  now_us := now_us quiet_world;
  detect := detect quiet_world;
  polarity_scores := polarity_scores quiet_world;
  BeautifulSoup := BeautifulSoup quiet_world;
  execute_fault := execute_fault quiet_world;
  to_csv_fault := None;
  to_json_fault := None;
  to_csv_written := None;
  to_json_written := None;
  sql_like := sql_like quiet_world;
  sql_strftime_Y := sql_strftime_Y quiet_world;
  sql_max_variable_number := 2;
  sql_max_sql_length := sql_max_sql_length quiet_world;
  sql_bind_fault := sql_bind_fault quiet_world
|}.

(** As [quiet_world], on a disk that fills while the CSV file is written,
    after its first row. *)
Definition disk_full_world : World := {|
  session_get := session_get quiet_world;
  feedparser_parse := feedparser_parse quiet_world;
  strptime := strptime quiet_world;
  now_us := now_us quiet_world;
  detect := detect quiet_world;
  polarity_scores := polarity_scores quiet_world;
  BeautifulSoup := BeautifulSoup quiet_world;
  execute_fault := execute_fault quiet_world;
  to_csv_fault := Some OtherException;
  to_json_fault := None;
  to_csv_written := Some 1%nat;
  to_json_written := None;
  sql_like := sql_like quiet_world;
  sql_strftime_Y := sql_strftime_Y quiet_world;
  sql_max_variable_number := sql_max_variable_number quiet_world;
  sql_max_sql_length := sql_max_sql_length quiet_world;
  sql_bind_fault := sql_bind_fault quiet_world
|}.

Definition empty_scraper : Scraper := mkScraper [] [] None None [].

(** Two articles that differ in [publication_date] alone. *)
Definition story_monday : Article := {|
  title := py "Storm";
  publication_date := py "2025-01-06 08:00:00";
  source := py "BBC News";
  country := py "UK";
  summary := py "A storm is coming.";
  url := py "http://bbc/storm";
  language := py "en";
  sentiment := py "neutral"
|}.

Definition story_tuesday : Article := {|
  title := py "Storm";
  publication_date := py "2025-01-07 08:00:00";
  source := py "BBC News";
  country := py "UK";
  summary := py "A storm is coming.";
  url := py "http://bbc/storm";
  language := py "en";
  sentiment := py "neutral"
|}.

Definition story_other : Article := {|
  title := py "Calm";
  publication_date := py "2025-01-07 09:00:00";
  source := py "CNN";
  country := py "USA";
  summary := py "The sea is calm.";
  url := py "http://cnn/calm";
  language := py "en";
  sentiment := py "positive"
|}.

(** A request for the positive articles of two countries. *)
Definition request_usa_positive : FilterRequest := {|
  f_country := Some (py "France , USA");
  f_source := None;
  f_language := Some [];
  f_sentiment := Some (py "positive");
  f_year := None;
  f_keyword := Some []
|}.

End Samples.

(** * Properties *)

(** ** The deduplicator *)

Lemma subset_key_key3 (a b : Article) :
  Pandas.subset_key ["title"; "source"; "url"] a
    = Pandas.subset_key ["title"; "source"; "url"] b
  <-> key3 a = key3 b.
Proof.
  unfold key3, Pandas.subset_key, get_field. simpl.
  split; intros H; congruence.
Qed.

Lemma subset_key_key4 (a b : Article) :
  Pandas.subset_key unique_columns a = Pandas.subset_key unique_columns b
  <-> key4 a = key4 b.
Proof.
  unfold key4, Pandas.subset_key, get_field. simpl.
  split; intros H; congruence.
Qed.

Lemma subset_key_elem_key3 (a : Article) (l : list Article) :
  Pandas.subset_key ["title"; "source"; "url"] a
    ∈ Pandas.subset_key ["title"; "source"; "url"] <$> l
  <-> key3 a ∈ key3 <$> l.
Proof.
  rewrite !list_elem_of_fmap. split.
  - intros (b & Hk & Hb). exists b. split; [|done].
    by apply subset_key_key3.
  - intros (b & Hk & Hb). exists b. split; [|done].
    by apply subset_key_key3.
Qed.

Lemma subset_key_elem_key4 (a : Article) (l : list Article) :
  Pandas.subset_key unique_columns a ∈ Pandas.subset_key unique_columns <$> l
  <-> key4 a ∈ key4 <$> l.
Proof.
  rewrite !list_elem_of_fmap. split.
  - intros (b & Hk & Hb). exists b. split; [|done].
    by apply subset_key_key4.
  - intros (b & Hk & Hb). exists b. split; [|done].
    by apply subset_key_key4.
Qed.

Section DropDuplicates.
Variable subset : list string.

Abbreviation key := (Pandas.subset_key subset).

(** The rows selected when [seen] holds the keys of the rows before. *)
Lemma select_not_snoc seen pre a :
  Pandas.select_not (pre ++ [a])
    (Pandas.duplicated_from subset seen (pre ++ [a]))
  = Pandas.select_not pre (Pandas.duplicated_from subset seen pre)
    ++ (if bool_decide (key a ∈ (key <$> pre) ++ seen) then [] else [a]).
Proof.
  revert seen. induction pre as [|b pre IH]; intros seen; simpl.
  - by destruct (bool_decide (key a ∈ seen)).
  - rewrite IH.
    assert (bool_decide (key a ∈ (key <$> pre) ++ key b :: seen)
            = bool_decide (key a ∈ key b :: (key <$> pre) ++ seen)) as ->.
    { apply bool_decide_ext. rewrite !elem_of_app, !elem_of_cons, elem_of_app.
      tauto. }
    by destruct (bool_decide (key b ∈ seen)).
Qed.

Lemma drop_duplicates_snoc pre a :
  Pandas.drop_duplicates subset (pre ++ [a])
  = Pandas.drop_duplicates subset pre
    ++ (if bool_decide (key a ∈ key <$> pre) then [] else [a]).
Proof.
  assert (Pandas.drop_duplicates subset (pre ++ [a])
          = Pandas.select_not (pre ++ [a])
              (Pandas.duplicated subset (pre ++ [a]))) as ->.
  { unfold Pandas.drop_duplicates. by destruct pre. }
  assert (Pandas.drop_duplicates subset pre
          = Pandas.select_not pre (Pandas.duplicated subset pre)) as ->.
  { unfold Pandas.drop_duplicates. by destruct pre. }
  unfold Pandas.duplicated. rewrite select_not_snoc.
  by rewrite app_nil_r.
Qed.

Lemma drop_duplicates_sublist rows :
  Pandas.drop_duplicates subset rows `sublist_of` rows.
Proof.
  induction rows as [|a pre IH] using rev_ind; [done|].
  rewrite drop_duplicates_snoc.
  destruct (bool_decide _).
  - rewrite app_nil_r. by apply sublist_inserts_r.
  - by apply sublist_app.
Qed.

Lemma drop_duplicates_keys rows k :
  k ∈ key <$> Pandas.drop_duplicates subset rows <-> k ∈ key <$> rows.
Proof.
  induction rows as [|a pre IH] using rev_ind; [done|].
  rewrite drop_duplicates_snoc, !fmap_app, !elem_of_app, IH.
  destruct (bool_decide (key a ∈ key <$> pre)) eqn:E; simpl.
  - apply bool_decide_eq_true in E.
    rewrite list_elem_of_singleton, elem_of_nil. split; [tauto|].
    intros [H| ->]; auto.
  - tauto.
Qed.

Lemma drop_duplicates_NoDup rows :
  NoDup (key <$> Pandas.drop_duplicates subset rows).
Proof.
  induction rows as [|a pre IH] using rev_ind; [constructor|].
  rewrite drop_duplicates_snoc, fmap_app.
  destruct (bool_decide (key a ∈ key <$> pre)) eqn:E; simpl.
  - by rewrite app_nil_r.
  - apply bool_decide_eq_false in E.
    apply NoDup_app. split; [done|]. split; [|apply NoDup_singleton].
    intros k Hk ->%list_elem_of_singleton.
    by apply E, drop_duplicates_keys.
Qed.

End DropDuplicates.

Lemma NoDup_fmap_coarser {A B C : Type} (f : A -> B) (g : A -> C)
    (l : list A) :
  (forall a b, g a = g b -> f a = f b) ->
  NoDup (f <$> l) -> NoDup (g <$> l).
Proof.
  intros Hfg. induction l as [|a l IH]; simpl; [constructor|].
  rewrite !NoDup_cons. intros [Hin Hnd]. split; [|by apply IH].
  intros (b & Hb & Hbl)%list_elem_of_fmap. apply Hin.
  apply list_elem_of_fmap. exists b. split; [by apply Hfg|done].
Qed.

Lemma remove_duplicates_eq (s : Scraper) :
  remove_duplicates s
  = (Ok tt,
     add_log [(INFO, "Removed duplicates")]
       (set_news_data
          (Pandas.drop_duplicates ["title"; "source"; "url"] (news_data s))
          s)).
Proof. reflexivity. Qed.

(** C1, as amended.  [remove_duplicates] never fails and compares
    (title, source, url) only.  Reading the batch from left to right, an
    article is kept exactly when no earlier article of the batch has the
    same title, source and url; so the result is a subsequence of the
    batch (the order of the survivors is kept), it holds one article for
    each (title, source, url) of the batch, and that article is the first
    of the batch with it. *)
Theorem remove_duplicates_first_wins :
  forall s : Scraper,
    let out := news_data (remove_duplicates s).2 in
    (remove_duplicates s).1 = Ok tt
    /\ out `sublist_of` news_data s
    /\ NoDup (key3 <$> out)
    /\ (forall k, k ∈ key3 <$> out <-> k ∈ key3 <$> news_data s)
    /\ (news_data s = [] -> out = [])
    /\ (forall pre a,
          news_data s = pre ++ [a] ->
          out = news_data (remove_duplicates (set_news_data pre s)).2
                ++ (if bool_decide (key3 a ∈ key3 <$> pre) then []
                    else [a])).
Proof.
  intros s out. subst out. rewrite remove_duplicates_eq. simpl.
  split; [done|]. split; [apply drop_duplicates_sublist|].
  split.
  { eapply NoDup_fmap_coarser; [|apply drop_duplicates_NoDup].
    intros a b. apply subset_key_key3. }
  split.
  { intros k. rewrite !list_elem_of_fmap. split.
    - intros (a & -> & Ha).
      assert (key3 a ∈ key3 <$> news_data s) as Hk.
      { apply subset_key_elem_key3, drop_duplicates_keys,
          subset_key_elem_key3, list_elem_of_fmap. eauto. }
      by apply list_elem_of_fmap in Hk.
    - intros (a & -> & Ha).
      assert (key3 a
                ∈ key3 <$> Pandas.drop_duplicates ["title"; "source"; "url"]
                             (news_data s)) as Hk.
      { apply subset_key_elem_key3, drop_duplicates_keys,
          subset_key_elem_key3, list_elem_of_fmap. eauto. }
      by apply list_elem_of_fmap in Hk. }
  split; [by intros ->|].
  intros pre a ->. rewrite drop_duplicates_snoc. f_equal.
  apply (f_equal (fun b : bool => if b then [] else [a])).
  apply bool_decide_ext, subset_key_elem_key3.
Qed.

(** C1, on a batch of three articles of which the third repeats the
    title, source and url of the first. *)
Lemma remove_duplicates_first_wins_witness :
  news_data
    (remove_duplicates
       (set_news_data
          [Samples.story_monday; Samples.story_other; Samples.story_tuesday]
          Samples.empty_scraper)).2
  = [Samples.story_monday; Samples.story_other].
Proof.
  destruct (remove_duplicates_first_wins
              (set_news_data
                 [Samples.story_monday; Samples.story_other;
                  Samples.story_tuesday]
                 Samples.empty_scraper))
    as (_ & _ & _ & _ & _ & H).
  rewrite (H [Samples.story_monday; Samples.story_other]
             Samples.story_tuesday eq_refl).
  reflexivity.
Defined.

(** C1, counterexample.  Two articles that differ in [publication_date]
    alone are not both kept: the second is removed as a duplicate of the
    first. *)
Lemma remove_duplicates_merges_dates :
  publication_date Samples.story_monday
    <> publication_date Samples.story_tuesday
  /\ key3 Samples.story_monday = key3 Samples.story_tuesday
  /\ news_data
       (remove_duplicates
          (set_news_data [Samples.story_monday; Samples.story_tuesday]
             Samples.empty_scraper)).2
     = [Samples.story_monday].
Proof. split; [|split]; [discriminate | reflexivity | reflexivity]. Qed.

(** ** The classifiers *)

Lemma detect_language_cases (w : World) (text : pystr) :
  detect_language w text
  = if (length (strip text) <? 10)%nat then ([], Ok (py "unknown"))
    else match detect w (take 1000 text) with
         | Ok lang => ([], Ok (if truthy lang then lang else py "unknown"))
         | Raise e =>
             ([(ERROR, "Language detection error")], Ok (py "unknown"))
         end.
Proof.
  unfold detect_language.
  destruct (length (strip text) <? 10)%nat; [reflexivity|].
  destruct (detect w (take 1000 text)); reflexivity.
Qed.

Lemma detect_language_ok (w : World) (text : pystr) :
  exists l lang, detect_language w text = (l, Ok lang) /\ lang <> [].
Proof.
  rewrite detect_language_cases.
  destruct (length (strip text) <? 10)%nat; [by eauto|].
  destruct (detect w (take 1000 text)) as [[|c lang]|e]; by eauto.
Qed.

Lemma analyze_sentiment_cases (w : World) (text : pystr) :
  analyze_sentiment w text
  = match polarity_scores w text with
    | Raise e => ([(ERROR, "Sentiment analysis error")], Ok (py "unknown"))
    | Ok scores =>
        match scores !! "compound" with
        | None => ([(ERROR, "Sentiment analysis error")], Ok (py "unknown"))
        | Some compound =>
            ([], Ok (if Float.gt compound Float.lit_0_05 then py "positive"
                     else if Float.lt compound (Float.neg Float.lit_0_05)
                          then py "negative" else py "neutral"))
        end
    end.
Proof.
  unfold analyze_sentiment.
  destruct (polarity_scores w text) as [scores|e]; [|reflexivity].
  cbv [call ebind getitem].
  destruct (scores !! "compound") as [c|]; [|reflexivity].
  destruct (Float.gt c Float.lit_0_05); [reflexivity|].
  destruct (Float.lt c (Float.neg Float.lit_0_05)); reflexivity.
Qed.

Lemma analyze_sentiment_ok (w : World) (text : pystr) :
  exists l label,
    analyze_sentiment w text = (l, Ok label) /\ label ∈ sentiment_labels.
Proof.
  rewrite analyze_sentiment_cases. unfold sentiment_labels.
  destruct (polarity_scores w text) as [scores|e].
  - destruct (scores !! "compound") as [c|].
    + destruct (Float.gt c Float.lit_0_05);
        [|destruct (Float.lt c (Float.neg Float.lit_0_05))];
        do 2 eexists; (split; [reflexivity|]); set_solver.
    + do 2 eexists. split; [reflexivity|]. set_solver.
  - do 2 eexists. split; [reflexivity|]. set_solver.
Qed.

Lemma Qltb_lt (a b : Q) : Float.Qltb a b = true <-> (a < b)%Q.
Proof. unfold Float.Qltb, Qlt. apply Z.ltb_lt. Qed.

Lemma Qltb_ge (a b : Q) : Float.Qltb a b = false <-> (b <= a)%Q.
Proof. unfold Float.Qltb, Qle. apply Z.ltb_ge. Qed.

(** ** The feed fetcher *)

Lemma ebind_ok {A B} (m : Eff A) (k : A -> Eff B) l a :
  m = (l, Ok a) -> ebind m k = ((l ++ (k a).1), (k a).2).
Proof. intros ->. simpl. by destruct (k a). Qed.

Lemma entry_pub_date_ok (w : World) (y : datetime) (entry : FeedEntry) :
  exists l d, entry_pub_date w y entry = (l, Ok d).
Proof.
  unfold entry_pub_date.
  destruct (truthy _); [|by eauto].
  destruct (strptime w _) as [[wall off]|]; [|by eauto].
  cbv [call ebind Datetime.lt aware tzinfo].
  destruct y as [yw [yo|]]; [|by eauto].
  destruct (_ <? _)%Z; by eauto.
Qed.

(** Against a naive [one_year_ago] the comparison of a parsed date raises
    [TypeError], which the outer handler turns into the current time: the
    date step then never skips an entry, and always gives the current
    time. *)
Lemma entry_pub_date_naive (w : World) (y : datetime) (entry : FeedEntry) :
  tzinfo y = None ->
  exists l, entry_pub_date w y entry = (l, Ok (Some (now w))).
Proof.
  intros Hy. unfold entry_pub_date.
  destruct (truthy _); [|by eauto].
  destruct (strptime w _) as [[wall off]|]; [|by eauto].
  cbv [call ebind Datetime.lt aware tzinfo].
  destruct y as [yw [yo|]]; [done|by eauto].
Qed.

Lemma build_article_ok (w : World) (c a : pystr) (entry : FeedEntry)
    (d : datetime) :
  exists l art,
    build_article w c a entry d = (l, Ok art)
    /\ title art = clean_text (default (py "No Title") (entry !! "title"))
    /\ publication_date art = strftime d
    /\ source art = a
    /\ country art = c
    /\ summary art
       = clean_text
           (default (default [] (entry !! "description"))
              (entry !! "summary"))
    /\ url art = default [] (entry !! "link")
    /\ (detect_language w (title art ++ py " " ++ summary art)).2
       = Ok (language art)
    /\ (analyze_sentiment w (summary art)).2 = Ok (sentiment art).
Proof.
  unfold build_article. cbv zeta.
  set (t := clean_text (default (py "No Title") (entry !! "title"))).
  set (sm := clean_text _).
  destruct (detect_language_ok w (t ++ py " " ++ sm)) as (l1 & lang & E1 & _).
  destruct (analyze_sentiment_ok w sm) as (l2 & label & E2 & _).
  rewrite (ebind_ok _ _ _ _ E1). rewrite (ebind_ok _ _ _ _ E2).
  do 2 eexists. split; [reflexivity|].
  cbn [title publication_date source country summary url language
       sentiment].
  rewrite E1, E2. by repeat split.
Qed.

(** The loop of [fetch_feed] never raises.  Its result is [entries]
    followed by articles built from entries of the feed, and it holds the
    article of every entry that the date step does not skip. *)
Lemma fetch_entries_ok (w : World) (c a : pystr) (y : datetime)
    (feed_entries : list FeedEntry) :
  forall entries,
  exists l news,
    fetch_entries w c a y feed_entries entries = (l, Ok (entries ++ news))
    /\ Forall (fun art => exists entry d,
                 entry ∈ feed_entries
                 /\ (build_article w c a entry d).2 = Ok art) news
    /\ (forall entry l' d,
          entry ∈ feed_entries ->
          entry_pub_date w y entry = (l', Ok (Some d)) ->
          exists art, art ∈ news /\ (build_article w c a entry d).2 = Ok art).
Proof.
  induction feed_entries as [|entry rest IH]; intros entries.
  - exists [], []. simpl. rewrite app_nil_r.
    split; [done|]. split; [constructor|]. intros ? ? ? []%elem_of_nil.
  - simpl.
    destruct (entry_pub_date_ok w y entry) as (l1 & d & E1).
    rewrite (ebind_ok _ _ _ _ E1).
    destruct d as [d|].
    + destruct (build_article_ok w c a entry d) as (l2 & art & E2 & _).
      rewrite (ebind_ok _ _ _ _ E2).
      destruct (IH (entries ++ [art])) as (l3 & news & E3 & Hall & Hkept).
      rewrite E3. simpl. exists (l1 ++ l2 ++ l3), (art :: news).
      split; [by rewrite <- app_assoc|]. split.
      * constructor.
        -- exists entry, d. split; [left|]. by rewrite E2.
        -- eapply Forall_impl; [exact Hall|].
           intros x (e' & d' & He' & Hb). exists e', d'.
           split; [by right|done].
      * intros e' l' d' [->|He']%elem_of_cons Hd.
        -- rewrite E1 in Hd. injection Hd as _ <-.
           exists art. split; [left|]. by rewrite E2.
        -- destruct (Hkept e' l' d' He' Hd) as (x & Hx & Hb).
           exists x. split; [by right|done].
    + destruct (IH entries) as (l3 & news & E3 & Hall & Hkept).
      rewrite E3. simpl. exists (l1 ++ l3), news.
      split; [done|]. split.
      * eapply Forall_impl; [exact Hall|].
        intros x (e' & d' & He' & Hb). exists e', d'.
        split; [by right|done].
      * intros e' l' d' [->|He']%elem_of_cons Hd.
        -- rewrite E1 in Hd. discriminate.
        -- by apply (Hkept e' l' d').
Qed.

(** [fetch_feed] by cases on what the libraries answer. *)
Lemma fetch_feed_cases (w : World) (c a u : pystr) :
  fetch_feed w c a u
  = let failed (e : exn) : Eff (list Article) :=
      ([(ERROR, if is_RequestException e then "Failed to fetch"
                else "Error processing")], Ok []) in
    match session_get w u with
    | Raise e => failed e
    | Ok response =>
        match raise_for_status response with
        | Raise e => failed e
        | Ok _ =>
            match feedparser_parse w (content response) with
            | Raise e => failed e
            | Ok [] => ([(WARNING, "No entries found")], Ok [])
            | Ok feed_entries =>
                match
                  fetch_entries w c a (sub_days (now w) 365) feed_entries []
                with
                | (l, Ok entries) =>
                    (l ++ [(INFO, "Fetched articles")], Ok entries)
                | (l, Raise e) => (l ++ (failed e).1, Ok [])
                end
            end
        end
    end.
Proof.
  unfold fetch_feed. cbv [call ebind ret logging]. cbn [app].
  destruct (session_get w u) as [response|e];
    [|by (cbn; destruct (is_RequestException e))].
  destruct (raise_for_status response) as [[]|e];
    [|by (cbn; destruct (is_RequestException e))].
  destruct (feedparser_parse w (content response)) as [[|e0 es]|e];
    [done| |by (cbn; destruct (is_RequestException e))].
  destruct (fetch_entries _ _ _ _ _ _) as [l [entries|e]].
  - reflexivity.
  - cbn. by destruct (is_RequestException e).
Qed.

Lemma fetch_feed_ok (w : World) (c a u : pystr) :
  exists l entries, fetch_feed w c a u = (l, Ok entries).
Proof.
  rewrite fetch_feed_cases. cbv zeta.
  destruct (session_get w u) as [response|e]; [|by eauto].
  destruct (raise_for_status response) as [[]|e]; [|by eauto].
  destruct (feedparser_parse w (content response)) as [[|e0 es]|e];
    [by eauto| |by eauto].
  destruct (fetch_entries _ _ _ _ _ _) as [l [entries|e]]; by eauto.
Qed.

(** The articles returned by [fetch_feed] when the feed was fetched and
    parsed. *)
Lemma fetch_feed_parsed (w : World) (c a u : pystr) response feed_entries :
  session_get w u = Ok response ->
  raise_for_status response = Ok tt ->
  feedparser_parse w (content response) = Ok feed_entries ->
  exists l news,
    fetch_feed w c a u = (l, Ok news)
    /\ Forall (fun art => exists entry d,
                 entry ∈ feed_entries
                 /\ (build_article w c a entry d).2 = Ok art) news
    /\ (forall entry l' d,
          entry ∈ feed_entries ->
          entry_pub_date w (sub_days (now w) 365) entry = (l', Ok (Some d)) ->
          exists art, art ∈ news /\ (build_article w c a entry d).2 = Ok art).
Proof.
  intros E1 E2 E3. rewrite fetch_feed_cases. cbv zeta. rewrite E1, E2, E3.
  destruct feed_entries as [|e0 es].
  - exists [(WARNING, "No entries found")], [].
    split; [done|]. split; [constructor|]. intros ? ? ? []%elem_of_nil.
  - destruct (fetch_entries_ok w c a (sub_days (now w) 365) (e0 :: es) [])
      as (l & news & E & Hall & Hkept).
    rewrite E. simpl. by eauto 6.
Qed.

(** With a naive cut-off the loop keeps every entry, and dates every
    article with the current time. *)
Lemma fetch_entries_naive (w : World) (c a : pystr) (y : datetime)
    (feed_entries : list FeedEntry) :
  tzinfo y = None ->
  forall entries,
  exists l news,
    fetch_entries w c a y feed_entries entries = (l, Ok (entries ++ news))
    /\ length news = length feed_entries
    /\ Forall (fun art => publication_date art = strftime (now w)) news.
Proof.
  intros Hy. induction feed_entries as [|entry rest IH]; intros entries.
  - exists [], []. simpl. by rewrite app_nil_r.
  - simpl.
    destruct (entry_pub_date_naive w y entry Hy) as (l1 & E1).
    rewrite (ebind_ok _ _ _ _ E1).
    destruct (build_article_ok w c a entry (now w))
      as (l2 & art & E2 & _ & Hdate & _).
    rewrite (ebind_ok _ _ _ _ E2).
    destruct (IH (entries ++ [art])) as (l3 & news & E3 & Hlen & Hall).
    rewrite E3. simpl. exists (l1 ++ l2 ++ l3), (art :: news).
    split; [by rewrite <- app_assoc|]. simpl. split; [by rewrite Hlen|].
    by constructor.
Qed.

(** [fetch_feed] returns one article for each entry of a feed that was
    fetched and parsed, each dated with the current time. *)
Lemma fetch_feed_keeps_all (w : World) (c a u : pystr) response feed_entries :
  session_get w u = Ok response ->
  raise_for_status response = Ok tt ->
  feedparser_parse w (content response) = Ok feed_entries ->
  exists l entries,
    fetch_feed w c a u = (l, Ok entries)
    /\ length entries = length feed_entries
    /\ Forall (fun art => publication_date art = strftime (now w)) entries.
Proof.
  intros E1 E2 E3. rewrite fetch_feed_cases. cbv zeta. rewrite E1, E2, E3.
  destruct feed_entries as [|e0 es]; [by eauto|].
  destruct (fetch_entries_naive w c a (sub_days (now w) 365) (e0 :: es)
              eq_refl []) as (l & news & E & Hlen & Hall).
  rewrite E. simpl. by eauto.
Qed.

(** ** C5: the sentiment scorer *)

(** C5.  [analyze_sentiment] never raises and returns one of the four
    labels.  When the scorer gives a finite compound score [q], the label
    is "positive" for [q] strictly above the threshold 0.05, "negative"
    for [q] strictly below -0.05, and "neutral" for every [q] from -0.05
    to 0.05, both ends included (0.05 is the value of the literal of the
    source, 3602879701896397 / 2^56).  When the scorer raises, or gives no
    compound score, the label is "unknown". *)
Theorem analyze_sentiment_thresholds :
  forall (w : World) (text : pystr),
    (exists l label,
        analyze_sentiment w text = (l, Ok label)
        /\ label ∈ sentiment_labels)
    /\ (forall scores q,
          polarity_scores w text = Ok scores ->
          scores !! "compound" = Some (Float.Finite q) ->
          let t := (3602879701896397 # 72057594037927936)%Q in
          ((t < q)%Q ->
             analyze_sentiment w text = ([], Ok (py "positive")))
          /\ ((q < - t)%Q ->
                analyze_sentiment w text = ([], Ok (py "negative")))
          /\ ((- t <= q)%Q /\ (q <= t)%Q ->
                analyze_sentiment w text = ([], Ok (py "neutral"))))
    /\ (forall e,
          polarity_scores w text = Raise e ->
          analyze_sentiment w text
          = ([(ERROR, "Sentiment analysis error")], Ok (py "unknown")))
    /\ (forall scores,
          polarity_scores w text = Ok scores ->
          scores !! "compound" = None ->
          analyze_sentiment w text
          = ([(ERROR, "Sentiment analysis error")], Ok (py "unknown"))).
Proof.
  intros w text. split; [apply analyze_sentiment_ok|].
  split; [|split].
  - intros scores q Hs Hc t.
    rewrite analyze_sentiment_cases, Hs, Hc.
    unfold Float.gt, Float.lt, Float.neg, Float.lit_0_05.
    fold t.
    destruct (Float.Qltb t q) eqn:Egt; destruct (Float.Qltb q (- t)) eqn:Elt;
      try apply Qltb_lt in Egt; try apply Qltb_ge in Egt;
      try apply Qltb_lt in Elt; try apply Qltb_ge in Elt;
      (split; [|split]); try reflexivity; intros H;
      exfalso; revert Egt Elt H; unfold Qlt, Qle, t; simpl;
      pose proof (Pos2Z.is_pos (Qden q)); lia.
  - intros e He. by rewrite analyze_sentiment_cases, He.
  - intros scores Hs Hc. by rewrite analyze_sentiment_cases, Hs, Hc.
Qed.

(** C5, the boundary: a compound score of exactly 0.05 is "neutral". *)
Lemma analyze_sentiment_thresholds_witness :
  analyze_sentiment
    (Samples.sample_world [] [] (Some Float.lit_0_05) (fun _ => None))
    (py "It is fine.")
  = ([], Ok (py "neutral")).
Proof.
  pose proof (analyze_sentiment_thresholds
                (Samples.sample_world [] [] (Some Float.lit_0_05)
                   (fun _ => None))
                (py "It is fine.")) as (_ & H & _).
  specialize (H {[ "compound" := Float.lit_0_05 ]} _ eq_refl eq_refl).
  destruct H as (_ & _ & H). apply H.
  split; unfold Qle; simpl; lia.
Defined.

(** The four scores named by the specification: 0.05 and -0.05 are
    neutral, 0.0501 is positive and -0.0501 is negative. *)
Lemma analyze_sentiment_boundaries :
  let label (c : Float.pyfloat) :=
    (analyze_sentiment (Samples.sample_world [] [] (Some c) (fun _ => None))
       (py "text")).2 in
  label Float.lit_0_05 = Ok (py "neutral")
  /\ label Float.lit_0_0501 = Ok (py "positive")
  /\ label (Float.neg Float.lit_0_05) = Ok (py "neutral")
  /\ label (Float.neg Float.lit_0_0501) = Ok (py "negative").
Proof. vm_compute. repeat split. Qed.

(** ** The historical scraper *)

Lemma scrape_historical_url_language (w : World) (c u : pystr) l art :
  scrape_historical_url w c u = (l, Ok art) -> language art <> [].
Proof.
  unfold scrape_historical_url. cbv [call ebind].
  destruct (session_get w u) as [response|e]; [|done].
  destruct (BeautifulSoup w (text response) "summary") as [soup|e]; [|done].
  cbv zeta.
  set (t := clean_text (default (py "No Title") (find_title soup))).
  set (sm := clean_text _).
  destruct (detect_language_ok w (t ++ py " " ++ sm))
    as (l1 & lang & -> & Hne).
  destruct (analyze_sentiment_ok w sm) as (l2 & label & -> & _).
  cbn [ret app]. intros H. injection H as _ <-. exact Hne.
Qed.

Lemma scrape_historical_urls_language (w : World) (c : pystr)
    (urls : list pystr) :
  forall entries l out,
    Forall (fun art => language art <> []) entries ->
    scrape_historical_urls w c urls entries = (l, Ok out) ->
    Forall (fun art => language art <> []) out.
Proof.
  induction urls as [|u rest IH]; intros entries l out Hall H; simpl in H.
  - by injection H as _ <-.
  - destruct (scrape_historical_url w c u) as [l1 [art|e]] eqn:E1.
    + cbn in H.
      destruct (scrape_historical_urls w c rest (entries ++ [art]))
        as [l2 r2] eqn:E2.
      injection H as _ ->. refine (IH _ _ _ _ E2).
      apply Forall_app. split; [done|]. constructor; [|done].
      by apply (scrape_historical_url_language w c u l1).
    + cbn in H.
      destruct (scrape_historical_urls w c rest entries) as [l2 r2] eqn:E2.
      injection H as _ ->. by apply (IH _ _ _ Hall E2).
Qed.

Lemma scrape_historical_articles_language (w : World)
    (historical_urls : list (pystr * list pystr)) l out :
  scrape_historical_articles w historical_urls = (l, Ok out) ->
  Forall (fun art => language art <> []) out.
Proof.
  unfold scrape_historical_articles.
  assert (Forall (fun art => language art <> []) (@nil Article)) as Hnil
    by constructor.
  revert l out Hnil. generalize (@nil Article).
  induction historical_urls as [|[c urls] rest IH];
    intros entries l out Hall H; simpl in H.
  - by injection H as _ <-.
  - destruct (scrape_historical_urls w c urls entries) as [l1 [mid|e]] eqn:E1;
      [|done].
    cbn in H.
    destruct (scrape_historical_from w rest mid) as [l2 r2] eqn:E2.
    injection H as _ ->.
    apply (IH mid l2 out); [|done].
    by apply (scrape_historical_urls_language w c urls entries l1).
Qed.

(** ** C8: the language detector *)

(** C8.  [detect_language] never raises and never returns an empty
    string.  For a text whose stripped length is below 10 it returns
    "unknown" (and logs nothing).  Otherwise it returns what the detector
    says of the first 1000 characters, or "unknown" when the detector
    raises or gives an empty answer; the detector is given nothing else,
    so two worlds whose detectors agree on these characters give the same
    result.  Hence the language of every article returned by [fetch_feed]
    or by [scrape_historical_articles] is not empty. *)
Theorem detect_language_contract :
  forall (w : World) (text : pystr),
    (exists l lang, detect_language w text = (l, Ok lang) /\ lang <> [])
    /\ (length (strip text) < 10 ->
          detect_language w text = ([], Ok (py "unknown")))
    /\ (10 <= length (strip text) ->
          (forall lang,
              detect w (take 1000 text) = Ok lang -> lang <> [] ->
              detect_language w text = ([], Ok lang))
          /\ (detect w (take 1000 text) = Ok [] ->
                detect_language w text = ([], Ok (py "unknown")))
          /\ (forall e,
                detect w (take 1000 text) = Raise e ->
                (detect_language w text).2 = Ok (py "unknown")))
    /\ length (take 1000 text) <= 1000
    /\ (forall w' : World,
          detect w' (take 1000 text) = detect w (take 1000 text) ->
          detect_language w' text = detect_language w text)
    /\ (forall country agency feed_url l entries art,
          fetch_feed w country agency feed_url = (l, Ok entries) ->
          art ∈ entries -> language art <> [])
    /\ (forall historical_urls l entries art,
          scrape_historical_articles w historical_urls = (l, Ok entries) ->
          art ∈ entries -> language art <> []).
Proof.
  intros w text. split; [apply detect_language_ok|].
  split; [|split; [|split; [|split; [|split]]]];
    [| | | | |
     intros hist l entries art H Hart;
     apply scrape_historical_articles_language in H;
     rewrite Forall_forall in H; by apply H].
  - intros Hlen. rewrite detect_language_cases.
    by apply Nat.ltb_lt in Hlen as ->.
  - intros Hlen. apply Nat.ltb_ge in Hlen.
    rewrite detect_language_cases, Hlen. split; [|split].
    + intros lang -> Hne. by destruct lang.
    + by intros ->.
    + by intros e ->.
  - rewrite length_take. lia.
  - intros w' Hd. rewrite !detect_language_cases. by rewrite Hd.
  - intros c a u l entries art Hf Hart.
    rewrite fetch_feed_cases in Hf. cbv zeta in Hf.
    destruct (session_get w u) as [response|e];
      [|injection Hf as _ <-; by apply elem_of_nil in Hart].
    destruct (raise_for_status response) as [[]|e];
      [|injection Hf as _ <-; by apply elem_of_nil in Hart].
    destruct (feedparser_parse w (content response)) as [feed_entries|e];
      [|injection Hf as _ <-; by apply elem_of_nil in Hart].
    destruct feed_entries as [|e0 es];
      [injection Hf as _ <-; by apply elem_of_nil in Hart|].
    destruct (fetch_entries_ok w c a (sub_days (now w) 365) (e0 :: es) [])
      as (l1 & news & E & Hall & _).
    rewrite E in Hf. injection Hf as _ <-.
    rewrite Forall_forall in Hall.
    destruct (Hall art Hart) as (entry & d & _ & Hb).
    destruct (build_article_ok w c a entry d)
      as (l2 & art' & E2 & _ & _ & _ & _ & _ & _ & Hlang & _).
    rewrite E2 in Hb. injection Hb as ->.
    destruct (detect_language_ok w (title art ++ py " " ++ summary art))
      as (l3 & lang & E3 & Hne).
    rewrite E3 in Hlang. injection Hlang as ->. done.
Qed.

(** C8, on a short text: "Hi there" has 8 characters. *)
Lemma detect_language_contract_witness :
  detect_language Samples.quiet_world (py "  Hi there  ")
  = ([], Ok (py "unknown")).
Proof.
  pose proof (detect_language_contract Samples.quiet_world
                (py "  Hi there  ")) as (_ & H & _).
  apply H. vm_compute. lia.
Defined.

(** ** C4: the recency filter *)

(** The cut-off of [fetch_feed] is a naive value. *)
Lemma one_year_ago_naive (w : World) : tzinfo (sub_days (now w) 365) = None.
Proof. reflexivity. Qed.

(** In [fetch_feed] the date step never skips an entry: whatever the
    entry holds, its date is the current time. *)
Lemma entry_pub_date_never_skips (w : World) (entry : FeedEntry) :
  exists l,
    entry_pub_date w (sub_days (now w) 365) entry = (l, Ok (Some (now w))).
Proof. apply entry_pub_date_naive, one_year_ago_naive. Qed.

(** C4, where the code fails.  The recency filter excludes nothing.  In
    every world the date step of [fetch_feed] gives the current time for
    every entry and never skips one, so a feed that was fetched and parsed
    gives one article for each of its entries, each dated with the current
    time.  At the failing input the entry is dated 2018-01-01 10:00:00
    +0000, which [strptime] parses, and the clock reads 2025-01-01: the
    entry is more than 365 days old, and [fetch_feed] returns its article,
    dated with the current time, after logging an error of the date
    step. *)
Theorem fetch_feed_keeps_old_entry :
  (forall (w : World) (entry : FeedEntry),
      exists l,
        entry_pub_date w (sub_days (now w) 365) entry
        = (l, Ok (Some (now w))))
  /\ (forall (w : World) (country agency feed_url : pystr)
             (response : Response) (feed_entries : list FeedEntry),
        session_get w feed_url = Ok response ->
        raise_for_status response = Ok tt ->
        feedparser_parse w (content response) = Ok feed_entries ->
        exists l entries,
          fetch_feed w country agency feed_url = (l, Ok entries)
          /\ length entries = length feed_entries
          /\ Forall (fun art => publication_date art = strftime (now w))
                entries)
  /\ (let w := Samples.quiet_world in
      feedparser_parse w (py "<rss/>") = Ok [Samples.entry_2018]
      /\ Samples.entry_2018 !! "published" = Some Samples.date_2018
      /\ strptime w Samples.date_2018 = Some (1514800800000000, 0)%Z
      /\ (1514800800000000 <? now_us w - 365 * us_per_day)%Z = true
      /\ fetch_feed w (py "UK") (py "BBC News") Samples.bbc_url
         = ([(ERROR, "Error parsing date"); (INFO, "Fetched articles")],
            Ok [ {| title := py "Old news";
                    publication_date := py "2025-01-01 00:00:00";
                    source := py "BBC News";
                    country := py "UK";
                    summary := [];
                    url := [];
                    language := py "unknown";
                    sentiment := py "neutral" |} ])).
Proof.
  split; [exact entry_pub_date_never_skips|].
  split; [exact fetch_feed_keeps_all|].
  vm_compute. repeat split.
Qed.

(** C4, for the feed of [quiet_world], whose only entry is of 2018: one
    article is returned. *)
Lemma fetch_feed_keeps_old_entry_witness :
  exists l entries,
    fetch_feed Samples.quiet_world (py "UK") (py "BBC News") Samples.bbc_url
    = (l, Ok entries)
    /\ length entries = 1
    /\ Forall (fun art => publication_date art = py "2025-01-01 00:00:00")
          entries.
Proof.
  destruct fetch_feed_keeps_old_entry as (_ & H & _).
  apply (H Samples.quiet_world (py "UK") (py "BBC News") Samples.bbc_url
           (mkResponse 200 (py "<rss/>") (py "<rss/>"))
           [Samples.entry_2018]); reflexivity.
Defined.

(** ** C9: the title of an article *)

Lemma lstrip_keeps (c : N) (s : pystr) :
  c ∈ s -> isspace c = false -> c ∈ lstrip s.
Proof.
  intros Hin Hc. induction s as [|a s IH]; [done|]. simpl.
  destruct (isspace a) eqn:Ea; [|done].
  apply elem_of_cons in Hin as [->|Hin]; [congruence|by apply IH].
Qed.

Lemma strip_keeps (c : N) (s : pystr) :
  c ∈ s -> isspace c = false -> c ∈ strip s.
Proof.
  intros Hin Hc. unfold strip, rstrip.
  apply elem_of_reverse, lstrip_keeps; [|done].
  apply elem_of_reverse. by apply lstrip_keeps.
Qed.

Lemma sub_ws_from_keeps (c : N) (s : pystr) :
  c ∈ s -> isspace c = false -> forall b, c ∈ sub_ws_from b s.
Proof.
  intros Hin Hc. induction s as [|a s IH]; intros b; [done|]. simpl.
  apply elem_of_cons in Hin as [->|Hin].
  - rewrite Hc. by left.
  - destruct (isspace a); [destruct b|]; try right; by apply IH.
Qed.

Lemma encode_ignore_decode_keeps (c : N) (s : pystr) :
  c ∈ s -> is_surrogate c = false -> c ∈ encode_ignore_decode s.
Proof.
  intros Hin Hc. unfold encode_ignore_decode.
  apply list_elem_of_In, filter_In. split; [by apply list_elem_of_In|].
  by rewrite Hc.
Qed.

(** A text that holds a character which is neither whitespace nor a
    surrogate is not cleaned to the empty string. *)
Lemma clean_text_nonempty (c : N) (t : pystr) :
  c ∈ t -> isspace c = false -> is_surrogate c = false ->
  clean_text t <> [].
Proof.
  intros Hin Hsp Hsu. unfold clean_text.
  destruct t as [|a t]; [by apply elem_of_nil in Hin|]. simpl truthy.
  cbn [negb]. intros Hnil.
  assert (c ∈ encode_ignore_decode (sub_ws (strip (a :: t)))) as H.
  { apply encode_ignore_decode_keeps; [|done].
    apply sub_ws_from_keeps; [|done]. by apply strip_keeps. }
  rewrite Hnil in H. by apply elem_of_nil in H.
Qed.

Lemma clean_text_blank (t : pystr) : strip t = [] -> clean_text t = [].
Proof.
  intros H. unfold clean_text. destruct (truthy t); [|done].
  simpl. by rewrite H.
Qed.

(** ** The methods that change the scraper *)

Lemma set_db_id (s : Scraper) : set_db (db s) s = s.
Proof. by destruct s. Qed.

Lemma mbind_ok {A B} (m : M A) (k : A -> M B) s a s' :
  m s = (Ok a, s') -> mbind m k s = k a s'.
Proof. unfold mbind. by intros ->. Qed.

Lemma mbind_raise {A B} (m : M A) (k : A -> M B) s e s' :
  m s = (Raise e, s') -> mbind m k s = (Raise e, s').
Proof. unfold mbind. by intros ->. Qed.

Lemma try_except_all {A} (body : Eff A) (h : exn -> Eff A) :
  (forall e, exists l a, h e = (l, Ok a)) ->
  exists l a, try_except body [(Exception, h)] = (l, Ok a).
Proof.
  intros Hh. destruct body as [l [a|e]]; simpl; [by eauto|].
  destruct (Hh e) as (l' & a & ->). by eauto.
Qed.

Lemma scrape_historical_urls_ok (w : World) (c : pystr) (urls : list pystr) :
  forall entries,
  exists l out, scrape_historical_urls w c urls entries = (l, Ok out).
Proof.
  induction urls as [|u rest IH]; intros entries; simpl; [by eauto|].
  edestruct (try_except_all
               (ebind (scrape_historical_url w c u)
                  (fun article => ret (entries ++ [article])))
               (fun _ => ebind (logging ERROR "Historical scrape error")
                           (fun _ => ret entries)))
    as (l1 & out1 & E1); [by eauto|].
  rewrite (ebind_ok _ _ _ _ E1).
  destruct (IH out1) as (l2 & out2 & E2). rewrite E2. by eauto.
Qed.

Lemma scrape_historical_articles_ok (w : World)
    (historical_urls : list (pystr * list pystr)) :
  exists l out, scrape_historical_articles w historical_urls = (l, Ok out).
Proof.
  unfold scrape_historical_articles. generalize (@nil Article).
  induction historical_urls as [|[c urls] rest IH]; intros entries; simpl;
    [by eauto|].
  destruct (scrape_historical_urls_ok w c urls entries) as (l1 & out1 & E1).
  rewrite (ebind_ok _ _ _ _ E1).
  destruct (IH out1) as (l2 & out2 & E2). rewrite E2. by eauto.
Qed.

(** Collecting the results of calls that did not raise appends what they
    returned, in submission order, and changes nothing but the batch and
    the log. *)
Lemma collect_results_ok (tasks : list (Eff (list Article))) :
  Forall (fun t => exists l v, t = (l, Ok v)) tasks ->
  forall s,
  exists s',
    collect_results tasks s = (Ok tt, s')
    /\ news_data s' = news_data s ++ concat (returned <$> tasks)
    /\ db s' = db s /\ csv_file s' = csv_file s
    /\ json_file s' = json_file s.
Proof.
  induction 1 as [|t tasks (l & v & ->) _ IH]; intros s; simpl.
  - exists s. by rewrite app_nil_r.
  - destruct (IH (set_news_data (news_data s ++ v) (add_log l s)))
      as (s' & E & Hn & Hd & Hc & Hj).
    exists s'. split; [exact E|]. rewrite Hn, Hd, Hc, Hj.
    unfold returned. simpl. by rewrite app_assoc.
Qed.

Lemma submit_all_ok (w : World)
    (rss_feeds : list (pystr * list (pystr * pystr))) :
  Forall (fun t => exists l v, t = (l, Ok v)) (submit_all w rss_feeds).
Proof.
  apply Forall_forall. intros t Ht. unfold submit_all in Ht.
  apply list_elem_of_bind in Ht as ([c feeds] & Ht & _).
  apply list_elem_of_bind in Ht as ([a u] & Ht & _).
  apply list_elem_of_singleton in Ht as ->. apply fetch_feed_ok.
Qed.

Lemma scrape_all_feeds_over_spec (w : World)
    (rss_feeds : list (pystr * list (pystr * pystr)))
    (historical_urls : list (pystr * list pystr)) (s : Scraper) :
  exists s',
    scrape_all_feeds_over w rss_feeds historical_urls s = (Ok tt, s')
    /\ news_data s'
       = news_data s
         ++ returned (scrape_historical_articles w historical_urls)
         ++ concat (returned <$> submit_all w rss_feeds)
    /\ db s' = db s /\ csv_file s' = csv_file s
    /\ json_file s' = json_file s.
Proof.
  unfold scrape_all_feeds_over. cbv zeta.
  destruct (scrape_historical_articles_ok w historical_urls)
    as (l & hist & E).
  unfold returned at 1. rewrite E.
  destruct (collect_results_ok _ (submit_all_ok w rss_feeds)
              (set_news_data (news_data s ++ hist) (add_log l s)))
    as (s' & E' & Hn & Hd & Hc & Hj).
  exists (add_log [(INFO, "Total articles fetched")] s').
  unfold mbind, lift, extend_news_data, modify. simpl.
  rewrite E'. simpl. rewrite Hn, Hd, Hc, Hj. simpl.
  by rewrite app_assoc.
Qed.

(** ** C2: failures of a source *)

(** C2.  [fetch_feed] never raises: it always returns a list.  The list is
    empty when the request fails (retries included), when the status of
    the response is an error, when the parser raises, and when the feed
    has no entry.  [scrape_all_feeds] never raises either: it appends to
    the batch what the historical scraper returned and then what every
    configured feed returned, in the order of the configuration; so the
    articles of a feed are in the batch whatever happened to the other
    feeds. *)
Theorem fetch_feed_never_raises :
  forall w : World,
    (forall country agency feed_url,
        exists l entries,
          fetch_feed w country agency feed_url = (l, Ok entries))
    /\ (forall country agency feed_url e,
          session_get w feed_url = Raise e ->
          (fetch_feed w country agency feed_url).2 = Ok [])
    /\ (forall country agency feed_url response e,
          session_get w feed_url = Ok response ->
          raise_for_status response = Raise e ->
          (fetch_feed w country agency feed_url).2 = Ok [])
    /\ (forall country agency feed_url response e,
          session_get w feed_url = Ok response ->
          raise_for_status response = Ok tt ->
          feedparser_parse w (content response) = Raise e ->
          (fetch_feed w country agency feed_url).2 = Ok [])
    /\ (forall country agency feed_url response,
          session_get w feed_url = Ok response ->
          raise_for_status response = Ok tt ->
          feedparser_parse w (content response) = Ok [] ->
          fetch_feed w country agency feed_url
          = ([(WARNING, "No entries found")], Ok []))
    /\ (forall s rss_feeds historical_urls,
          exists s',
            scrape_all_feeds_over w rss_feeds historical_urls s = (Ok tt, s')
            /\ news_data s'
               = news_data s
                 ++ returned (scrape_historical_articles w historical_urls)
                 ++ concat (returned <$> submit_all w rss_feeds)
            /\ (forall country feeds agency feed_url art,
                  (country, feeds) ∈ rss_feeds ->
                  (agency, feed_url) ∈ feeds ->
                  art ∈ returned (fetch_feed w country agency feed_url) ->
                  art ∈ news_data s'))
    /\ (forall s,
          exists s',
            scrape_all_feeds w s = (Ok tt, s')
            /\ (forall country feeds agency feed_url art,
                  (country, feeds) ∈ RSS_FEEDS ->
                  (agency, feed_url) ∈ feeds ->
                  art ∈ returned (fetch_feed w country agency feed_url) ->
                  art ∈ news_data s')).
Proof.
  intros w.
  assert (forall s rss_feeds historical_urls,
          exists s',
            scrape_all_feeds_over w rss_feeds historical_urls s = (Ok tt, s')
            /\ news_data s'
               = news_data s
                 ++ returned (scrape_historical_articles w historical_urls)
                 ++ concat (returned <$> submit_all w rss_feeds)
            /\ (forall country feeds agency feed_url art,
                  (country, feeds) ∈ rss_feeds ->
                  (agency, feed_url) ∈ feeds ->
                  art ∈ returned (fetch_feed w country agency feed_url) ->
                  art ∈ news_data s')) as Hall.
  { intros s rss hist.
    destruct (scrape_all_feeds_over_spec w rss hist s) as (s' & E & Hn & _).
    exists s'. split; [exact E|]. split; [exact Hn|].
    intros c feeds a u art Hc Ha Hart. rewrite Hn, !elem_of_app.
    right. right. apply list_elem_of_In, in_concat.
    exists (returned (fetch_feed w c a u)).
    split; [|by apply list_elem_of_In].
    apply list_elem_of_In, list_elem_of_fmap.
    exists (fetch_feed w c a u). split; [done|].
    unfold submit_all. apply list_elem_of_bind.
    exists (c, feeds). split; [|done].
    apply list_elem_of_bind. exists (a, u). split; [|done].
    apply list_elem_of_singleton. reflexivity. }
  split; [intros; apply fetch_feed_ok|].
  split; [|split; [|split; [|split; [|split]]]].
  - intros c a u e E. rewrite fetch_feed_cases. cbv zeta. by rewrite E.
  - intros c a u r e E1 E2. rewrite fetch_feed_cases. cbv zeta.
    by rewrite E1, E2.
  - intros c a u r e E1 E2 E3. rewrite fetch_feed_cases. cbv zeta.
    by rewrite E1, E2, E3.
  - intros c a u r E1 E2 E3. rewrite fetch_feed_cases. cbv zeta.
    by rewrite E1, E2, E3.
  - exact Hall.
  - intros s. destruct (Hall s RSS_FEEDS HISTORICAL_URLS) as (s' & E & _ & H).
    exists s'. split; [exact E|exact H].
Qed.

(** C2, with three sources of which the first cannot be reached: the
    batch holds what the two other sources returned. *)
Lemma fetch_feed_never_raises_witness :
  session_get Samples.bbc_down_world Samples.bbc_url = Raise RequestException
  /\ exists s',
       scrape_all_feeds_over Samples.bbc_down_world Samples.three_sources []
         Samples.empty_scraper = (Ok tt, s')
       /\ news_data s'
          = returned (fetch_feed Samples.bbc_down_world (py "UK")
                        (py "The Guardian") Samples.guardian_url)
            ++ returned (fetch_feed Samples.bbc_down_world (py "USA")
                           (py "CNN") Samples.cnn_url)
       /\ length (news_data s') = 2.
Proof.
  split; [reflexivity|].
  destruct (fetch_feed_never_raises Samples.bbc_down_world)
    as (_ & _ & _ & _ & _ & H & _).
  destruct (H Samples.empty_scraper Samples.three_sources [])
    as (s' & E & Hn & _).
  exists s'. split; [exact E|]. rewrite Hn. split; reflexivity.
Defined.

(** ** The store writer *)

Lemma insert_or_ignore_present (item : Article) (rows : list Article) :
  key4 item ∈ key4 <$> rows -> insert_or_ignore item rows = rows.
Proof.
  intros H. unfold insert_or_ignore.
  rewrite bool_decide_eq_true_2; [done|]. by apply subset_key_elem_key4.
Qed.

Lemma insert_or_ignore_fresh (item : Article) (rows : list Article) :
  key4 item ∉ key4 <$> rows -> insert_or_ignore item rows = rows ++ [item].
Proof.
  intros H. unfold insert_or_ignore.
  rewrite bool_decide_eq_false_2; [done|]. by rewrite subset_key_elem_key4.
Qed.

Lemma insert_or_ignore_keys (item : Article) (rows : list Article) k :
  k ∈ key4 <$> insert_or_ignore item rows
  <-> k = key4 item \/ k ∈ key4 <$> rows.
Proof.
  destruct (decide (key4 item ∈ key4 <$> rows)) as [Hin|Hout].
  - rewrite insert_or_ignore_present by done. split; [tauto|].
    by intros [->|?].
  - rewrite insert_or_ignore_fresh by done.
    rewrite fmap_app, elem_of_app. simpl. rewrite list_elem_of_singleton.
    tauto.
Qed.

Lemma insert_or_ignore_NoDup (item : Article) (rows : list Article) :
  NoDup (key4 <$> rows) -> NoDup (key4 <$> insert_or_ignore item rows).
Proof.
  intros Hnd. destruct (decide (key4 item ∈ key4 <$> rows)) as [Hin|Hout].
  - by rewrite insert_or_ignore_present.
  - rewrite insert_or_ignore_fresh by done. rewrite fmap_app.
    apply NoDup_app. split; [done|]. split; [|apply NoDup_singleton].
    intros k Hk ->%list_elem_of_singleton. done.
Qed.

Lemma insert_all_keys (items rows : list Article) k :
  k ∈ key4 <$> insert_all items rows
  <-> k ∈ key4 <$> items \/ k ∈ key4 <$> rows.
Proof.
  revert rows. induction items as [|item items IH]; intros rows; simpl.
  - rewrite elem_of_nil. tauto.
  - unfold insert_all in *. simpl. rewrite IH, insert_or_ignore_keys.
    rewrite elem_of_cons. tauto.
Qed.

Lemma insert_all_NoDup (items rows : list Article) :
  NoDup (key4 <$> rows) -> NoDup (key4 <$> insert_all items rows).
Proof.
  revert rows. induction items as [|item items IH]; intros rows Hnd;
    [done|].
  unfold insert_all in *. simpl. by apply IH, insert_or_ignore_NoDup.
Qed.

Lemma insert_all_present (items rows : list Article) :
  (forall item, item ∈ items -> key4 item ∈ key4 <$> rows) ->
  insert_all items rows = rows.
Proof.
  induction items as [|item items IH]; intros H; [done|].
  unfold insert_all in *. simpl.
  rewrite insert_or_ignore_present by (apply H; left).
  apply IH. intros i Hi. apply H. by right.
Qed.

Lemma insert_all_idem (items rows : list Article) :
  insert_all items (insert_all items rows) = insert_all items rows.
Proof.
  apply insert_all_present. intros item Hitem.
  apply insert_all_keys. left. apply list_elem_of_fmap. eauto.
Qed.

Lemma attempted_no_fault (w : World) (items : list Article) :
  (forall item, item ∈ items -> execute_fault w item = None) ->
  attempted w items = items /\ first_fault w items = None.
Proof.
  induction items as [|item items IH]; intros H; [done|]. simpl.
  rewrite (H item) by left.
  destruct IH as [-> ->]; [|done]. intros i Hi. apply H. by right.
Qed.

Lemma attempted_fault (w : World) (pre post : list Article) bad e :
  (forall item, item ∈ pre -> execute_fault w item = None) ->
  execute_fault w bad = Some e ->
  attempted w (pre ++ bad :: post) = pre
  /\ first_fault w (pre ++ bad :: post) = Some e.
Proof.
  intros Hpre Hbad. induction pre as [|item pre IH]; simpl.
  - by rewrite Hbad.
  - rewrite (Hpre item) by left.
    destruct IH as [-> ->]; [|done]. intros i Hi. apply Hpre. by right.
Qed.

Lemma insert_items_spec (w : World) (items : list Article) :
  forall s,
    insert_items w items s
    = (match first_fault w items with
       | None => Ok tt
       | Some e => Raise e
       end,
       set_db (insert_all (attempted w items) (db s)) s).
Proof.
  induction items as [|item items IH]; intros s; simpl.
  - unfold insert_all. simpl. by rewrite set_db_id.
  - destruct (execute_fault w item) as [e|].
    + unfold insert_all. simpl. by rewrite set_db_id.
    + unfold mbind, modify. rewrite IH. by destruct s.
Qed.

Lemma save_to_database_spec (w : World) (s : Scraper) :
  save_to_database w s
  = let s1 :=
      set_db (insert_all (attempted w (news_data s)) (db s)) s in
    match first_fault w (news_data s) with
    | None => (Ok tt, add_log [(INFO, "Saved data to database")] s1)
    | Some e =>
        if is_SqliteError e
        then (Ok tt, add_log [(ERROR, "Error saving to database")] s1)
        else (Raise e, s1)
    end.
Proof.
  unfold save_to_database, m_try_except, mbind, get.
  rewrite insert_items_spec.
  destruct (first_fault w (news_data s)) as [e|]; [|reflexivity].
  cbv zeta. by destruct (is_SqliteError e).
Qed.

(** Writing does not change the batch. *)
Lemma save_to_database_news_data (w : World) (s : Scraper) :
  news_data (save_to_database w s).2 = news_data s.
Proof.
  rewrite save_to_database_spec. cbv zeta.
  destruct (first_fault w (news_data s)) as [e|]; [|reflexivity].
  by destruct (is_SqliteError e).
Qed.

Lemma save_to_database_db (w : World) (s : Scraper) :
  db (save_to_database w s).2
  = insert_all (attempted w (news_data s)) (db s).
Proof.
  rewrite save_to_database_spec. cbv zeta.
  destruct (first_fault w (news_data s)) as [e|]; [|reflexivity].
  by destruct (is_SqliteError e).
Qed.

(** ** C3: writing the same batch twice *)

(** C3.  Writing a row whose (title, publication_date, source, url) is
    the key of a stored row leaves the table as it is.  So after a first
    run of [save_to_database], a second run with the same batch leaves
    the table, and its number of rows, unchanged; the first run leaves no
    two rows with the same key in a table that had none.  When the engine
    refuses no row of the batch, both runs end without exception and log
    no error, and after the first run every article of the batch has a
    row with its key. *)
Theorem save_to_database_idempotent :
  forall (w : World) (s : Scraper),
    let s1 := (save_to_database w s).2 in
    let s2 := (save_to_database w s1).2 in
    news_data s1 = news_data s
    /\ db s2 = db s1
    /\ length (db s2) = length (db s1)
    /\ (NoDup (key4 <$> db s) -> NoDup (key4 <$> db s1))
    /\ ((forall item, item ∈ news_data s -> execute_fault w item = None) ->
        (save_to_database w s).1 = Ok tt
        /\ (save_to_database w s1).1 = Ok tt
        /\ log s1 = log s ++ [(INFO, "Saved data to database")]
        /\ log s2 = log s1 ++ [(INFO, "Saved data to database")]
        /\ (forall item, item ∈ news_data s -> key4 item ∈ key4 <$> db s1))
    /\ (forall item rows,
          key4 item ∈ key4 <$> rows -> insert_or_ignore item rows = rows).
Proof.
  intros w s s1 s2.
  assert (news_data s1 = news_data s) as Hn
    by apply save_to_database_news_data.
  assert (db s1 = insert_all (attempted w (news_data s)) (db s)) as Hd1
    by apply save_to_database_db.
  assert (db s2 = db s1) as Hd2.
  { subst s2. rewrite save_to_database_db, Hn, Hd1.
    apply insert_all_idem. }
  split; [exact Hn|]. split; [exact Hd2|]. split; [by rewrite Hd2|].
  split; [|split].
  - rewrite Hd1. apply insert_all_NoDup.
  - intros Hok. destruct (attempted_no_fault w (news_data s) Hok) as [Ha Hf].
    subst s2. revert Hn Hd1. subst s1.
    rewrite !save_to_database_spec. cbv zeta. rewrite Hf. simpl.
    rewrite Hf. simpl. intros _ _. repeat split.
    intros item Hitem. rewrite Ha. apply insert_all_keys. left.
    apply list_elem_of_fmap. eauto.
  - apply insert_or_ignore_present.
Qed.

(** C3, on a batch of three articles and an empty table: both runs leave
    three rows. *)
Lemma save_to_database_idempotent_witness :
  let s :=
    set_news_data
      [Samples.story_monday; Samples.story_tuesday; Samples.story_other]
      Samples.empty_scraper in
  let s1 := (save_to_database Samples.quiet_world s).2 in
  let s2 := (save_to_database Samples.quiet_world s1).2 in
  (save_to_database Samples.quiet_world s1).1 = Ok tt
  /\ length (db s1) = 3
  /\ length (db s2) = 3.
Proof.
  intros s s1 s2.
  destruct (save_to_database_idempotent Samples.quiet_world s)
    as (_ & _ & Hlen & _ & H & _).
  destruct H as (_ & H2 & _); [reflexivity|].
  split; [exact H2|]. split; [reflexivity|].
  fold s1 in Hlen. fold s2 in Hlen. rewrite Hlen. reflexivity.
Defined.

(** ** C7: a row that the engine refuses *)

(** C7, as amended.  [save_to_database] writes the rows of the batch in
    order, each one committed by itself, up to the first row for which
    [cursor.execute] raises: the rows before it are written and stay
    written, that row and the rows after it are not attempted.  When the
    exception is an [sqlite3.Error] it is logged once, for the batch, and
    the call returns; another exception is raised to the caller. *)
Theorem save_to_database_stops_at_failure :
  forall (w : World) (s : Scraper) (pre post : list Article)
         (bad : Article) (e : exn),
    news_data s = pre ++ bad :: post ->
    (forall item, item ∈ pre -> execute_fault w item = None) ->
    execute_fault w bad = Some e ->
    let s' := (save_to_database w s).2 in
    db s' = insert_all pre (db s)
    /\ (forall item, item ∈ pre -> key4 item ∈ key4 <$> db s')
    /\ (forall k, k ∈ key4 <$> db s' ->
                  k ∈ key4 <$> pre \/ k ∈ key4 <$> db s)
    /\ (e = SqliteError ->
        (save_to_database w s).1 = Ok tt
        /\ log s' = log s ++ [(ERROR, "Error saving to database")])
    /\ (e <> SqliteError ->
        (save_to_database w s).1 = Raise e /\ log s' = log s).
Proof.
  intros w s pre post bad e Hn Hpre Hbad s'.
  destruct (attempted_fault w pre post bad e Hpre Hbad) as [Ha Hf].
  assert (db s' = insert_all pre (db s)) as Hd.
  { subst s'. by rewrite save_to_database_db, Hn, Ha. }
  split; [exact Hd|]. split; [|split; [|split]].
  - intros item Hitem. rewrite Hd. apply insert_all_keys. left.
    apply list_elem_of_fmap. eauto.
  - intros k. rewrite Hd. apply insert_all_keys.
  - intros ->. subst s'. rewrite save_to_database_spec. cbv zeta.
    rewrite Hn, Hf. by simpl.
  - intros He. subst s'. rewrite save_to_database_spec. cbv zeta.
    rewrite Hn, Hf. unfold is_SqliteError.
    rewrite bool_decide_eq_false_2 by done. by simpl.
Qed.

(** C7, when the second of three rows is refused: the first row is
    written and the error is logged once. *)
Lemma save_to_database_stops_at_failure_witness :
  let s :=
    set_news_data
      [Samples.story_monday; Samples.story_tuesday; Samples.story_other]
      Samples.empty_scraper in
  let s' := (save_to_database Samples.tuesday_fault_world s).2 in
  db s' = [Samples.story_monday]
  /\ log s' = [(ERROR, "Error saving to database")].
Proof.
  intros s s'.
  destruct (save_to_database_stops_at_failure Samples.tuesday_fault_world s
              [Samples.story_monday] [Samples.story_other]
              Samples.story_tuesday SqliteError eq_refl)
    as (Hd & _ & _ & Hlog & _).
  - intros item ->%list_elem_of_singleton. reflexivity.
  - reflexivity.
  - split; [exact Hd|]. destruct (Hlog eq_refl) as [_ H]. exact H.
Defined.

(** C7, counterexample.  The engine refuses the second row of a batch of
    three and accepts the two others.  After [save_to_database] the third
    row is not in the table: the failure of the second row ended the
    writing of the batch. *)
Lemma save_to_database_aborts_batch :
  let w := Samples.tuesday_fault_world in
  let s :=
    set_news_data
      [Samples.story_monday; Samples.story_tuesday; Samples.story_other]
      Samples.empty_scraper in
  execute_fault w Samples.story_monday = None
  /\ execute_fault w Samples.story_tuesday = Some SqliteError
  /\ execute_fault w Samples.story_other = None
  /\ save_to_database w s
     = (Ok tt,
        mkScraper
          [Samples.story_monday; Samples.story_tuesday; Samples.story_other]
          [Samples.story_monday] None None
          [(ERROR, "Error saving to database")]).
Proof. vm_compute. repeat split. Qed.

(** ** C10: what a single-feed run writes *)

Lemma save_to_csv_spec (w : World) (s : Scraper) :
  to_csv_fault w = None ->
  save_to_csv w s
  = (Ok tt, add_log [(INFO, "Saved to CSV")] (set_csv_file (news_data s) s)).
Proof.
  intros H. unfold save_to_csv, m_try_except, mbind, get. by rewrite H.
Qed.

Lemma save_to_json_spec (w : World) (s : Scraper) :
  to_json_fault w = None ->
  save_to_json w s
  = (Ok tt,
     add_log [(INFO, "Saved to JSON")] (set_json_file (news_data s) s)).
Proof.
  intros H. unfold save_to_json, m_try_except, mbind, get. by rewrite H.
Qed.

Lemma first_fault_sqlite (w : World) (items : list Article) :
  (forall item e, execute_fault w item = Some e -> e = SqliteError) ->
  first_fault w items = None \/ first_fault w items = Some SqliteError.
Proof.
  intros H. induction items as [|item items IH]; simpl; [by left|].
  destruct (execute_fault w item) as [e|] eqn:E; [|exact IH].
  right. by rewrite (H item e E).
Qed.

(** [run_scrape] starts from an empty batch whatever batch was held. *)
Lemma run_scrape_clears (w : World) (s : Scraper) (batch : list Article) :
  run_scrape w (set_news_data batch s) = run_scrape w (set_news_data [] s).
Proof. reflexivity. Qed.

(** C10.  [run_scrape] empties the batch before it scrapes, so its outcome
    does not depend on the batch held before.  [scrape_single_feed] does
    not: it appends the entries of the feed to the batch held, writes the
    whole batch to the database, exports the whole batch to the CSV and
    the JSON file, and returns the entries of the feed alone.  (Stated for
    a world whose database raises nothing but [sqlite3.Error] and whose
    files can be written.) *)
Theorem scrape_single_feed_accumulates :
  forall (w : World) (s : Scraper) (feed_url country agency : pystr),
    (forall item e, execute_fault w item = Some e -> e = SqliteError) ->
    to_csv_fault w = None ->
    to_json_fault w = None ->
    let entries := returned (fetch_feed w country agency feed_url) in
    let batch := news_data s ++ entries in
    (exists s',
        scrape_single_feed w feed_url country agency s = (Ok entries, s')
        /\ news_data s' = batch
        /\ db s' = insert_all (attempted w batch) (db s)
        /\ csv_file s' = Some batch
        /\ json_file s' = Some batch)
    /\ (forall held,
          run_scrape w (set_news_data held s)
          = run_scrape w (set_news_data [] s)).
Proof.
  intros w s u c a Hdb Hcsv Hjson entries batch.
  split; [|intros held; apply run_scrape_clears].
  destruct (fetch_feed_ok w c a u) as (l & v & E).
  assert (entries = v) as Hv by (subst entries; unfold returned; by rewrite E).
  unfold scrape_single_feed.
  set (s0 := set_news_data (news_data s ++ v) (add_log l s)).
  assert (mbind (lift (fetch_feed w c a u))
            (fun entries =>
               mbind (extend_news_data entries) (fun _ =>
               mbind (save_to_database w) (fun _ =>
               mbind (save_to_csv w) (fun _ =>
               mbind (save_to_json w) (fun _ => mret entries))))) s
          = mbind (save_to_database w) (fun _ =>
              mbind (save_to_csv w) (fun _ =>
              mbind (save_to_json w) (fun _ => mret v))) s0) as ->.
  { unfold mbind at 1 2, lift, extend_news_data, modify. by rewrite E. }
  assert (exists s1,
             save_to_database w s0 = (Ok tt, s1)
             /\ news_data s1 = news_data s0
             /\ db s1 = insert_all (attempted w (news_data s0)) (db s0)
             /\ csv_file s1 = csv_file s0 /\ json_file s1 = json_file s0)
    as (s1 & E1 & Hn1 & Hd1 & _).
  { rewrite save_to_database_spec. cbv zeta.
    destruct (first_fault_sqlite w (news_data s0) Hdb) as [-> | ->];
      eexists; (split; [reflexivity|]); by repeat split. }
  rewrite (mbind_ok _ _ _ _ _ E1).
  rewrite (mbind_ok _ _ _ _ _ (save_to_csv_spec w s1 Hcsv)).
  rewrite (mbind_ok _ _ _ _ _ (save_to_json_spec w _ Hjson)).
  eexists. split; [by rewrite Hv|]. simpl.
  rewrite Hn1, Hd1. subst batch. rewrite Hv. by repeat split.
Qed.

(** C10, with one article held before the single-feed run: the files
    hold that article and the one of the feed, the call returns the one
    of the feed. *)
Lemma scrape_single_feed_accumulates_witness :
  let s := set_news_data [Samples.story_monday] Samples.empty_scraper in
  exists s' fetched,
    scrape_single_feed Samples.quiet_world Samples.bbc_url (py "Custom")
      (py "Custom Feed") s = (Ok [fetched], s')
    /\ csv_file s' = Some [Samples.story_monday; fetched]
    /\ json_file s' = Some [Samples.story_monday; fetched]
    /\ db s' = [Samples.story_monday; fetched].
Proof.
  intros s.
  destruct (scrape_single_feed_accumulates Samples.quiet_world s
              Samples.bbc_url (py "Custom") (py "Custom Feed"))
    as ((s' & E & _ & Hd & Hc & Hj) & _).
  - intros item e H. discriminate H.
  - reflexivity.
  - reflexivity.
  - eexists s', _. split; [exact E|]. split; [exact Hc|].
    split; [exact Hj|]. rewrite Hd. reflexivity.
Defined.

(** ** C6: the keyword filter *)

(** Whatever statement the clause is appended to, the tokens of the
    result, when there are any, end with the tokens of the clause. *)
Lemma lex_keyword_clause (s : string) :
  forall mode,
    Sqlite.lex mode (s ++ keyword_clause) = None
    \/ exists pre,
         Sqlite.lex mode (s ++ keyword_clause)
         = Some (pre ++ keyword_clause_tokens).
Proof.
  induction s as [|c r IH]; intros mode.
  - destruct mode as [word|lit]; [|by left].
    right. exists (Sqlite.flush word). reflexivity.
  - assert (forall mode' (f : list Sqlite.token -> list Sqlite.token) pre0,
              (forall ts, f ts = pre0 ++ ts) ->
              f <$> Sqlite.lex mode' (r ++ keyword_clause) = None
              \/ exists pre,
                   f <$> Sqlite.lex mode' (r ++ keyword_clause)
                   = Some (pre ++ keyword_clause_tokens)) as Hstep.
    { intros mode' f pre0 Hf.
      destruct (IH mode') as [-> | [pre ->]]; [by left|].
      right. exists (pre0 ++ pre). simpl. by rewrite Hf, app_assoc. }
    destruct mode as [word|lit]; simpl.
    + destruct (Sqlite.is_word_char c); [apply IH|].
      repeat match goal with
             | |- context [if Ascii.eqb c ?x then _ else _] =>
                 destruct (Ascii.eqb c x)
             end;
        try (by left);
        try (apply (Hstep _ _ (Sqlite.flush word)); intros ts;
             by rewrite ?app_nil_l);
        try (eapply (Hstep _ _ (Sqlite.flush word ++ [_])); intros ts;
             rewrite <- app_assoc; reflexivity).
    + destruct (Ascii.eqb c "'"); [|apply IH].
      apply (Hstep _ _ [Sqlite.TStr lit]). done.
Qed.

Lemma ends_in_clause_cons (t : Sqlite.token) (r : list Sqlite.token) :
  ends_in_clause (t :: r) -> t <> Sqlite.TQMark -> ends_in_clause r.
Proof.
  intros [[|t' pre] H] Ht; simpl in H.
  - injection H as -> _. done.
  - injection H as _ ->. by exists pre.
Qed.

Lemma ends_in_clause_qmark (r : list Sqlite.token) :
  ends_in_clause (Sqlite.TQMark :: r) -> clause_unread r.
Proof.
  intros [[|t' pre] H]; simpl in H.
  - injection H as ->. by right.
  - injection H as _ ->. left. by exists pre.
Qed.

(** A closing parenthesis, a comma or an operator cannot be read where
    the word [summary] stands. *)
Lemma clause_unread_cons (t : Sqlite.token) (r : list Sqlite.token) :
  clause_unread (t :: r) ->
  t <> Sqlite.TQMark -> t <> Sqlite.TWord "summary" ->
  ends_in_clause r.
Proof.
  intros [H|H] Hq Hs.
  - by apply (ends_in_clause_cons t).
  - injection H as -> _. done.
Qed.

Lemma clause_unread_nonempty : ~ clause_unread [].
Proof.
  intros [[pre H]|H]; [|discriminate]. by destruct pre.
Qed.

(** No function of the parser reads past the first [?] of the clause:
    what is left holds the word [summary] and what follows it. *)
Lemma parse_stops_in_clause (fuel : nat) :
  (forall ts n x rest n',
      ends_in_clause ts ->
      Sqlite.parse_operand fuel (ts, n) = Some (x, (rest, n')) ->
      clause_unread rest)
  /\ (forall ts n x rest n',
        ends_in_clause ts ->
        Sqlite.parse_operands fuel (ts, n) = Some (x, (rest, n')) ->
        clause_unread rest)
  /\ (forall ts n x rest n',
        ends_in_clause ts ->
        Sqlite.parse_pred fuel (ts, n) = Some (x, (rest, n')) ->
        clause_unread rest)
  /\ (forall ts n x rest n',
        ends_in_clause ts ->
        Sqlite.parse_conj fuel (ts, n) = Some (x, (rest, n')) ->
        clause_unread rest)
  /\ (forall ts n x rest n',
        ends_in_clause ts ->
        Sqlite.parse_disj fuel (ts, n) = Some (x, (rest, n')) ->
        clause_unread rest).
Proof.
  induction fuel as [|fuel (IHo & IHos & IHp & IHc & IHd)];
    [by repeat split|].
  assert (forall ts n x rest n',
             ends_in_clause ts ->
             Sqlite.parse_operand (S fuel) (ts, n) = Some (x, (rest, n')) ->
             clause_unread rest) as Ho.
  { intros ts n x rest n' Hts H. simpl in H.
    destruct ts as [|t r]; [done|].
    destruct t as [f| | | | | | | |]; try done.
    - (* a word: a function call or a column *)
      assert (ends_in_clause r) as Hr by (by apply (ends_in_clause_cons _ _ Hts)).
      destruct r as [|t2 r2].
      { destruct (Sqlite.is_keyword f); [done|].
        injection H as _ <- _. by left. }
      destruct (decide (t2 = Sqlite.TLParen)) as [->|Hne].
      + destruct (Sqlite.is_keyword f); [done|].
        assert (ends_in_clause r2) as Hr2
          by (by apply (ends_in_clause_cons _ _ Hr)).
        destruct (Sqlite.parse_operands fuel (r2, n))
          as [[args [rest' n'']]|] eqn:E; [|done].
        apply IHos in E; [|done].
        destruct rest' as [|t3 r3]; [done|].
        destruct t3; try done. injection H as _ <- _.
        left. by apply (clause_unread_cons _ _ E).
      + assert (Some (x, (rest, n'))
                = if Sqlite.is_keyword f then None
                  else Some (Sqlite.OCol f, (t2 :: r2, n))) as H'.
        { rewrite <- H. by destruct t2. }
        destruct (Sqlite.is_keyword f); [done|].
        injection H' as _ -> _. by left.
    - injection H as _ <- _. left.
      by apply (ends_in_clause_cons _ _ Hts).
    - injection H as _ <- _. left.
      by apply (ends_in_clause_cons _ _ Hts).
    - injection H as _ <- _. by apply ends_in_clause_qmark. }
  assert (forall ts n x rest n',
             ends_in_clause ts ->
             Sqlite.parse_operands (S fuel) (ts, n) = Some (x, (rest, n')) ->
             clause_unread rest) as Hos.
  { intros ts n x rest n' Hts H. simpl in H.
    destruct (Sqlite.parse_operand fuel (ts, n))
      as [[a [rest' n'']]|] eqn:E; [|done].
    apply IHo in E; [|done].
    destruct rest' as [|t r]; [by apply clause_unread_nonempty in E|].
    destruct (decide (t = Sqlite.TComma)) as [->|Hne].
    - destruct (Sqlite.parse_operands fuel (r, n''))
        as [[os [rest2 n2]]|] eqn:E2; [|done].
      injection H as _ <- _. apply IHos in E2; [done|].
      by apply (clause_unread_cons _ _ E).
    - assert (Some (x, (rest, n')) = Some ([a], (t :: r, n''))) as H'.
      { rewrite <- H. by destruct t. }
      injection H' as _ -> _. done. }
  assert (forall ts n x rest n',
             ends_in_clause ts ->
             Sqlite.parse_pred (S fuel) (ts, n) = Some (x, (rest, n')) ->
             clause_unread rest) as Hp.
  { intros ts n x rest n' Hts H. simpl in H.
    destruct ts as [|t r].
    { destruct fuel; discriminate. }
    destruct (decide (t = Sqlite.TLParen)) as [->|Hne].
    - assert (ends_in_clause r) as Hr
        by (by apply (ends_in_clause_cons _ _ Hts)).
      destruct (Sqlite.parse_disj fuel (r, n))
        as [[e [rest' n'']]|] eqn:E; [|done].
      apply IHd in E; [|done].
      destruct rest' as [|t3 r3]; [done|].
      destruct t3; try done. injection H as _ <- _.
      left. by apply (clause_unread_cons _ _ E).
    - assert (match Sqlite.parse_operand fuel (t :: r, n) with
              | Some (a, (Sqlite.TEq :: r0, n0)) =>
                  match Sqlite.parse_operand fuel (r0, n0) with
                  | Some (b, st') => Some (Sqlite.EEq a b, st')
                  | None => None
                  end
              | Some (a, (Sqlite.TWord "LIKE" :: r0, n0)) =>
                  match Sqlite.parse_operand fuel (r0, n0) with
                  | Some (b, st') => Some (Sqlite.ELike a b, st')
                  | None => None
                  end
              | Some (a, (Sqlite.TWord "IN" :: Sqlite.TLParen :: r0, n0)) =>
                  match Sqlite.parse_operands fuel (r0, n0) with
                  | Some (items, (Sqlite.TRParen :: r', n1)) =>
                      Some (Sqlite.EIn a items, (r', n1))
                  | _ => None
                  end
              | _ => None
              end = Some (x, (rest, n'))) as H'.
      { rewrite <- H. by destruct t. }
      clear H.
      destruct (Sqlite.parse_operand fuel (t :: r, n))
        as [[a [rest' n'']]|] eqn:E; [|done].
      apply IHo in E; [|done].
      destruct rest' as [|t1 r1]; [done|].
      destruct t1 as [op| | | | | | | |]; try done.
      + (* LIKE or IN *)
        destruct (decide (op = "LIKE")) as [->|Hlike].
        * assert (ends_in_clause r1) as Hr1
            by (by apply (clause_unread_cons _ _ E)).
          destruct (Sqlite.parse_operand fuel (r1, n''))
            as [[b [rest2 n2]]|] eqn:E2; [|done].
          injection H' as _ <- _. by apply IHo in E2.
        * destruct (decide (op = "IN")) as [->|Hin].
          -- assert (ends_in_clause r1) as Hr1
               by (by apply (clause_unread_cons _ _ E)).
             destruct r1 as [|t2 r2]; [done|].
             destruct t2; try done.
             assert (ends_in_clause r2) as Hr2
               by (by apply (ends_in_clause_cons _ _ Hr1)).
             destruct (Sqlite.parse_operands fuel (r2, n''))
               as [[items [rest2 n2]]|] eqn:E2; [|done].
             apply IHos in E2; [|done].
             destruct rest2 as [|t3 r3]; [done|].
             destruct t3; try done. injection H' as _ <- _.
             left. by apply (clause_unread_cons _ _ E2).
          -- exfalso. revert H'. clear -Hlike Hin.
             destruct op as [|c1 op]; [done|].
             repeat (match goal with
                     | c : ascii |- _ =>
                         destruct c as [[] [] [] [] [] [] [] []]; try done
                     | s : string |- _ => destruct s as [|? s]; try done
                     end).
      + (* = *)
        assert (ends_in_clause r1) as Hr1
          by (by apply (clause_unread_cons _ _ E)).
        destruct (Sqlite.parse_operand fuel (r1, n''))
          as [[b [rest2 n2]]|] eqn:E2; [|done].
        injection H' as _ <- _. by apply IHo in E2. }
  assert (forall ts n x rest n',
             ends_in_clause ts ->
             Sqlite.parse_conj (S fuel) (ts, n) = Some (x, (rest, n')) ->
             clause_unread rest) as Hc.
  { intros ts n x rest n' Hts H. simpl in H.
    destruct (Sqlite.parse_pred fuel (ts, n))
      as [[p [rest' n'']]|] eqn:E; [|done].
    apply IHp in E; [|done].
    destruct rest' as [|t r]; [by apply clause_unread_nonempty in E|].
    destruct (decide (t = Sqlite.TWord "AND")) as [->|Hne].
    - destruct (Sqlite.parse_conj fuel (r, n''))
        as [[c [rest2 n2]]|] eqn:E2; [|done].
      injection H as _ <- _. apply IHc in E2; [done|].
      by apply (clause_unread_cons _ _ E).
    - assert (Some (x, (rest, n')) = Some (p, (t :: r, n''))) as H'.
      { rewrite <- H. clear -Hne. destruct t as [op| | | | | | | |]; try done.
        destruct op as [|c1 op]; [done|].
        repeat (match goal with
                | c : ascii |- _ =>
                    destruct c as [[] [] [] [] [] [] [] []]; try done
                | s : string |- _ => destruct s as [|? s]; try done
                end). }
      injection H' as _ -> _. done. }
  assert (forall ts n x rest n',
             ends_in_clause ts ->
             Sqlite.parse_disj (S fuel) (ts, n) = Some (x, (rest, n')) ->
             clause_unread rest) as Hd.
  { intros ts n x rest n' Hts H. simpl in H.
    destruct (Sqlite.parse_conj fuel (ts, n))
      as [[p [rest' n'']]|] eqn:E; [|done].
    apply IHc in E; [|done].
    destruct rest' as [|t r]; [by apply clause_unread_nonempty in E|].
    destruct (decide (t = Sqlite.TWord "OR")) as [->|Hne].
    - destruct (Sqlite.parse_disj fuel (r, n''))
        as [[c [rest2 n2]]|] eqn:E2; [|done].
      injection H as _ <- _. apply IHd in E2; [done|].
      by apply (clause_unread_cons _ _ E).
    - assert (Some (x, (rest, n')) = Some (p, (t :: r, n''))) as H'.
      { rewrite <- H. clear -Hne. destruct t as [op| | | | | | | |]; try done.
        destruct op as [|c1 op]; [done|].
        repeat (match goal with
                | c : ascii |- _ =>
                    destruct c as [[] [] [] [] [] [] [] []]; try done
                | s : string |- _ => destruct s as [|? s]; try done
                end). }
      injection H' as _ -> _. done. }
  by repeat split.
Qed.

Lemma parse_select_keyword (pre : list Sqlite.token) :
  Sqlite.parse_select (pre ++ keyword_clause_tokens) = None.
Proof.
  assert (ends_in_clause (pre ++ keyword_clause_tokens)) as Hts.
  { exists (pre ++ [Sqlite.TWord "AND"; Sqlite.TLParen; Sqlite.TWord "title";
                    Sqlite.TWord "LIKE"]).
    by rewrite <- app_assoc. }
  revert Hts. generalize (pre ++ keyword_clause_tokens). intros ts Hts.
  unfold Sqlite.parse_select.
  destruct ts as [|t1 [|t2 [|t3 [|t4 ts]]]]; try done.
  destruct t4 as [table| | | | | | | |]; try done.
  destruct ts as [|t5 r]; [done|].
  destruct (bool_decide _) eqn:Hhead; [|done].
  apply bool_decide_eq_true in Hhead as (-> & -> & -> & ->).
  assert (ends_in_clause r) as Hr.
  { do 5 (apply ends_in_clause_cons in Hts; [|done]). exact Hts. }
  destruct (Sqlite.parse_disj _ _) as [[e [rest n]]|] eqn:E; [|done].
  destruct (parse_stops_in_clause (4 * S (length r)))
    as (_ & _ & _ & _ & Hd).
  apply Hd in E; [|done].
  destruct rest; [|done]. by apply clause_unread_nonempty in E.
Qed.

(** The engine refuses every statement that ends with the clause. *)
Lemma read_sql_query_keyword (like : pystr -> pystr -> bool)
    (strftime_Y : pystr -> option pystr) (limits : Sqlite.Limits)
    (q : string) (params : list pystr) (news : list Article) :
  Sqlite.read_sql_query like strftime_Y limits (q ++ keyword_clause) params
    news
  = Raise SqliteError.
Proof.
  unfold Sqlite.read_sql_query, Sqlite.tokenize.
  destruct (_ <? _)%N; [done|].
  destruct (lex_keyword_clause q (Sqlite.InWord "")) as [-> | [pre ->]];
    [done|].
  by rewrite parse_select_keyword.
Qed.

(** The statement built for a request with a keyword ends with the
    clause. *)
Lemma build_query_keyword (filters : FilterRequest) (kw : pystr) :
  f_keyword filters = Some kw -> kw <> [] ->
  exists q, (build_query filters).1 = (q ++ keyword_clause)%string.
Proof.
  intros Hk Hkw. unfold build_query, keyword_block. rewrite Hk.
  destruct kw as [|c kw]; [done|]. simpl. by eexists.
Qed.

(** C6, where the code fails.  For every request whose keyword is not
    empty, whatever its other filters, the stored table and the world,
    [filter_news] does not return the articles that hold the keyword: the
    statement it builds ends with a clause that is not well formed, and
    the endpoint answers with the service error 500. *)
Theorem filter_news_keyword_fails :
  forall (w : World) (news : list Article) (filters : FilterRequest)
         (kw : pystr),
    f_keyword filters = Some kw ->
    kw <> [] ->
    filter_news w news filters = Raise (HTTPException 500).
Proof.
  intros w news filters kw Hk Hkw.
  destruct (build_query_keyword filters kw Hk Hkw) as (q & Hq).
  unfold filter_news. destruct (build_query filters) as [query params].
  simpl in Hq. subst query. by rewrite read_sql_query_keyword.
Qed.

(** C6, for the keyword "Storm" with every other filter set, on a table
    of three rows, two of which hold the keyword in their title. *)
Lemma filter_news_keyword_fails_witness :
  filter_news Samples.quiet_world
    [Samples.story_monday; Samples.story_tuesday; Samples.story_other]
    Samples.request_with_keyword
  = Raise (HTTPException 500).
Proof.
  apply (filter_news_keyword_fails Samples.quiet_world
           [Samples.story_monday; Samples.story_tuesday; Samples.story_other]
           Samples.request_with_keyword (py "Storm")).
  - reflexivity.
  - discriminate.
Defined.

(** Where the statement of a keyword cannot be parsed: after
    [title LIKE ?] comes the word [summary], where an operator or the
    closing parenthesis must stand.  No amount of fuel changes it. *)
Lemma keyword_query_syntax_error :
  (build_query (Samples.keyword_only (py "Storm"))).1
  = "SELECT * FROM news WHERE 1=1 AND (title LIKE ? summary LIKE ?)"
  /\ Sqlite.parse_conj 40
       ([Sqlite.TWord "title"; Sqlite.TWord "LIKE"; Sqlite.TQMark;
         Sqlite.TWord "summary"; Sqlite.TWord "LIKE"; Sqlite.TQMark;
         Sqlite.TRParen], O)
     = Some (Sqlite.ELike (Sqlite.OCol "title") (Sqlite.OParam 0),
             ([Sqlite.TWord "summary"; Sqlite.TWord "LIKE"; Sqlite.TQMark;
               Sqlite.TRParen], 1))
  /\ forall fuel,
       Sqlite.parse_disj fuel
         ([Sqlite.TLParen; Sqlite.TWord "title"; Sqlite.TWord "LIKE";
           Sqlite.TQMark; Sqlite.TWord "summary"; Sqlite.TWord "LIKE";
           Sqlite.TQMark; Sqlite.TRParen], O) = None.
Proof.
  split; [reflexivity|]. split; [reflexivity|].
  intros fuel. do 8 (destruct fuel as [|fuel]; [reflexivity|]).
  reflexivity.
Qed.

(** The same request succeeds without the keyword and fails with it. *)
Lemma filter_news_with_and_without_keyword :
  let news :=
    [Samples.story_monday; Samples.story_tuesday; Samples.story_other] in
  filter_news Samples.quiet_world news Samples.request_without_keyword
  = Ok news
  /\ filter_news Samples.quiet_world news Samples.request_with_keyword
     = Raise (HTTPException 500).
Proof. vm_compute. repeat split. Qed.

(** * Further properties *)

(** ** [clean_text] *)

Lemma lstrip_length (s : pystr) : length (lstrip s) <= length s.
Proof.
  induction s as [|c r IH]; simpl; [done|].
  destruct (isspace c); simpl; lia.
Qed.

Lemma strip_length (s : pystr) : length (strip s) <= length s.
Proof.
  unfold strip, rstrip. rewrite length_reverse.
  etrans; [apply lstrip_length|]. rewrite length_reverse.
  apply lstrip_length.
Qed.

Lemma sub_ws_from_length (s : pystr) :
  forall b, length (sub_ws_from b s) <= length s.
Proof.
  induction s as [|c r IH]; intros b; simpl; [done|].
  destruct (isspace c); [destruct b|]; simpl;
    [specialize (IH true)|specialize (IH true)|specialize (IH false)]; lia.
Qed.

Lemma sub_ws_from_spaces (s : pystr) :
  forall b,
    Forall (fun c => isspace c = true -> c = 32%N) (sub_ws_from b s).
Proof.
  induction s as [|c r IH]; intros b; simpl; [constructor|].
  destruct (isspace c) eqn:E; [destruct b|].
  - apply IH.
  - constructor; [done|apply IH].
  - constructor; [congruence|apply IH].
Qed.

Lemma encode_ignore_decode_Forall (P : N -> Prop) (s : pystr) :
  Forall P s -> Forall P (encode_ignore_decode s).
Proof.
  intros H. apply Forall_forall. intros c Hc.
  apply list_elem_of_In, filter_In in Hc as [Hc _].
  rewrite Forall_forall in H. by apply H, list_elem_of_In.
Qed.

Lemma encode_ignore_decode_no_surrogate (s : pystr) :
  Forall (fun c => is_surrogate c = false) (encode_ignore_decode s).
Proof.
  apply Forall_forall. intros c Hc.
  apply list_elem_of_In, filter_In in Hc as [_ Hc].
  by apply negb_true_iff in Hc.
Qed.

Lemma encode_ignore_decode_length (s : pystr) :
  length (encode_ignore_decode s) <= length s.
Proof.
  unfold encode_ignore_decode. induction s as [|c r IH]; simpl; [done|].
  destruct (negb (is_surrogate c)); simpl; lia.
Qed.

Lemma encode_ignore_decode_id (s : pystr) :
  Forall (fun c => is_surrogate c = false) s -> encode_ignore_decode s = s.
Proof.
  unfold encode_ignore_decode.
  induction 1 as [|c r Hc _ IH]; simpl; [done|]. by rewrite Hc, IH.
Qed.

(** X1.  The text cleaned by [clean_text] holds no surrogate and no whitespace
    character other than the space, and it is not longer than the text
    given. *)
Theorem clean_text_characters :
  forall text : pystr,
    Forall (fun c => is_surrogate c = false
                     /\ (isspace c = true -> c = 32%N))
      (clean_text text)
    /\ length (clean_text text) <= length text
    /\ clean_text [] = [].
Proof.
  intros text. unfold clean_text.
  destruct (truthy text); simpl; [|repeat split; [constructor|lia]].
  split; [|split; [|done]].
  - apply Forall_and. split.
    + apply encode_ignore_decode_no_surrogate.
    + apply encode_ignore_decode_Forall, sub_ws_from_spaces.
  - etrans; [apply encode_ignore_decode_length|].
    etrans; [apply sub_ws_from_length|]. apply strip_length.
Qed.

Lemma lstrip_head (s : pystr) (c : N) :
  head (lstrip s) = Some c -> isspace c = false.
Proof.
  induction s as [|a r IH]; simpl; [done|].
  destruct (isspace a) eqn:E; [exact IH|]. simpl. congruence.
Qed.

Lemma lstrip_fixed (s : pystr) :
  (forall c, head s = Some c -> isspace c = false) -> lstrip s = s.
Proof.
  destruct s as [|a r]; simpl; [done|]. intros H. by rewrite (H a).
Qed.

Lemma lstrip_snoc (a : pystr) (c : N) :
  isspace c = false ->
  lstrip (a ++ [c]) = lstrip a ++ [c].
Proof.
  intros Hc. induction a as [|x a IH]; simpl; [by rewrite Hc|].
  by destruct (isspace x).
Qed.

Lemma rstrip_cons (c : N) (r : pystr) :
  isspace c = false -> rstrip (c :: r) = c :: rstrip r.
Proof.
  intros Hc. unfold rstrip.
  by rewrite reverse_cons, lstrip_snoc, reverse_snoc.
Qed.

Lemma rstrip_fixed (s : pystr) :
  (forall c, last s = Some c -> isspace c = false) -> rstrip s = s.
Proof.
  intros H. unfold rstrip. rewrite lstrip_fixed; [apply reverse_involutive|].
  intros c. rewrite head_reverse. apply H.
Qed.

Lemma strip_edges (t : pystr) :
  (forall c, head (strip t) = Some c -> isspace c = false)
  /\ (forall c, last (strip t) = Some c -> isspace c = false).
Proof.
  split; intros c.
  - unfold strip. destruct (lstrip t) as [|a r] eqn:E; [done|].
    assert (isspace a = false) as Ha by (apply (lstrip_head t); by rewrite E).
    rewrite rstrip_cons by done. simpl. congruence.
  - unfold strip, rstrip. rewrite last_reverse. apply lstrip_head.
Qed.

Lemma strip_fixed (s : pystr) :
  (forall c, head s = Some c -> isspace c = false) ->
  (forall c, last s = Some c -> isspace c = false) ->
  strip s = s.
Proof.
  intros Hh Hl. unfold strip. rewrite (lstrip_fixed s Hh).
  by apply rstrip_fixed.
Qed.

Lemma sub_ws_from_head (s : pystr) (b : bool) :
  (forall c, head s = Some c -> isspace c = false) ->
  head (sub_ws_from b s) = head s.
Proof.
  destruct s as [|a r]; simpl; [done|]. intros H. by rewrite (H a).
Qed.

Lemma sub_ws_from_last (s : pystr) :
  (forall c, last s = Some c -> isspace c = false) ->
  forall b, last (sub_ws_from b s) = last s.
Proof.
  induction s as [|a r IH]; intros H b; [done|].
  destruct r as [|a' r'].
  - simpl. by rewrite (H a).
  - assert (forall b', last (sub_ws_from b' (a' :: r')) = last (a' :: r'))
      as IH'.
    { apply IH. intros c Hc. apply H. by rewrite last_cons_cons. }
    rewrite last_cons_cons.
    assert (forall x b',
               last (x :: sub_ws_from b' (a' :: r')) = last (a' :: r'))
      as Hcons.
    { intros x b'. rewrite last_cons, IH'.
      destruct (last_is_Some (a' :: r')) as [_ [y ->]]; done. }
    change (sub_ws_from b (a :: a' :: r'))
      with (if isspace a
            then (if b then sub_ws_from true (a' :: r')
                  else 32%N :: sub_ws_from true (a' :: r'))
            else a :: sub_ws_from false (a' :: r')).
    destruct (isspace a); [destruct b|]; by rewrite ?Hcons, ?IH'.
Qed.

Lemma sub_ws_from_single_spaced (s : pystr) :
  forall b, single_spaced_from b (sub_ws_from b s) = true.
Proof.
  induction s as [|c r IH]; intros b; simpl; [done|].
  destruct (isspace c) eqn:E; [destruct b|]; simpl.
  - apply IH.
  - by rewrite IH.
  - by rewrite E, IH.
Qed.

Lemma sub_ws_from_fixed (s : pystr) :
  forall b, single_spaced_from b s = true -> sub_ws_from b s = s.
Proof.
  induction s as [|c r IH]; intros b; simpl; [done|].
  destruct (isspace c) eqn:E.
  - intros [[Hc Hb%negb_true_iff]%andb_prop Hr]%andb_prop.
    subst b. apply N.eqb_eq in Hc as ->. by rewrite IH.
  - intros Hr. by rewrite IH.
Qed.

Lemma lstrip_Forall (P : N -> Prop) (s : pystr) :
  Forall P s -> Forall P (lstrip s).
Proof.
  induction 1 as [|c r Hc Hr IH]; simpl; [constructor|].
  destruct (isspace c); [done|by constructor].
Qed.

Lemma strip_Forall (P : N -> Prop) (s : pystr) :
  Forall P s -> Forall P (strip s).
Proof.
  intros H. unfold strip, rstrip.
  by apply Forall_reverse, lstrip_Forall, Forall_reverse, lstrip_Forall.
Qed.

Lemma sub_ws_from_Forall (P : N -> Prop) (s : pystr) :
  P 32%N -> Forall P s -> forall b, Forall P (sub_ws_from b s).
Proof.
  intros Hsp. induction 1 as [|c r Hc Hr IH]; intros b; simpl;
    [constructor|].
  destruct (isspace c); [destruct b|]; try constructor; auto.
Qed.

(** X2.  For a text without surrogates, [clean_text] gives a text in normal
    form: stripping it or collapsing its whitespace again changes nothing,
    and cleaning is idempotent. *)
Theorem clean_text_normal_form :
  forall text : pystr,
    Forall (fun c => is_surrogate c = false) text ->
    clean_text text = sub_ws (strip text)
    /\ strip (clean_text text) = clean_text text
    /\ sub_ws (clean_text text) = clean_text text
    /\ clean_text (clean_text text) = clean_text text.
Proof.
  intros text Hsur.
  assert (clean_text text = sub_ws (strip text)) as Hc.
  { unfold clean_text. destruct text as [|a t]; [done|]. simpl truthy.
    cbn [negb]. apply encode_ignore_decode_id.
    by apply sub_ws_from_Forall, strip_Forall. }
  destruct (strip_edges text) as [Hh Hl].
  assert (strip (clean_text text) = clean_text text) as Hs.
  { rewrite Hc. apply strip_fixed; intros c.
    - unfold sub_ws. rewrite sub_ws_from_head by done. apply Hh.
    - unfold sub_ws. rewrite sub_ws_from_last by done. apply Hl. }
  assert (sub_ws (clean_text text) = clean_text text) as Hw.
  { rewrite Hc. apply sub_ws_from_fixed, sub_ws_from_single_spaced. }
  split; [done|]. split; [done|]. split; [done|].
  assert (Forall (fun c => is_surrogate c = false) (clean_text text)) as Ho.
  { rewrite Hc. by apply sub_ws_from_Forall, strip_Forall. }
  revert Hs Hw Ho. generalize (clean_text text). intros out Hs Hw Ho.
  unfold clean_text. destruct out as [|a o]; [done|]. simpl truthy.
  cbn [negb]. rewrite Hs, Hw. by apply encode_ignore_decode_id.
Qed.

(** [clean_text] on a text with spaces at its ends and repeated spaces
    inside. *)
Lemma clean_text_normal_form_witness :
  clean_text (clean_text (py "  Breaking:   storm  hits   coast  "))
  = clean_text (py "  Breaking:   storm  hits   coast  ").
Proof.
  apply (clean_text_normal_form (py "  Breaking:   storm  hits   coast  ")).
  vm_compute. repeat constructor.
Defined.

(** Without the hypothesis the normal form is lost: removing a surrogate
    that stands between two spaces leaves them side by side. *)
Lemma clean_text_surrogate_between_spaces :
  clean_text Samples.text_with_surrogate = py "a  b"
  /\ clean_text (clean_text Samples.text_with_surrogate) = py "a b".
Proof. vm_compute. done. Qed.

(** ** [fetch_feed]: the articles of a feed *)

Lemma fetch_entries_in_order (w : World) (c a : pystr) (y : datetime)
    (feed_entries : list FeedEntry) :
  tzinfo y = None ->
  forall entries,
  exists l news,
    fetch_entries w c a y feed_entries entries = (l, Ok (entries ++ news))
    /\ Forall2 (fun entry art =>
                  (build_article w c a entry (now w)).2 = Ok art)
         feed_entries news.
Proof.
  intros Hy. induction feed_entries as [|entry rest IH]; intros entries.
  - exists [], []. simpl. rewrite app_nil_r. split; [done|constructor].
  - simpl.
    destruct (entry_pub_date_naive w y entry Hy) as (l1 & E1).
    rewrite (ebind_ok _ _ _ _ E1).
    destruct (build_article_ok w c a entry (now w)) as (l2 & art & E2 & _).
    rewrite (ebind_ok _ _ _ _ E2).
    destruct (IH (entries ++ [art])) as (l3 & news & E3 & Hall).
    rewrite E3. simpl. exists (l1 ++ l2 ++ l3), (art :: news).
    split; [by rewrite <- app_assoc|]. constructor; [by rewrite E2|done].
Qed.

(** X3.  For a feed that was fetched and parsed, [fetch_feed] returns one
    article for each entry, in the order of the feed.  The article of an
    entry has its cleaned title (or "No Title"), its cleaned summary (the
    description when the entry has no summary field, else empty), its link
    (else empty), the agency and the country given to the call, and one of
    the four sentiment labels. *)
Theorem fetch_feed_in_feed_order :
  forall (w : World) (cty agency feed_url : pystr)
         (response : Response) (feed_entries : list FeedEntry),
    session_get w feed_url = Ok response ->
    raise_for_status response = Ok tt ->
    feedparser_parse w (content response) = Ok feed_entries ->
    exists l entries,
      fetch_feed w cty agency feed_url = (l, Ok entries)
      /\ Forall2
           (fun entry art =>
              title art
              = clean_text (default (py "No Title") (entry !! "title"))
              /\ summary art
                 = clean_text
                     (default (default [] (entry !! "description"))
                        (entry !! "summary"))
              /\ url art = default [] (entry !! "link")
              /\ source art = agency
              /\ country art = cty
              /\ sentiment art ∈ sentiment_labels)
           feed_entries entries.
Proof.
  intros w c a u response feed_entries E1 E2 E3.
  assert (forall entry art,
             (build_article w c a entry (now w)).2 = Ok art ->
             title art
             = clean_text (default (py "No Title") (entry !! "title"))
             /\ summary art
                = clean_text
                    (default (default [] (entry !! "description"))
                       (entry !! "summary"))
             /\ url art = default [] (entry !! "link")
             /\ source art = a
             /\ country art = c
             /\ sentiment art ∈ sentiment_labels) as Hfields.
  { intros entry art Hb.
    destruct (build_article_ok w c a entry (now w))
      as (l2 & art' & E4 & Ht & _ & Hsrc & Hco & Hs & Hu & _ & Hsent).
    rewrite E4 in Hb. injection Hb as ->.
    destruct (analyze_sentiment_ok w (summary art)) as (l3 & lab & E5 & Hl).
    rewrite E5 in Hsent. injection Hsent as ->. by repeat split. }
  rewrite fetch_feed_cases. cbv zeta. rewrite E1, E2, E3.
  destruct feed_entries as [|e0 es].
  { exists [(WARNING, "No entries found")], []. split; [done|constructor]. }
  destruct (fetch_entries_in_order w c a (sub_days (now w) 365) (e0 :: es)
              eq_refl []) as (l & news & E & Hall).
  rewrite E. simpl. exists (l ++ [(INFO, "Fetched articles")]), news.
  split; [done|]. eapply Forall2_impl; [exact Hall|]. exact Hfields.
Qed.

(** [fetch_feed] on the feed of [blank_title_world]: two entries, two
    articles. *)
Lemma fetch_feed_in_feed_order_witness :
  exists l entries,
    fetch_feed Samples.blank_title_world (py "UK") (py "BBC News")
      Samples.bbc_url = (l, Ok entries)
    /\ length entries = 2.
Proof.
  destruct (fetch_feed_in_feed_order Samples.blank_title_world (py "UK")
              (py "BBC News") Samples.bbc_url
              (mkResponse 200 (py "<rss/>") (py "<rss/>"))
              [Samples.entry_blank_title; Samples.entry_bare]
              eq_refl eq_refl eq_refl) as (l & entries & E & Hall).
  exists l, entries. split; [exact E|].
  apply Forall2_length in Hall. by rewrite <- Hall.
Defined.

(** ** [scrape_historical_articles] *)

Lemma scrape_historical_url_fields (w : World) (c u : pystr) l art :
  scrape_historical_url w c u = (l, Ok art) ->
  country art = c /\ url art = u.
Proof.
  unfold scrape_historical_url. cbv [call ebind].
  destruct (session_get w u) as [response|e]; [|done].
  destruct (BeautifulSoup w (text response) "summary") as [soup|e]; [|done].
  cbv zeta.
  set (t := clean_text (default (py "No Title") (find_title soup))).
  set (sm := clean_text _).
  destruct (detect_language w (t ++ py " " ++ sm)) as [l1 [lang|e]];
    [|done].
  destruct (analyze_sentiment w sm) as [l2 [label|e]]; [|done].
  cbn [ret app]. intros H. by injection H as _ <-.
Qed.

Lemma scrape_historical_urls_spec (w : World) (c : pystr)
    (urls : list pystr) :
  forall entries,
    scrape_historical_urls w c urls entries
    = (concat (url_log w c <$> urls),
       Ok (entries ++ concat (scraped w c <$> urls))).
Proof.
  induction urls as [|u rest IH]; intros entries; simpl.
  - by rewrite app_nil_r.
  - unfold url_log at 1, scraped at 1.
    destruct (scrape_historical_url w c u) as [l1 [art|e]]; cbn.
    + rewrite IH. cbn. by rewrite app_nil_r, <- !app_assoc.
    + rewrite IH. cbn. by rewrite <- !app_assoc.
Qed.

Lemma scrape_historical_articles_spec (w : World)
    (historical_urls : list (pystr * list pystr)) :
  scrape_historical_articles w historical_urls
  = (concat ((fun p => url_log w p.1 p.2)
               <$> historical_pairs historical_urls),
     Ok (concat ((fun p => scraped w p.1 p.2)
                   <$> historical_pairs historical_urls))).
Proof.
  unfold scrape_historical_articles.
  assert (forall entries,
             scrape_historical_from w historical_urls entries
             = (concat ((fun p => url_log w p.1 p.2)
                          <$> historical_pairs historical_urls),
                Ok (entries
                    ++ concat ((fun p => scraped w p.1 p.2)
                                 <$> historical_pairs historical_urls))))
    as H; [|by rewrite H].
  induction historical_urls as [|[c urls] rest IH]; intros entries; simpl.
  - by rewrite app_nil_r.
  - rewrite scrape_historical_urls_spec. cbn. rewrite IH. cbn.
    unfold historical_pairs. cbn.
    rewrite !fmap_app, !concat_app, <- !list_fmap_compose, <- app_assoc.
    done.
Qed.

(** X4.  [scrape_historical_articles] never raises.  It returns, in the order
    of the configuration, the article of every URL whose page could be
    fetched and parsed: an URL that fails is skipped and does not stop the
    others.  Every article carries the country and the URL of its
    configuration entry. *)
Theorem scrape_historical_articles_skips_failures :
  forall (w : World) (historical_urls : list (pystr * list pystr)),
    exists l entries,
      scrape_historical_articles w historical_urls = (l, Ok entries)
      /\ entries
         = concat ((fun p => scraped w p.1 p.2)
                     <$> historical_pairs historical_urls)
      /\ length entries <= length (historical_pairs historical_urls)
      /\ Forall (fun art =>
                   (country art, url art) ∈ historical_pairs historical_urls)
           entries
      /\ (forall c u l' art,
            (c, u) ∈ historical_pairs historical_urls ->
            scrape_historical_url w c u = (l', Ok art) ->
            art ∈ entries).
Proof.
  intros w hist. rewrite scrape_historical_articles_spec.
  do 2 eexists. split; [reflexivity|]. split; [reflexivity|].
  generalize (historical_pairs hist). intros pairs.
  split; [|split].
  - induction pairs as [|[c u] pairs IH]; [done|].
    rewrite fmap_cons. cbn [concat]. rewrite length_app. unfold scraped at 1.
    cbn [fst snd].
    destruct (scrape_historical_url w c u).2; cbn [length]; lia.
  - apply Forall_forall. intros art Hart.
    apply list_elem_of_In, in_concat in Hart as (x & Hx & Hart).
    apply list_elem_of_In, list_elem_of_fmap in Hx as ([c u] & -> & Hp).
    unfold scraped in Hart. simpl in Hart.
    destruct (scrape_historical_url w c u) as [l1 [art'|e]] eqn:E;
      simpl in Hart; [|done].
    destruct Hart as [<-|[]].
    destruct (scrape_historical_url_fields w c u l1 art' E) as [-> ->].
    done.
  - intros c u l' art Hp E. apply list_elem_of_In, in_concat.
    exists [art]. split; [|by left].
    apply list_elem_of_In, list_elem_of_fmap. exists (c, u).
    split; [|done]. unfold scraped. simpl. by rewrite E.
Qed.

(** The configured URLs in a world where the page of the BBC cannot be
    fetched: the three other articles are returned, in the order of the
    configuration. *)
Lemma scrape_historical_articles_skips_failures_witness :
  exists l entries,
    scrape_historical_articles Samples.historical_world HISTORICAL_URLS
    = (l, Ok entries)
    /\ country <$> entries = [py "USA"; py "India"; py "Qatar"].
Proof.
  destruct (scrape_historical_articles_skips_failures
              Samples.historical_world HISTORICAL_URLS)
    as (l & entries & Hrun & Hentries & _).
  exists l, entries. split; [exact Hrun|].
  exact (eq_trans (f_equal (fmap country) Hentries) eq_refl).
Defined.

(** X5.  [scrape_historical_articles] asks [BeautifulSoup] for the parser
    named "summary".  In a world whose [BeautifulSoup] raises for this
    name, it returns the empty list and logs one error for each
    configured URL. *)
Theorem scrape_historical_articles_unknown_parser :
  forall (w : World) (historical_urls : list (pystr * list pystr)),
    (forall page, exists e, BeautifulSoup w page "summary" = Raise e) ->
    scrape_historical_articles w historical_urls
    = ((fun _ => (ERROR, "Historical scrape error"))
         <$> historical_pairs historical_urls,
       Ok []).
Proof.
  intros w hist Hbs. rewrite scrape_historical_articles_spec.
  assert (forall c u,
             exists e l, scrape_historical_url w c u = (l, Raise e)
                         /\ l = []) as Hfail.
  { intros c u. unfold scrape_historical_url. cbv [call ebind].
    destruct (session_get w u) as [response|e]; [|by eauto].
    destruct (Hbs (text response)) as [e ->]. by eauto. }
  generalize (historical_pairs hist). intros pairs.
  induction pairs as [|[c u] pairs IH]; [done|].
  rewrite !fmap_cons. cbn [concat fst snd].
  injection IH as IH1 IH2. rewrite IH1, IH2.
  unfold url_log, scraped.
  destruct (Hfail c u) as (e & l & -> & ->). done.
Qed.

(** The historical URLs of the configuration in a world whose
    [BeautifulSoup] knows no parser: four errors, no article. *)
Lemma scrape_historical_articles_unknown_parser_witness :
  scrape_historical_articles Samples.quiet_world HISTORICAL_URLS
  = (replicate 4 (ERROR, "Historical scrape error"), Ok []).
Proof.
  rewrite (scrape_historical_articles_unknown_parser Samples.quiet_world
             HISTORICAL_URLS); [reflexivity|].
  intros page. exists OtherException. reflexivity.
Defined.

(** ** The exports *)

Lemma save_to_csv_cases (w : World) (s : Scraper) :
  save_to_csv w s
  = (Ok tt,
     match to_csv_fault w with
     | None =>
         add_log [(INFO, "Saved to CSV")] (set_csv_file (news_data s) s)
     | Some _ =>
         add_log [(ERROR, "Error saving to CSV")]
           (set_csv
              (left_in_file (to_csv_written w) (csv_file s) (news_data s))
              s)
     end).
Proof.
  unfold save_to_csv, m_try_except, mbind, get.
  by destruct (to_csv_fault w).
Qed.

Lemma save_to_json_cases (w : World) (s : Scraper) :
  save_to_json w s
  = (Ok tt,
     match to_json_fault w with
     | None =>
         add_log [(INFO, "Saved to JSON")] (set_json_file (news_data s) s)
     | Some _ =>
         add_log [(ERROR, "Error saving to JSON")]
           (set_json
              (left_in_file (to_json_written w) (json_file s) (news_data s))
              s)
     end).
Proof.
  unfold save_to_json, m_try_except, mbind, get.
  by destruct (to_json_fault w).
Qed.

(** What the two exports, one after the other, leave of a scraper. *)
Lemma exports_state (w : World) (s : Scraper) :
  exists s',
    mbind (save_to_csv w) (fun _ => save_to_json w) s = (Ok tt, s')
    /\ news_data s' = news_data s
    /\ db s' = db s
    /\ csv_file s'
       = exported (to_csv_fault w) (to_csv_written w) (csv_file s)
           (news_data s)
    /\ json_file s'
       = exported (to_json_fault w) (to_json_written w) (json_file s)
           (news_data s).
Proof.
  unfold mbind. rewrite save_to_csv_cases, save_to_json_cases.
  eexists. split; [reflexivity|].
  destruct (to_csv_fault w), (to_json_fault w); by repeat split.
Qed.

(** X6.  [save_to_csv] and [save_to_json] never raise and change neither
    the batch, nor the table, nor the file of the other.  An export that
    succeeds replaces what the file held by the batch.  An export that
    fails logs one error and does not restore the file: the file is as it
    was only when the exception came before the file was opened; once the
    file is open, what it held is lost, and it holds the rows of the batch
    written before the exception, fewer than the batch or none. *)
Theorem exports_replace_or_cut :
  forall (w : World) (s : Scraper),
    let s1 := (save_to_csv w s).2 in
    let s2 := (save_to_json w s).2 in
    (save_to_csv w s).1 = Ok tt
    /\ (save_to_json w s).1 = Ok tt
    /\ news_data s1 = news_data s /\ db s1 = db s
    /\ json_file s1 = json_file s
    /\ news_data s2 = news_data s /\ db s2 = db s
    /\ csv_file s2 = csv_file s
    /\ (to_csv_fault w = None ->
        csv_file s1 = Some (news_data s)
        /\ log s1 = log s ++ [(INFO, "Saved to CSV")])
    /\ (to_csv_fault w <> None ->
        log s1 = log s ++ [(ERROR, "Error saving to CSV")]
        /\ (to_csv_written w = None -> csv_file s1 = csv_file s)
        /\ (forall k, to_csv_written w = Some k ->
            csv_file s1 = Some (take k (news_data s))))
    /\ (to_json_fault w = None ->
        json_file s2 = Some (news_data s)
        /\ log s2 = log s ++ [(INFO, "Saved to JSON")])
    /\ (to_json_fault w <> None ->
        log s2 = log s ++ [(ERROR, "Error saving to JSON")]
        /\ (to_json_written w = None -> json_file s2 = json_file s)
        /\ (forall k, to_json_written w = Some k ->
            json_file s2 = Some (take k (news_data s)))).
Proof.
  intros w s s1 s2. subst s1 s2.
  rewrite save_to_csv_cases, save_to_json_cases. simpl.
  destruct (to_csv_fault w), (to_json_fault w); simpl;
    repeat split; try done;
    try (by intros ->); try (by intros k ->).
Qed.

(** A disk that fills while the second of two stored rows is written: the
    CSV file that held both rows holds the first alone, and the call
    returns as if nothing had happened. *)
Lemma exports_replace_or_cut_witness :
  let s :=
    mkScraper [Samples.story_monday; Samples.story_other] []
      (Some [Samples.story_monday; Samples.story_other]) None [] in
  save_to_csv Samples.disk_full_world s
  = (Ok tt,
     mkScraper [Samples.story_monday; Samples.story_other] []
       (Some [Samples.story_monday]) None
       [(ERROR, "Error saving to CSV")]).
Proof.
  intros s.
  destruct (exports_replace_or_cut Samples.disk_full_world s)
    as (Hr & _ & Hn & Hd & Hj & _ & _ & _ & _ & Hfail & _).
  destruct Hfail as (Hlog & _ & Hcut); [discriminate|].
  specialize (Hcut 1%nat eq_refl).
  destruct (save_to_csv Samples.disk_full_world s) as [r s1].
  cbn [fst snd] in *. subst r. f_equal.
  destruct s1 as [n d c j l]. cbn [news_data db csv_file json_file log] in *.
  by subst.
Defined.

(** ** [run_scrape] and [GET /news/scrape_all] *)

(** The record that ends the log of a full run. *)
Lemma run_scrape_spec (w : World) (s : Scraper) :
  let batch := deduplicated (scraped_batch w) in
  exists s',
    run_scrape w s = (Ok tt, s')
    /\ news_data s' = batch
    /\ db s' = insert_all (attempted w batch) (db s)
    /\ csv_file s'
       = exported (to_csv_fault w) (to_csv_written w) (csv_file s) batch
    /\ json_file s'
       = exported (to_json_fault w) (to_json_written w) (json_file s) batch
    /\ exists l,
         log s'
         = l ++ [match first_fault w batch with
                 | Some e =>
                     if is_SqliteError e
                     then (INFO, "Scheduled scraping completed")
                     else (ERROR, "Scheduled scraping failed")
                 | None => (INFO, "Scheduled scraping completed")
                 end].
Proof.
  intros batch. unfold run_scrape, m_try_except.
  destruct (scrape_all_feeds_over_spec w RSS_FEEDS HISTORICAL_URLS
              (set_news_data [] s)) as (s1 & E1 & Hn1 & Hd1 & Hc1 & Hj1).
  fold (scrape_all_feeds w) in E1.
  assert (news_data s1 = scraped_batch w) as Hb by exact Hn1.
  unfold mbind at 1, modify at 1.
  rewrite (mbind_ok _ _ _ _ _ E1).
  rewrite (mbind_ok _ _ _ _ _ (remove_duplicates_eq s1)).
  rewrite (mbind_ok _ _ _ _ _ (save_to_csv_cases w _)).
  rewrite (mbind_ok _ _ _ _ _ (save_to_json_cases w _)).
  unfold mbind at 1. rewrite save_to_database_spec. cbv zeta.
  unfold exported.
  destruct (to_csv_fault w) as [ec|], (to_json_fault w) as [ej|];
    cbn [news_data db csv_file json_file add_log set_news_data set_csv
           set_json set_csv_file set_json_file];
    rewrite Hb; fold (deduplicated (scraped_batch w)); fold batch;
    (destruct (first_fault w batch) as [e|];
       [destruct (is_SqliteError e)|]);
    cbn [lift logging fst snd];
    eexists; (split; [reflexivity|]);
    cbn; rewrite ?Hd1, ?Hc1, ?Hj1, ?Hb; repeat split; by eexists.
Qed.

(** X7.  A full run never raises, whatever the libraries and the stores do.
    It leaves as batch the scraped articles with at most one article for
    each (title, source, url), in scraping order.  The CSV and the JSON
    file hold exactly this batch when their export succeeded; a file
    whose export failed is as it was when the exception came before the
    file was opened, and else holds the rows of the batch written before
    the exception.  The table receives the rows of the batch up to the
    first row that the engine refuses.  A run that failed differs from a
    run that succeeded by the last record of the log alone. *)
Theorem run_scrape_outcome :
  forall (w : World) (s : Scraper),
    let batch := deduplicated (scraped_batch w) in
    batch `sublist_of` scraped_batch w
    /\ NoDup (key3 <$> batch)
    /\ exists s',
         run_scrape w s = (Ok tt, s')
         /\ news_data s' = batch
         /\ db s' = insert_all (attempted w batch) (db s)
         /\ csv_file s'
            = exported (to_csv_fault w) (to_csv_written w) (csv_file s)
                batch
         /\ json_file s'
            = exported (to_json_fault w) (to_json_written w) (json_file s)
                batch
         /\ exists l,
              log s'
              = l ++ [match first_fault w batch with
                      | Some e =>
                          if is_SqliteError e
                          then (INFO, "Scheduled scraping completed")
                          else (ERROR, "Scheduled scraping failed")
                      | None => (INFO, "Scheduled scraping completed")
                      end].
Proof.
  intros w s batch. split; [apply drop_duplicates_sublist|].
  split; [|apply run_scrape_spec].
  eapply NoDup_fmap_coarser; [|apply drop_duplicates_NoDup].
  intros a b. apply subset_key_key3.
Qed.

(** A full run on a disk that fills after the first row of the CSV file:
    the run returns, the CSV file holds the first article of the batch
    alone, the JSON file the whole batch. *)
Lemma run_scrape_outcome_witness :
  let batch := deduplicated (scraped_batch Samples.disk_full_world) in
  let s' := (run_scrape Samples.disk_full_world Samples.empty_scraper).2 in
  csv_file s' = Some (take 1 batch)
  /\ json_file s' = Some batch.
Proof.
  intros batch s'.
  destruct (run_scrape_outcome Samples.disk_full_world Samples.empty_scraper)
    as (_ & _ & t & E & _ & _ & Hc & Hj & _).
  subst s'. rewrite E. split; [exact Hc|exact Hj].
Defined.

(** X8.  [GET /news/scrape_all] answers "Scraping completed" in every world and
    never the error 500: it leaves the scraper as [run_scrape] does, and
    when the run failed (the database raised something other than an
    [sqlite3.Error]) the failure is in the log alone. *)
Theorem scrape_all_always_completes :
  forall (w : World) (s : Scraper),
    scrape_all w s = (Ok (py "Scraping completed"), (run_scrape w s).2)
    /\ (forall e,
          first_fault w (deduplicated (scraped_batch w)) = Some e ->
          e <> SqliteError ->
          exists l,
            log (scrape_all w s).2
            = l ++ [(ERROR, "Scheduled scraping failed")]).
Proof.
  intros w s.
  destruct (run_scrape_spec w s) as (s' & E & _ & _ & _ & _ & l & Hl).
  assert (scrape_all w s = (Ok (py "Scraping completed"), (run_scrape w s).2))
    as Hall.
  { unfold scrape_all, m_try_except, mbind. by rewrite E. }
  split; [exact Hall|].
  intros e He Hne. rewrite Hall, E. cbn [snd]. exists l.
  rewrite Hl, He. unfold is_SqliteError.
  by rewrite bool_decide_eq_false_2.
Qed.

(** A world whose database raises a [TypeError] for every row, and one
    source that returns an article: the run fails, the answer is still
    "Scraping completed". *)
Lemma scrape_all_always_completes_witness :
  let w := Samples.sample_world [Samples.entry_bare] [] None
             (fun _ => Some TypeError) in
  (scrape_all w Samples.empty_scraper).1 = Ok (py "Scraping completed")
  /\ exists l,
       log (scrape_all w Samples.empty_scraper).2
       = l ++ [(ERROR, "Scheduled scraping failed")].
Proof.
  intros w.
  destruct (scrape_all_always_completes w Samples.empty_scraper) as [E H].
  split; [by rewrite E|].
  apply (H TypeError); [|discriminate].
  vm_compute. reflexivity.
Defined.

(** ** The deduplicator and the store together *)

Lemma drop_duplicates_fixed (subset : list string) (rows : list Article) :
  NoDup (Pandas.subset_key subset <$> rows) ->
  Pandas.drop_duplicates subset rows = rows.
Proof.
  induction rows as [|a pre IH] using rev_ind; [done|].
  rewrite fmap_app. intros (Hpre & Hnot & _)%NoDup_app.
  rewrite drop_duplicates_snoc, IH by done.
  rewrite bool_decide_eq_false_2; [done|].
  intros Hin. apply (Hnot _ Hin). simpl. by left.
Qed.

(** X9.  [remove_duplicates] is idempotent: a second call changes nothing but
    the log.  It never lengthens the batch, and changes neither the table
    nor the files. *)
Theorem remove_duplicates_idempotent :
  forall s : Scraper,
    let s1 := (remove_duplicates s).2 in
    let s2 := (remove_duplicates s1).2 in
    news_data s2 = news_data s1
    /\ length (news_data s1) <= length (news_data s)
    /\ db s1 = db s /\ csv_file s1 = csv_file s
    /\ json_file s1 = json_file s
    /\ log s1 = log s ++ [(INFO, "Removed duplicates")].
Proof.
  intros s s1 s2. subst s1 s2. rewrite !remove_duplicates_eq. simpl.
  split; [|split; [|done]].
  - apply drop_duplicates_fixed, drop_duplicates_NoDup.
  - apply sublist_length, drop_duplicates_sublist.
Qed.

Lemma insert_all_app (items rows : list Article) :
  exists added,
    insert_all items rows = rows ++ added /\ added `sublist_of` items.
Proof.
  revert rows. induction items as [|item items IH]; intros rows.
  - exists []. by rewrite app_nil_r.
  - unfold insert_all in *. simpl.
    destruct (decide (key4 item ∈ key4 <$> rows)) as [Hin|Hout].
    + rewrite insert_or_ignore_present by done.
      destruct (IH rows) as (added & -> & Hsub).
      exists added. split; [done|]. by apply sublist_cons.
    + rewrite insert_or_ignore_fresh by done.
      destruct (IH (rows ++ [item])) as (added & -> & Hsub).
      exists (item :: added). rewrite <- app_assoc. split; [done|].
      by apply sublist_skip.
Qed.

Lemma attempted_prefix (w : World) (items : list Article) :
  attempted w items `prefix_of` items.
Proof.
  induction items as [|item items IH]; simpl; [done|].
  destruct (execute_fault w item); [apply prefix_nil|].
  by apply prefix_cons.
Qed.

(** X10.  [save_to_database] never removes, changes or reorders a stored row:
    the table before the call is the beginning of the table after it, and
    the rows added are rows of the batch, in the order of the batch. *)
Theorem save_to_database_only_appends :
  forall (w : World) (s : Scraper),
    exists added,
      db (save_to_database w s).2 = db s ++ added
      /\ added `sublist_of` news_data s
      /\ length (db s) <= length (db (save_to_database w s).2)
      /\ csv_file (save_to_database w s).2 = csv_file s
      /\ json_file (save_to_database w s).2 = json_file s.
Proof.
  intros w s. rewrite save_to_database_db.
  destruct (insert_all_app (attempted w (news_data s)) (db s))
    as (added & E & Hsub).
  exists added. rewrite E. split; [done|]. split.
  { etrans; [exact Hsub|].
    destruct (attempted_prefix w (news_data s)) as [k Hk].
    rewrite Hk at 2. by apply sublist_inserts_r. }
  split; [rewrite length_app; lia|].
  rewrite save_to_database_spec. cbv zeta.
  destruct (first_fault w (news_data s)) as [e|]; [|done].
  by destruct (is_SqliteError e).
Qed.

Lemma insert_all_fresh (items rows : list Article) :
  NoDup (key4 <$> items) ->
  (forall item, item ∈ items -> key4 item ∉ key4 <$> rows) ->
  insert_all items rows = rows ++ items.
Proof.
  revert rows. induction items as [|item items IH]; intros rows Hnd Hfresh.
  - by rewrite app_nil_r.
  - unfold insert_all in *. simpl. apply NoDup_cons in Hnd as [Hnot Hnd].
    rewrite insert_or_ignore_fresh by (apply Hfresh; left).
    rewrite IH; [by rewrite <- app_assoc|done|].
    intros i Hi. rewrite fmap_app, elem_of_app. intros [Hin|Hin].
    + apply (Hfresh i); [by right|done].
    + apply list_elem_of_singleton in Hin. apply Hnot.
      rewrite <- Hin. apply list_elem_of_fmap. eauto.
Qed.

(** X11.  A first full run on an empty table, in a world whose stores do not
    fail: the table, the CSV file and the JSON file all hold the batch,
    the same articles in the same order. *)
Theorem first_run_stores_batch :
  forall (w : World) (s : Scraper),
    db s = [] ->
    (forall item, execute_fault w item = None) ->
    to_csv_fault w = None ->
    to_json_fault w = None ->
    let s' := (run_scrape w s).2 in
    db s' = news_data s'
    /\ csv_file s' = Some (news_data s')
    /\ json_file s' = Some (news_data s').
Proof.
  intros w s Hdb Hf Hc Hj s'. subst s'.
  destruct (run_scrape_spec w s) as (s' & E & Hn & Hd & Hcsv & Hjson & _).
  rewrite E. cbn [snd]. rewrite Hn, Hd, Hcsv, Hjson, Hc, Hj, Hdb.
  split; [|done].
  destruct (attempted_no_fault w (deduplicated (scraped_batch w)))
    as [-> _]; [by intros|].
  rewrite insert_all_fresh; [done| |by intros; apply not_elem_of_nil].
  eapply (NoDup_fmap_coarser (Pandas.subset_key ["title"; "source"; "url"]));
    [|apply drop_duplicates_NoDup].
  intros a b Hk. apply subset_key_key3. unfold key4 in Hk. unfold key3.
  congruence.
Qed.

(** A first full run in [quiet_world]. *)
Lemma first_run_stores_batch_witness :
  db (run_scrape Samples.quiet_world Samples.empty_scraper).2
  = news_data (run_scrape Samples.quiet_world Samples.empty_scraper).2.
Proof.
  apply (first_run_stores_batch Samples.quiet_world Samples.empty_scraper);
    reflexivity.
Defined.

(** ** Single-feed runs and [POST /news/scrape] *)

(** [scrape_single_feed] by cases on the first exception of the
    database. *)
Lemma scrape_single_feed_spec (w : World) (s : Scraper) (u c a : pystr) :
  let entries := returned (fetch_feed w c a u) in
  let batch := news_data s ++ entries in
  exists s',
    (scrape_single_feed w u c a s).2 = s'
    /\ news_data s' = batch
    /\ db s' = insert_all (attempted w batch) (db s)
    /\ match first_fault w batch with
       | Some e =>
           if is_SqliteError e
           then (scrape_single_feed w u c a s).1 = Ok entries
           else (scrape_single_feed w u c a s).1 = Raise e
                /\ csv_file s' = csv_file s /\ json_file s' = json_file s
       | None => (scrape_single_feed w u c a s).1 = Ok entries
       end
    /\ ((scrape_single_feed w u c a s).1 = Ok entries ->
        csv_file s'
        = exported (to_csv_fault w) (to_csv_written w) (csv_file s) batch
        /\ json_file s'
           = exported (to_json_fault w) (to_json_written w) (json_file s)
               batch).
Proof.
  intros entries batch.
  destruct (fetch_feed_ok w c a u) as (l & v & E).
  assert (entries = v) as Hv by (subst entries; unfold returned; by rewrite E).
  remember (scrape_single_feed w u c a s) as r eqn:Hr.
  unfold scrape_single_feed in Hr.
  set (s0 := set_news_data (news_data s ++ v) (add_log l s)) in *.
  assert (mbind (lift (fetch_feed w c a u))
            (fun entries =>
               mbind (extend_news_data entries) (fun _ =>
               mbind (save_to_database w) (fun _ =>
               mbind (save_to_csv w) (fun _ =>
               mbind (save_to_json w) (fun _ => mret entries))))) s
          = mbind (save_to_database w) (fun _ =>
              mbind (save_to_csv w) (fun _ =>
              mbind (save_to_json w) (fun _ => mret v))) s0) as Hstart.
  { unfold mbind at 1 2, lift, extend_news_data, modify. by rewrite E. }
  rewrite Hstart in Hr. clear Hstart.
  assert (news_data s0 = batch) as Hn0 by (subst batch; by rewrite Hv).
  unfold mbind at 1 in Hr. rewrite save_to_database_spec in Hr.
  cbv zeta in Hr. rewrite Hn0 in Hr.
  destruct (first_fault w batch) as [e|]; [destruct (is_SqliteError e)|].
  - rewrite (mbind_ok _ _ _ _ _ (save_to_csv_cases w _)) in Hr.
    rewrite (mbind_ok _ _ _ _ _ (save_to_json_cases w _)) in Hr.
    subst r. eexists. split; [reflexivity|]. rewrite Hv.
    destruct (to_csv_fault w), (to_json_fault w); cbn;
      by rewrite ?Hn0, <- ?Hv.
  - subst r. eexists. split; [reflexivity|]. cbn.
    split; [exact Hn0|]. by repeat split.
  - rewrite (mbind_ok _ _ _ _ _ (save_to_csv_cases w _)) in Hr.
    rewrite (mbind_ok _ _ _ _ _ (save_to_json_cases w _)) in Hr.
    subst r. eexists. split; [reflexivity|]. rewrite Hv.
    destruct (to_csv_fault w), (to_json_fault w); cbn;
      by rewrite ?Hn0, <- ?Hv.
Qed.

(** *** C9: the title of an article, and its row *)

(** [fetch_feed] returns the article of every entry of the feed, in the
    order of the feed, each built with the clock of the call. *)
Lemma fetch_feed_articles (w : World) (c a u : pystr) :
  Forall2 (fun entry art => (build_article w c a entry (now w)).2 = Ok art)
    (feed_of w u) (returned (fetch_feed w c a u)).
Proof.
  unfold returned, feed_of. rewrite fetch_feed_cases. cbv zeta.
  destruct (session_get w u) as [response|e]; [|constructor].
  destruct (raise_for_status response) as [[]|e]; [|constructor].
  destruct (feedparser_parse w (content response)) as [[|e0 es]|e];
    [constructor| |constructor].
  destruct (fetch_entries_in_order w c a (sub_days (now w) 365) (e0 :: es)
              eq_refl []) as (l & news & E & Hall).
  rewrite E. cbn [fst snd app]. exact Hall.
Qed.

(** C9, as amended.  [fetch_feed] returns one article for each entry of
    the feed, in the order of the feed (none when the feed is not fetched
    or not parsed), and the title of the article is the cleaned title of
    its entry, or "No Title" when the entry has no title field.  So an
    entry with no title field gives the title "No Title", and with no
    summary either, an empty summary and the language "unknown".  A title
    field that holds a character which is neither whitespace nor a
    surrogate gives a title that is not empty; a title field that is
    present and blank gives an empty title.  No article is dropped for its
    title: [scrape_single_feed] appends all of them to the batch and has
    [save_to_database] write the batch, after which the table holds a row
    with the title, date, source and URL of every article that the
    writer reached, which is every article when the database raised
    nothing. *)
Theorem fetch_feed_title_fallback :
  forall (w : World) (cty agency feed_url : pystr) (s : Scraper),
    let entries := returned (fetch_feed w cty agency feed_url) in
    let s' := (scrape_single_feed w feed_url cty agency s).2 in
    (exists l, fetch_feed w cty agency feed_url = (l, Ok entries))
    /\ Forall2
         (fun entry art =>
            title art
            = clean_text (default (py "No Title") (entry !! "title"))
            /\ (entry !! "title" = None -> title art = py "No Title")
            /\ (entry !! "title" = None -> entry !! "summary" = None ->
                entry !! "description" = None ->
                summary art = [] /\ language art = py "unknown")
            /\ (forall t c, entry !! "title" = Some t ->
                            c ∈ t -> isspace c = false ->
                            is_surrogate c = false ->
                            title art <> [])
            /\ (forall t, entry !! "title" = Some t -> strip t = [] ->
                          title art = []))
         (feed_of w feed_url) entries
    /\ news_data s' = news_data s ++ entries
    /\ Forall (fun art =>
                 art ∈ attempted w (news_data s ++ entries) ->
                 key4 art ∈ key4 <$> db s')
         entries
    /\ ((forall item, item ∈ news_data s ++ entries ->
                      execute_fault w item = None) ->
        Forall (fun art => key4 art ∈ key4 <$> db s') entries).
Proof.
  intros w c a u s entries s'.
  destruct (scrape_single_feed_spec w s u c a)
    as (t & Et & Hn & Hd & _ & _).
  fold entries in Hn, Hd. fold s' in Et. subst t.
  assert (forall art, art ∈ attempted w (news_data s ++ entries) ->
                      key4 art ∈ key4 <$> db s') as Hreached.
  { intros art Hart. rewrite Hd. apply insert_all_keys. left.
    apply list_elem_of_fmap. by exists art. }
  split.
  { destruct (fetch_feed_ok w c a u) as (l & v & E). exists l.
    subst entries. unfold returned. by rewrite E. }
  split.
  { eapply Forall2_impl; [apply fetch_feed_articles|].
    intros entry art Hb. cbv beta in Hb.
    destruct (build_article_ok w c a entry (now w))
      as (l2 & art' & E4 & Ht & _ & _ & _ & Hs & _ & Hlang & _).
    rewrite E4 in Hb. injection Hb as ->.
    split; [done|]. split; [|split; [|split]].
    - intros Hnone. by rewrite Ht, Hnone.
    - intros Hnone Hs1 Hs2. rewrite Hs, Hs1, Hs2. split; [done|].
      rewrite Ht, Hs, Hnone, Hs1, Hs2 in Hlang.
      rewrite detect_language_cases in Hlang. by injection Hlang.
    - intros t ch Hsome Hch Hsp Hsu. rewrite Ht, Hsome.
      by apply (clean_text_nonempty ch).
    - intros t Hsome Hblank. rewrite Ht, Hsome. by apply clean_text_blank. }
  split; [done|]. split.
  - apply Forall_forall. intros art _. apply Hreached.
  - intros Hnone. apply Forall_forall. intros art Hart. apply Hreached.
    destruct (attempted_no_fault w (news_data s ++ entries) Hnone) as [-> _].
    apply elem_of_app. by right.
Qed.

(** C9, for the feed of [blank_title_world], scraped with nothing held:
    the article of its bare entry has the title "No Title", and its row
    is in the table. *)
Lemma fetch_feed_title_fallback_witness :
  let s' :=
    (scrape_single_feed Samples.blank_title_world Samples.bbc_url (py "UK")
       (py "BBC News") Samples.empty_scraper).2 in
  exists art,
    art ∈ returned (fetch_feed Samples.blank_title_world (py "UK")
                      (py "BBC News") Samples.bbc_url)
    /\ title art = py "No Title"
    /\ key4 art ∈ key4 <$> db s'.
Proof.
  intros s'.
  destruct (fetch_feed_title_fallback Samples.blank_title_world (py "UK")
              (py "BBC News") Samples.bbc_url Samples.empty_scraper)
    as (_ & _ & _ & _ & Hstored).
  assert (Hin :
    {| title := py "No Title";
       publication_date := py "2025-01-01 00:00:00";
       source := py "BBC News";
       country := py "UK";
       summary := [];
       url := [];
       language := py "unknown";
       sentiment := py "neutral" |}
    ∈ returned (fetch_feed Samples.blank_title_world (py "UK")
                  (py "BBC News") Samples.bbc_url)).
  { right. left. }
  eexists. split; [exact Hin|]. split; [reflexivity|].
  apply (proj1 (Forall_forall _ _) (Hstored (fun _ _ => eq_refl)) _ Hin).
Defined.

(** C9, counterexample.  The first entry of the feed has a title field
    that is blank: the title of its article is empty, not "No Title". *)
Lemma fetch_feed_blank_title :
  Samples.entry_blank_title !! "title" = Some (py "   ")
  /\ fetch_feed Samples.blank_title_world (py "UK") (py "BBC News")
       Samples.bbc_url
     = ([(INFO, "Fetched articles")],
        Ok [ {| title := [];
                publication_date := py "2025-01-01 00:00:00";
                source := py "BBC News";
                country := py "UK";
                summary := py "Rain over the northern hills tonight.";
                url := [];
                language := py "en";
                sentiment := py "neutral" |};
             {| title := py "No Title";
                publication_date := py "2025-01-01 00:00:00";
                source := py "BBC News";
                country := py "UK";
                summary := [];
                url := [];
                language := py "unknown";
                sentiment := py "neutral" |} ]).
Proof. vm_compute. repeat split. Qed.





(** The articles that [fetch_feed] returns carry the agency and the
    country given to the call. *)
Lemma fetch_feed_labels (w : World) (c a u : pystr) :
  Forall (fun art => source art = a /\ country art = c)
    (returned (fetch_feed w c a u)).
Proof.
  unfold returned. rewrite fetch_feed_cases. cbv zeta.
  destruct (session_get w u) as [response|e]; [|constructor].
  destruct (raise_for_status response) as [[]|e]; [|constructor].
  destruct (feedparser_parse w (content response)) as [[|e0 es]|e];
    [constructor| |constructor].
  destruct (fetch_entries_in_order w c a (sub_days (now w) 365) (e0 :: es)
              eq_refl []) as (l & news & E & Hall).
  rewrite E. cbn [fst snd app].
  apply Forall_forall. intros art Hart.
  apply list_elem_of_lookup in Hart as [i Hi].
  destruct (Forall2_lookup_r _ _ _ i art Hall Hi) as (entry & _ & Hb).
  destruct (build_article_ok w c a entry (now w))
    as (l2 & art' & E4 & _ & _ & Hsrc & Hco & _).
  rewrite E4 in Hb. injection Hb as ->. done.
Qed.

(** X13.  [POST /news/scrape] answers with the articles of the feed, labelled
    with the country and the agency of the request ("Custom" and "Custom
    Feed" when the request names none).  A feed that cannot be reached
    gives the empty list, not an error.  The answer is the error 500
    exactly when the database raises something other than an
    [sqlite3.Error] while the batch is written. *)
Theorem scrape_rss_answers :
  forall (w : World) (s : Scraper) (url : pystr) (cty agency : option pystr),
    let request := ScrapeRequest_of url cty agency in
    let entries :=
      returned (fetch_feed w (default (py "Custom") cty)
                  (default (py "Custom Feed") agency) url) in
    (scrape_rss w request s).1
    = match first_fault w (news_data s ++ entries) with
      | Some e =>
          if is_SqliteError e then Ok entries
          else Raise (HTTPException 500)
      | None => Ok entries
      end
    /\ Forall (fun art => country art = default (py "Custom") cty
                          /\ source art = default (py "Custom Feed") agency)
         entries
    /\ (forall e, session_get w url = Raise e -> entries = []).
Proof.
  intros w s url c a request entries. split; [|split].
  - unfold scrape_rss, m_try_except, mbind at 1.
    destruct (scrape_single_feed_spec w s url (default (py "Custom") c)
                (default (py "Custom Feed") a))
      as (s' & _ & _ & _ & Hr & _).
    fold entries in Hr. cbn [rss_url request_country request_agency request
                             ScrapeRequest_of].
    destruct (scrape_single_feed w url (default (py "Custom") c)
                (default (py "Custom Feed") a) s) as [r s''].
    cbn [fst] in Hr.
    destruct (first_fault w (news_data s ++ entries)) as [e|];
      [destruct (is_SqliteError e)|].
    + by rewrite Hr.
    + destruct Hr as [-> _]. done.
    + by rewrite Hr.
  - eapply Forall_impl; [apply fetch_feed_labels|]. by intros art [-> ->].
  - intros e He. subst entries. unfold returned.
    rewrite fetch_feed_cases. cbv zeta. by rewrite He.
Qed.

(** ** [POST /news/filter] without a keyword *)

(** *** The statement that [filter_news] builds *)

Lemma append_nil (r : string) : ("" ++ r)%string = r.
Proof. reflexivity. Qed.

Lemma append_cons (c : ascii) (s r : string) :
  (String c s ++ r)%string = String c (s ++ r).
Proof. reflexivity. Qed.

(** A space ends the word being read: the tokens of [s ++ " " ++ r] are
    those of [s], then those of [r]. *)
Lemma lex_app_space (s : string) : forall mode ts1 r,
  Sqlite.lex mode s = Some ts1 ->
  Sqlite.lex mode (s ++ String " " r) = app ts1 <$> Sqlite.lex (Sqlite.InWord "") r.
Proof.
  induction s as [|c s IH]; intros mode ts1 r H.
  - destruct mode as [word|lit]; [|discriminate].
    injection H as <-. rewrite append_nil. cbn.
    destruct (Sqlite.lex (Sqlite.InWord "") r); cbn; [|done].
    reflexivity.
  - rewrite append_cons. cbn [Sqlite.lex] in *.
    destruct mode as [word|lit].
    + destruct (Sqlite.is_word_char c); [by apply IH|].
      cbv zeta in *.
      assert (Hafter : forall t ts1,
        (fun ts => Sqlite.flush word ++ t ++ ts) <$> Sqlite.lex (Sqlite.InWord "") s = Some ts1 ->
        (fun ts => Sqlite.flush word ++ t ++ ts) <$> Sqlite.lex (Sqlite.InWord "") (s ++ String " " r)
        = app ts1 <$> Sqlite.lex (Sqlite.InWord "") r).
      { intros t ts0 H0.
        destruct (Sqlite.lex (Sqlite.InWord "") s) as [ts|] eqn:E; [|discriminate].
        injection H0 as <-. rewrite (IH _ _ r E).
        destruct (Sqlite.lex (Sqlite.InWord "") r); cbn; [|done].
        by rewrite <- !app_assoc. }
      repeat (match goal with |- context [if ?b then _ else _] => destruct b end;
              [by apply Hafter|]).
      match goal with |- context [if ?b then _ else _] => destruct b end; [|discriminate].
      destruct (Sqlite.lex (Sqlite.InStr "") s) as [ts|] eqn:E; [|discriminate].
      injection H as <-. rewrite (IH _ _ r E).
      destruct (Sqlite.lex (Sqlite.InWord "") r); cbn; [|done].
      by rewrite <- !app_assoc.
    + destruct (Ascii.eqb c "'"); [|by apply IH].
      destruct (Sqlite.lex (Sqlite.InWord "") s) as [ts|] eqn:E; [|discriminate].
      injection H as <-. rewrite (IH _ _ r E).
      destruct (Sqlite.lex (Sqlite.InWord "") r); cbn; done.
Qed.

Lemma placeholders_S (n : nat) :
  placeholders (S (S n)) = ("?" ++ "," ++ placeholders (S n))%string.
Proof. reflexivity. Qed.

Lemma lex_placeholders (n : nat) (r : string) :
  Sqlite.lex (Sqlite.InWord "") (placeholders (S n) ++ r)
  = (fun ts => Sqlite.TQMark :: qmarks_more n ++ ts)
      <$> Sqlite.lex (Sqlite.InWord "") r.
Proof.
  induction n as [|n IH].
  - change (placeholders 1) with "?". rewrite append_cons, append_nil. cbn.
    by destruct (Sqlite.lex (Sqlite.InWord "") r).
  - rewrite placeholders_S. repeat (rewrite append_cons || rewrite append_nil).
    cbn [Sqlite.lex Sqlite.is_word_char]. 
    change (Sqlite.lex (Sqlite.InWord "") (String "?" (String "," (placeholders (S n) ++ r))))
      with ((fun ts => Sqlite.TQMark :: Sqlite.TComma :: ts) <$> Sqlite.lex (Sqlite.InWord "") (placeholders (S n) ++ r)).
    rewrite IH. by destruct (Sqlite.lex (Sqlite.InWord "") r).
Qed.

Lemma lex_lhs (l : lhs) :
  Sqlite.lex (Sqlite.InWord "") (lhs_string l) = Some (lhs_tokens l).
Proof. destruct l; reflexivity. Qed.

(** The tokens of a statement to which a block is appended. *)
Lemma lex_block (q : string) (tq : list Sqlite.token) (l : lhs) (n : nat) :
  Sqlite.lex (Sqlite.InWord "") q = Some tq ->
  Sqlite.lex (Sqlite.InWord "") (q ++ block_string l n)
  = Some (tq ++ block_tokens l n).
Proof.
  intros Hq. unfold block_string, block_tokens.
  change (" AND " ++ ?x)%string with (String " " ("AND" ++ String " " x)).
  rewrite (lex_app_space q _ _ _ Hq).
  rewrite (lex_app_space "AND" (Sqlite.InWord "") [Sqlite.TWord "AND"] _ eq_refl).
  change (" IN (" ++ ?x)%string with (String " " ("IN" ++ String " " (String "(" x))).
  rewrite (lex_app_space _ _ _ _ (lex_lhs l)).
  rewrite (lex_app_space "IN" (Sqlite.InWord "") [Sqlite.TWord "IN"] _ eq_refl).
  change (Sqlite.lex (Sqlite.InWord "") (String "(" ?x))
    with (cons Sqlite.TLParen <$> Sqlite.lex (Sqlite.InWord "") x).
  rewrite lex_placeholders.
  reflexivity.
Qed.

Lemma apply_blocks_lex (bs : list (lhs * list pystr)) :
  forall qp tq,
  Sqlite.lex (Sqlite.InWord "") qp.1 = Some tq ->
  Sqlite.lex (Sqlite.InWord "") (fold_left apply_block bs qp).1
  = Some (tq ++ blocks_tokens (shape <$> bs)).
Proof.
  induction bs as [|b bs IH]; intros qp tq Hq; cbn [fold_left].
  - by rewrite Hq, app_nil_r.
  - rewrite (IH _ (tq ++ block_tokens b.1 (pred (length b.2)))).
    + unfold blocks_tokens. rewrite !fmap_cons. cbn [concat shape fst snd].
      by rewrite app_assoc.
    + by apply lex_block.
Qed.

Lemma apply_blocks_params (bs : list (lhs * list pystr)) :
  forall qp, (fold_left apply_block bs qp).2 = qp.2 ++ concat (snd <$> bs).
Proof.
  induction bs as [|b bs IH]; intros qp; cbn [fold_left].
  - by rewrite app_nil_r.
  - rewrite IH, fmap_cons. cbn [concat apply_block snd]. by rewrite app_assoc.
Qed.

Lemma split_from_length (sep : N) (s : pystr) :
  forall cur, exists n, length (split_from sep cur s) = S n.
Proof.
  induction s as [|c s IH]; intros cur; cbn [split_from]; [by exists 0|].
  destruct (c =? sep)%N; [|apply IH].
  destruct (IH []) as [n Hn]. exists (S n). cbn. by rewrite Hn.
Qed.

(** [split] returns at least one part, so a block has at least one
    placeholder. *)
Lemma filter_items_nonempty (field : option pystr) (items : list pystr) :
  filter_items field = Some items -> items <> [].
Proof.
  unfold filter_items. destruct field as [v|]; [|done].
  destruct (truthy v); [|done]. intros [= <-].
  destruct (split_from_length 44%N v []) as [n Hn].
  intros E. apply (f_equal length) in E. rewrite length_fmap in E.
  unfold split in E. rewrite Hn in E. discriminate.
Qed.

Lemma filter_block_items (l : lhs) (field : option pystr)
    (qp : string * list pystr) :
  filter_block (lhs_string l) field qp
  = match filter_items field with
    | Some items => apply_block qp (l, items)
    | None => qp
    end.
Proof.
  unfold filter_block. 
  destruct (filter_items field) as [items|] eqn:E.
  - pose proof (filter_items_nonempty _ _ E) as Hne.
    unfold filter_items in E. destruct field as [v|]; [|done].
    destruct (truthy v); [|done]. injection E as E. cbv zeta. rewrite E.
    unfold apply_block, block_string. cbn [fst snd].
    destruct items as [|x xs]; [done|]. reflexivity.
  - unfold filter_items in E. destruct field as [v|]; [|done].
    by destruct (truthy v).
Qed.

(** Without a keyword, the statement is the first line of the query and
    the blocks of the fields that select something. *)
Lemma build_query_blocks (filters : FilterRequest) :
  filter_items (f_keyword filters) = None ->
  build_query filters
  = fold_left apply_block (active_blocks filters)
      ("SELECT * FROM news WHERE 1=1", []).
Proof.
  intros Hkw. unfold build_query. cbv zeta.
  change "country" with (lhs_string LCountry).
  change "source" with (lhs_string LSource).
  change "language" with (lhs_string LLanguage).
  change "sentiment" with (lhs_string LSentiment).
  change "strftime('%Y', publication_date)" with (lhs_string LYear).
  rewrite !filter_block_items.
  assert (Hk : forall qp, keyword_block (f_keyword filters) qp = qp).
  { intros qp. unfold keyword_block. unfold filter_items in Hkw.
    destruct (f_keyword filters) as [kw|]; [|done].
    by destruct (truthy kw). }
  rewrite Hk. unfold active_blocks. cbn [omap list_omap fst snd].
  destruct (filter_items (f_country filters));
    destruct (filter_items (f_source filters));
    destruct (filter_items (f_language filters));
    destruct (filter_items (f_sentiment filters));
    destruct (filter_items (f_year filters)); reflexivity.
Qed.

(** *** Its syntax tree *)

Lemma parse_operands_qmarks (n : nat) :
  forall fuel rest k, n + 2 <= fuel ->
  Sqlite.parse_operands fuel
    (Sqlite.TQMark :: qmarks_more n ++ Sqlite.TRParen :: rest, k)
  = Some (Sqlite.OParam <$> seq k (S n), (Sqlite.TRParen :: rest, k + S n)).
Proof.
  induction n as [|n IH]; intros fuel rest k Hf.
  - destruct fuel as [|[|f]]; [lia..|]. cbn. by rewrite Nat.add_1_r.
  - destruct fuel as [|[|f]]; [lia..|].
    cbn [qmarks_more app].
    change (Sqlite.parse_operands (S (S f)) (Sqlite.TQMark :: Sqlite.TComma :: ?r, k))
      with (match Sqlite.parse_operands (S f) (r, S k) with
            | Some (rest, st') => Some (Sqlite.OParam k :: rest, st')
            | None => None
            end).
    rewrite IH by lia.
    replace (k + S (S n)) with (S k + S n) by lia. reflexivity.
Qed.

Lemma parse_operand_lhs (l : lhs) (fuel : nat) (rest : list Sqlite.token)
    (k : nat) :
  4 <= fuel ->
  Sqlite.parse_operand fuel (lhs_tokens l ++ Sqlite.TWord "IN" :: rest, k)
  = Some (lhs_operand l, (Sqlite.TWord "IN" :: rest, k)).
Proof.
  intros Hf. destruct fuel as [|[|[|[|f]]]]; [lia..|].
  destruct l; reflexivity.
Qed.

Lemma parse_pred_block (l : lhs) (n fuel : nat) (rest : list Sqlite.token)
    (k : nat) :
  n + 5 <= fuel ->
  Sqlite.parse_pred fuel
    (lhs_tokens l ++ Sqlite.TWord "IN" :: Sqlite.TLParen :: Sqlite.TQMark
       :: qmarks_more n ++ Sqlite.TRParen :: rest, k)
  = Some (block_expr l k n, (rest, k + S n)).
Proof.
  intros Hf. destruct fuel as [|f]; [lia|].
  assert (Hpred : forall st a r,
    head st.1 <> Some Sqlite.TLParen ->
    Sqlite.parse_operand f st
    = Some (a, (Sqlite.TWord "IN" :: Sqlite.TLParen :: r, st.2)) ->
    Sqlite.parse_pred (S f) st
    = match Sqlite.parse_operands f (r, st.2) with
      | Some (items, (Sqlite.TRParen :: r', n')) =>
          Some (Sqlite.EIn a items, (r', n'))
      | _ => None
      end).
  { intros [ts m] a r Hhd Hop. cbn [Sqlite.parse_pred].
    destruct ts as [|t ts]; [by rewrite Hop|].
    destruct t; try by rewrite Hop. by cbn in Hhd. }
  rewrite (Hpred _ (lhs_operand l)
             (Sqlite.TQMark :: qmarks_more n ++ Sqlite.TRParen :: rest)).
  - cbn [snd]. by rewrite parse_operands_qmarks by lia.
  - by destruct l.
  - cbn [snd]. apply parse_operand_lhs. lia.
Qed.

Lemma blocks_tokens_cons (l : lhs) (n : nat) (bs : list (lhs * nat)) :
  blocks_tokens ((l, n) :: bs) = block_tokens l n ++ blocks_tokens bs.
Proof. reflexivity. Qed.

Lemma blocks_fuel_cons (l : lhs) (n : nat) (bs : list (lhs * nat)) :
  blocks_fuel ((l, n) :: bs) = n + 6 + blocks_fuel bs.
Proof. reflexivity. Qed.

Lemma blocks_params_cons (l : lhs) (n : nat) (bs : list (lhs * nat)) :
  blocks_params ((l, n) :: bs) = S n + blocks_params bs.
Proof. reflexivity. Qed.

(** A first condition followed by blocks parses to their conjunction,
    with every token read. *)
Lemma parse_conj_blocks (bs : list (lhs * nat)) :
  forall fuel F0 toks0 e0 k0 k,
  (forall f rest, F0 <= f ->
     Sqlite.parse_pred f (toks0 ++ rest, k0) = Some (e0, (rest, k))) ->
  F0 + 1 + blocks_fuel bs <= fuel ->
  Sqlite.parse_conj fuel (toks0 ++ blocks_tokens bs, k0)
  = Some (conj_of e0 k bs, ([], k + blocks_params bs)).
Proof.
  induction bs as [|[l n] bs IH]; intros fuel F0 toks0 e0 k0 k Hpred Hf;
    (destruct fuel as [|f]; [lia|]); cbn [Sqlite.parse_conj].
  - rewrite Hpred by lia. cbn. by rewrite Nat.add_0_r.
  - rewrite blocks_fuel_cons in Hf.
    rewrite blocks_tokens_cons, blocks_params_cons.
    unfold block_tokens. rewrite <- app_comm_cons.
    rewrite Hpred by lia.
    set (toks1 := lhs_tokens l ++ Sqlite.TWord "IN" :: Sqlite.TLParen
                  :: Sqlite.TQMark :: qmarks_more n ++ [Sqlite.TRParen]).
    rewrite (IH f (n + 5) toks1 (block_expr l k n) k (k + S n)).
    + cbn [conj_of]. by rewrite Nat.add_assoc.
    + intros f' rest Hf'. unfold toks1.
      rewrite <- app_assoc. cbn [app]. rewrite <- app_assoc. cbn [app].
      by apply parse_pred_block.
    + lia.
Qed.

Lemma qmarks_more_length (n : nat) : length (qmarks_more n) = 2 * n.
Proof. induction n as [|n IH]; cbn [qmarks_more length]; lia. Qed.

Lemma block_tokens_length (l : lhs) (n : nat) :
  n + 6 <= length (block_tokens l n).
Proof.
  unfold block_tokens. cbn [length]. rewrite length_app. cbn [length].
  rewrite length_app, qmarks_more_length. cbn [length].
  assert (1 <= length (lhs_tokens l)) by (destruct l; cbn; lia). lia.
Qed.

Lemma blocks_fuel_tokens (bs : list (lhs * nat)) :
  blocks_fuel bs <= length (blocks_tokens bs).
Proof.
  induction bs as [|[l n] bs IH]; [done|].
  rewrite blocks_fuel_cons, blocks_tokens_cons, length_app.
  pose proof (block_tokens_length l n). lia.
Qed.

Lemma parse_select_blocks (bs : list (lhs * nat)) :
  Sqlite.parse_select
    ([Sqlite.TWord "SELECT"; Sqlite.TStar; Sqlite.TWord "FROM";
      Sqlite.TWord "news"; Sqlite.TWord "WHERE"; Sqlite.TNum 1; Sqlite.TEq;
      Sqlite.TNum 1] ++ blocks_tokens bs)
  = Some ("news",
          conj_of (Sqlite.EEq (Sqlite.ONum 1) (Sqlite.ONum 1)) 0 bs,
          blocks_params bs).
Proof.
  cbn [app Sqlite.parse_select]. rewrite bool_decide_eq_true_2 by done.
  pose proof (blocks_fuel_tokens bs) as Hlen.
  cbn [length].
  destruct (4 * S (S (S (S (length (blocks_tokens bs)))))) as [|f] eqn:Ef;
    [lia|].
  cbn [Sqlite.parse_disj].
  pose proof (parse_conj_blocks bs f 2
                [Sqlite.TNum 1; Sqlite.TEq; Sqlite.TNum 1]
                (Sqlite.EEq (Sqlite.ONum 1) (Sqlite.ONum 1)) 0 0) as Hc.
  cbn [app] in Hc. rewrite Hc.
  - reflexivity.
  - intros f' rest Hf'. destruct f' as [|[|f']]; [lia..|]. reflexivity.
  - lia.
Qed.

(** *** Its value on a row *)

Lemma eval_lhs (w : World) (params : list pystr) (row : Article) (l : lhs) :
  Sqlite.ev (sql_strftime_Y w) params row (lhs_operand l)
  = Ok (sql_value (lhs_value w l row)).
Proof.
  destruct l; reflexivity.
Qed.

(** The placeholders of a block are bound to its values. *)
Lemma sequence_params (f : pystr -> option pystr) (params : list pystr)
    (row : Article) (items : list pystr) :
  forall pre post, params = pre ++ items ++ post ->
  Sqlite.sequence
    (Sqlite.ev f params row <$> (Sqlite.OParam <$> seq (length pre) (length items)))
  = Ok (Sqlite.VText <$> items).
Proof.
  induction items as [|x xs IH]; intros pre post Hp; [done|].
  cbn [length seq]. rewrite !fmap_cons. cbn [Sqlite.sequence].
  unfold Sqlite.ev at 1. cbn [Sqlite.eval_operand].
  assert (Hx : params !! length pre = Some x).
  { rewrite Hp. by rewrite lookup_app_r, Nat.sub_diag by lia. }
  rewrite Hx. cbn [rbind].
  specialize (IH (pre ++ [x]) post).
  rewrite length_app, Nat.add_1_r in IH.
  rewrite IH; [done|]. by rewrite <- app_assoc.
Qed.

Lemma in3_text (x : pystr) (items : list pystr) :
  Sqlite.in3 (Sqlite.VText x) (Sqlite.VText <$> items)
  = Some (bool_decide (x ∈ items)).
Proof.
  induction items as [|y ys IH]; [done|].
  rewrite fmap_cons. unfold Sqlite.in3 in *. cbn [foldr]. rewrite IH.
  unfold Sqlite.eq3.
  destruct (decide (x = y)) as [->|Hne].
  - rewrite (bool_decide_eq_true_2 (Sqlite.VText y = Sqlite.VText y)) by done.
    rewrite (bool_decide_eq_true_2 (y ∈ y :: ys))
      by (apply elem_of_cons; by left).
    by destruct (bool_decide (y ∈ ys)).
  - rewrite (bool_decide_eq_false_2 (Sqlite.VText x = Sqlite.VText y))
      by congruence.
    rewrite (bool_decide_ext (x ∈ y :: ys) (x ∈ ys))
      by (rewrite elem_of_cons; split; [intros [?|?]; [congruence|done]|by right]).
    by destruct (bool_decide (x ∈ ys)).
Qed.

Lemma in3_null (items : list Sqlite.value) :
  Sqlite.in3 Sqlite.VNull items <> Some true.
Proof.
  induction items as [|y ys IH]; [done|].
  unfold Sqlite.in3 in *. cbn [foldr].
  destruct (foldr _ _ ys) as [[]|]; [done|..]; by destruct y.
Qed.

Lemma eval_block (w : World) (params : list pystr) (row : Article)
    (l : lhs) (items pre post : list pystr) :
  params = pre ++ items ++ post -> items <> [] ->
  exists r,
    Sqlite.eval_expr (sql_like w) (sql_strftime_Y w) params row
      (block_expr l (length pre) (pred (length items))) = Ok r
    /\ (r = Some true <-> block_ok w row (l, items)).
Proof.
  intros Hp Hne. unfold block_expr.
  replace (S (pred (length items))) with (length items)
    by (destruct items; [done|reflexivity]).
  cbn [Sqlite.eval_expr]. rewrite eval_lhs, (sequence_params _ _ _ _ _ _ Hp).
  cbn [rbind]. eexists; split; [reflexivity|].
  unfold block_ok. cbn [fst snd].
  destruct (lhs_value w l row) as [x|]; cbn [sql_value].
  - rewrite in3_text. split.
    + intros [= H%bool_decide_eq_true]. by exists x.
    + intros (x' & [= <-] & Hin). by rewrite bool_decide_eq_true_2.
  - split; [intros H; by apply in3_null in H|]. by intros (x & ? & _).
Qed.

Lemma and3_true (a b : option bool) :
  Sqlite.and3 a b = Some true <-> a = Some true /\ b = Some true.
Proof.
  destruct a as [[]|], b as [[]|]; cbn; (split; [|intros [? ?]]);
    try discriminate; auto.
Qed.

(** The conjunction is true on a row exactly when its first condition
    and every block are; it is never an error. *)
Lemma eval_conj (w : World) (params : list pystr) (row : Article)
    (bs : list (lhs * list pystr)) :
  forall pre e0 r0,
  params = pre ++ concat (snd <$> bs) ->
  Forall (fun b => b.2 <> []) bs ->
  Sqlite.eval_expr (sql_like w) (sql_strftime_Y w) params row e0 = Ok r0 ->
  exists r,
    Sqlite.eval_expr (sql_like w) (sql_strftime_Y w) params row
      (conj_of e0 (length pre) (shape <$> bs)) = Ok r
    /\ (r = Some true <-> r0 = Some true /\ Forall (block_ok w row) bs).
Proof.
  induction bs as [|[l items] bs IH]; intros pre e0 r0 Hp Hne He0.
  - exists r0. split; [done|]. rewrite Forall_nil. tauto.
  - rewrite fmap_cons in Hp. cbn [concat snd] in Hp.
    apply Forall_cons in Hne as [Hne Hnes]. cbn [snd] in Hne.
    destruct (eval_block w params row l items pre _ Hp Hne) as (r1 & He1 & Hr1).
    rewrite fmap_cons. unfold shape at 1. cbn [fst snd conj_of].
    destruct (IH (pre ++ items)
                (block_expr l (length pre) (pred (length items))) r1)
      as (r & He & Hr);
      [by rewrite <- app_assoc|done|done|].
    rewrite length_app in He.
    replace (S (pred (length items))) with (length items)
      by (destruct items; [done|reflexivity]).
    cbn [Sqlite.eval_expr]. rewrite He0, He. cbn [rbind].
    eexists; split; [reflexivity|].
    rewrite and3_true, Hr, Hr1, Forall_cons. tauto.
Qed.

Lemma select_rows_filter (w : World) (params : list pystr) (e : Sqlite.expr)
    (keep : Article -> bool) (rows : list Article) :
  (forall row, exists r,
     Sqlite.eval_expr (sql_like w) (sql_strftime_Y w) params row e = Ok r
     /\ (r = Some true <-> keep row = true)) ->
  Sqlite.select_rows (sql_like w) (sql_strftime_Y w) params e rows
  = Ok (List.filter keep rows).
Proof.
  intros He. induction rows as [|row rows IH]; [done|].
  cbn [Sqlite.select_rows List.filter].
  destruct (He row) as (r & -> & Hr). rewrite IH. cbn [rbind].
  destruct (keep row).
  - by rewrite bool_decide_eq_true_2 by (by apply Hr).
  - rewrite bool_decide_eq_false_2; [done|]. intros H%Hr. discriminate.
Qed.

Lemma in_filter_block (w : World) (row : Article) (l : lhs)
    (field : option pystr) :
  in_filter field (lhs_value w l row) = true
  <-> match filter_items field with
      | Some items => block_ok w row (l, items)
      | None => True
      end.
Proof.
  unfold in_filter, block_ok.
  destruct (filter_items field) as [items|]; [|done]. cbn [fst snd].
  destruct (lhs_value w l row) as [x|].
  - rewrite bool_decide_eq_true. split.
    + intros Hin. by exists x.
    + by intros (x' & [= <-] & Hin).
  - split; [done|]. by intros (x & ? & _).
Qed.

Lemma matches_blocks (w : World) (filters : FilterRequest) (row : Article) :
  matches w filters row = true
  <-> Forall (block_ok w row) (active_blocks filters).
Proof.
  unfold matches.
  change (Some (country row)) with (lhs_value w LCountry row).
  change (Some (source row)) with (lhs_value w LSource row).
  change (Some (language row)) with (lhs_value w LLanguage row).
  change (Some (sentiment row)) with (lhs_value w LSentiment row).
  change (sql_strftime_Y w (publication_date row))
    with (lhs_value w LYear row).
  rewrite !andb_true_iff, !in_filter_block.
  unfold active_blocks. cbn [omap list_omap fst snd].
  destruct (filter_items (f_country filters));
    destruct (filter_items (f_source filters));
    destruct (filter_items (f_language filters));
    destruct (filter_items (f_sentiment filters));
    destruct (filter_items (f_year filters));
    cbn [fmap option_fmap option_map]; rewrite ?Forall_cons, ?Forall_nil;
    tauto.
Qed.

Lemma active_blocks_nonempty (filters : FilterRequest) :
  Forall (fun b => b.2 <> []) (active_blocks filters).
Proof.
  unfold active_blocks. cbn [omap list_omap fst snd].
  pose proof filter_items_nonempty as Hne.
  destruct (filter_items (f_country filters)) eqn:E1;
    destruct (filter_items (f_source filters)) eqn:E2;
    destruct (filter_items (f_language filters)) eqn:E3;
    destruct (filter_items (f_sentiment filters)) eqn:E4;
    destruct (filter_items (f_year filters)) eqn:E5;
    cbn [fmap option_fmap option_map]; repeat constructor; cbn [snd];
    eauto.
Qed.

Lemma blocks_params_length (bs : list (lhs * list pystr)) :
  Forall (fun b => b.2 <> []) bs ->
  blocks_params (shape <$> bs) = length (concat (snd <$> bs)).
Proof.
  induction 1 as [|[l items] bs Hne _ IH]; [done|].
  rewrite !fmap_cons. unfold shape at 1. cbn [fst snd concat].
  rewrite blocks_params_cons, length_app, IH.
  cbn [snd] in Hne. destruct items; [done|reflexivity].
Qed.

(** The parameters are all bound, or the first that is refused raises. *)
Lemma bind_all_cases (f : pystr -> option exn) (params : list pystr) :
  if forallb (fun v => bool_decide (f v = None)) params
  then Sqlite.bind_all f params = Ok tt
  else exists e, Sqlite.bind_all f params = Raise e.
Proof.
  induction params as [|v params IH]; [done|].
  cbn [forallb Sqlite.bind_all].
  destruct (f v) as [e|] eqn:E.
  - rewrite bool_decide_eq_false_2 by done. by exists e.
  - by rewrite bool_decide_eq_true_2 by done.
Qed.

(** The answer to a request whose keyword selects nothing. *)
Lemma filter_news_spec (w : World) (news : list Article)
    (filters : FilterRequest) :
  filter_items (f_keyword filters) = None ->
  filter_news w news filters
  = if accepted w (build_query filters)
    then Ok (List.filter (matches w filters) news)
    else Raise (HTTPException 500).
Proof.
  intros Hk.
  unfold filter_news. rewrite (build_query_blocks _ Hk).
  set (bs := active_blocks filters).
  pose proof (active_blocks_nonempty filters) as Hne. fold bs in Hne.
  destruct (fold_left apply_block bs _) as [query params] eqn:Eqp.
  pose proof (apply_blocks_lex bs ("SELECT * FROM news WHERE 1=1", [])
                [Sqlite.TWord "SELECT"; Sqlite.TStar; Sqlite.TWord "FROM";
                 Sqlite.TWord "news"; Sqlite.TWord "WHERE"; Sqlite.TNum 1;
                 Sqlite.TEq; Sqlite.TNum 1] eq_refl) as Hlex.
  pose proof (apply_blocks_params bs ("SELECT * FROM news WHERE 1=1", []))
    as Hpar.
  rewrite Eqp in Hlex, Hpar. cbn [fst snd app] in Hlex, Hpar.
  unfold accepted, Sqlite.read_sql_query, Sqlite.tokenize.
  cbn [fst snd sql_limits Sqlite.max_sql_length Sqlite.max_variable_number
         Sqlite.bind_fault].
  rewrite N.ltb_antisym.
  destruct (N.of_nat (String.length query) <=? sql_max_sql_length w)%N;
    cbn [negb andb]; [|done].
  rewrite Hlex.
  pose proof (parse_select_blocks (shape <$> bs)) as Hsel.
  cbn [app] in Hsel. rewrite Hsel.
  rewrite bool_decide_eq_true_2 by done. cbn [negb].
  rewrite (blocks_params_length _ Hne), <- Hpar, N.ltb_antisym.
  destruct (N.of_nat (length params) <=? sql_max_variable_number w)%N;
    cbn [negb andb]; [|done].
  rewrite Nat.eqb_refl. cbn [negb].
  pose proof (bind_all_cases (sql_bind_fault w) params) as Hbind.
  destruct (forallb _ params); [|by destruct Hbind as [e ->]].
  rewrite Hbind. cbn [rbind].
  rewrite (select_rows_filter w params _ (matches w filters)); [done|].
  intros row.
  destruct (eval_conj w params row bs []
              (Sqlite.EEq (Sqlite.ONum 1) (Sqlite.ONum 1))
              (Some true) Hpar Hne eq_refl) as (r & He & Hr).
  exists r. split; [exact He|]. rewrite Hr, matches_blocks. tauto.
Qed.

(** X14, [filter_news] without a keyword.  For a request whose keyword is
    absent or empty, whatever the stored table, the statement that the
    endpoint builds is well formed.  When the engine takes it (the
    statement is within [SQLITE_MAX_SQL_LENGTH], its values are no more
    than [SQLITE_MAX_VARIABLE_NUMBER], each value can be bound), the
    endpoint returns, in stored order, exactly the rows that pass every
    field of the request; when the engine does not, the endpoint answers
    with the error 500.  A field that is absent or empty lets every row
    pass; any other field is split at its commas, each part stripped, and
    lets pass the rows whose column is one of the parts (for [year]:
    whose publication date has a year, as SQLite's [strftime] reads it,
    that is one of the parts). *)
Theorem filter_news_selects (w : World) (news : list Article)
    (filters : FilterRequest) :
  f_keyword filters = None \/ f_keyword filters = Some [] ->
  filter_news w news filters
  = if accepted w (build_query filters)
    then Ok (List.filter (matches w filters) news)
    else Raise (HTTPException 500).
Proof.
  intros Hkw. apply filter_news_spec. by destruct Hkw as [-> | ->].
Qed.

(** The request for the positive articles of France and the USA, on three
    stored rows: the one row of the USA is returned; an engine built for
    two parameters refuses the three values of the request. *)
Lemma filter_news_selects_witness :
  filter_news Samples.quiet_world
    [Samples.story_monday; Samples.story_tuesday; Samples.story_other]
    Samples.request_usa_positive
  = Ok [Samples.story_other]
  /\ filter_news Samples.small_engine_world
       [Samples.story_monday; Samples.story_tuesday; Samples.story_other]
       Samples.request_usa_positive
     = Raise (HTTPException 500).
Proof.
  split.
  - exact (eq_trans
             (filter_news_selects Samples.quiet_world
                [Samples.story_monday; Samples.story_tuesday;
                 Samples.story_other]
                Samples.request_usa_positive (or_intror eq_refl))
             eq_refl).
  - exact (eq_trans
             (filter_news_selects Samples.small_engine_world
                [Samples.story_monday; Samples.story_tuesday;
                 Samples.story_other]
                Samples.request_usa_positive (or_intror eq_refl))
             eq_refl).
Defined.

(** ** The dashboard: [frontend.py] *)

(** *** The language names *)

Lemma foldl_insert_notin (items : list (pystr * pystr)) (k : pystr) :
  forall d : gmap pystr pystr, k ∉ (fst <$> items) ->
  foldl (fun d p => <[p.1 := p.2]> d) d items !! k = d !! k.
Proof.
  induction items as [|[k' v'] items IH]; intros d Hk; [done|].
  rewrite fmap_cons, not_elem_of_cons in Hk. destruct Hk as [Hne Hk].
  cbn [foldl fst snd]. rewrite IH by done. by rewrite lookup_insert_ne.
Qed.

Lemma dict_of_items_lookup (items : list (pystr * pystr)) (k v : pystr) :
  NoDup (fst <$> items) -> (k, v) ∈ items ->
  Frontend.dict_of_items items !! k = Some v.
Proof.
  unfold Frontend.dict_of_items. generalize (∅ : gmap pystr pystr).
  induction items as [|[k' v'] items IH]; intros d Hnd Hin;
    [by apply elem_of_nil in Hin|].
  rewrite fmap_cons in Hnd. apply NoDup_cons in Hnd as [Hk' Hnd].
  cbn [foldl fst snd]. apply elem_of_cons in Hin as [[= <- <-]|Hin].
  - rewrite foldl_insert_notin by done. by rewrite lookup_insert_eq.
  - by apply IH.
Qed.

Lemma dict_of_items_lookup_Some (items : list (pystr * pystr)) (k v : pystr) :
  Frontend.dict_of_items items !! k = Some v -> (k, v) ∈ items.
Proof.
  unfold Frontend.dict_of_items.
  assert (H : forall d : gmap pystr pystr,
    foldl (fun d p => <[p.1 := p.2]> d) d items !! k = Some v ->
    (k, v) ∈ items \/ d !! k = Some v).
  { induction items as [|[k' v'] items IH]; intros d Hl; [by right|].
    cbn [foldl fst snd] in Hl. apply IH in Hl as [Hin|Hl].
    - left. by right.
    - destruct (decide (k' = k)) as [->|Hne].
      + rewrite lookup_insert_eq in Hl. injection Hl as ->. left. by left.
      + rewrite lookup_insert_ne in Hl by done. by right. }
  intros Hl. by apply H in Hl as [Hin|Hl].
Qed.

Lemma LANGUAGE_names_NoDup :
  NoDup (fst <$> ((fun p : pystr * pystr => (p.2, p.1))
                   <$> Frontend.LANGUAGE_ITEMS)).
Proof. apply (bool_decide_unpack _). by vm_compute. Qed.

(** X15, the language codes survive the dashboard.  The sidebar shows
    [LANGUAGE_MAP.get(lang, lang)] for a code [lang] of the database and
    sends [REVERSE_LANGUAGE_MAP.get(name, name)] for the name selected.
    For every code that is not itself one of the names of [LANGUAGE_MAP],
    in the table or not, the code sent is the code that was shown. *)
Theorem language_code_round_trip (lang : pystr) :
  Frontend.REVERSE_LANGUAGE_MAP !! lang = None ->
  Frontend.language_code (Frontend.display_language lang) = lang.
Proof.
  intros Hname. unfold Frontend.display_language.
  destruct (Frontend.LANGUAGE_MAP !! lang) as [name|] eqn:E; cbn [default].
  - apply dict_of_items_lookup_Some in E.
    unfold Frontend.language_code, Frontend.REVERSE_LANGUAGE_MAP, id.
    rewrite (dict_of_items_lookup _ name lang LANGUAGE_names_NoDup); [done|].
    apply list_elem_of_fmap. by exists (lang, name).
  - unfold Frontend.language_code. by rewrite Hname.
Qed.

(** [hi] is shown as Hindi and sent as [hi]; [ja], which the table does
    not hold, is shown and sent as it is. *)
Lemma language_code_round_trip_witness :
  Frontend.language_code (Frontend.display_language (py "hi")) = py "hi"
  /\ Frontend.language_code (Frontend.display_language (py "ja")) = py "ja".
Proof.
  split; apply language_code_round_trip; reflexivity.
Defined.

(** *** From the sidebar to the statement *)

Lemma split_from_no_sep (x : pystr) :
  forall cur s, 44%N ∉ x ->
  split_from 44 cur (x ++ s) = split_from 44 (cur ++ x) s.
Proof.
  induction x as [|c x IH]; intros cur s Hx; [by rewrite app_nil_r|].
  apply not_elem_of_cons in Hx as [Hc Hx].
  cbn [app split_from]. destruct (c =? 44)%N eqn:E.
  - apply N.eqb_eq in E. congruence.
  - rewrite IH by done. by rewrite <- app_assoc.
Qed.

(** [','.join(xs).split(',')] is [xs] when no element holds a comma
    and [xs] is not empty. *)
Lemma split_join (xs : list pystr) :
  xs <> [] -> Forall (fun x => 44%N ∉ x) xs ->
  split 44 (join (py ",") xs) = xs.
Proof.
  intros Hne Hxs. unfold split.
  induction Hxs as [|x xs Hx Hxs IH]; [done|]. clear Hne.
  destruct xs as [|y xs].
  - cbn [join]. rewrite <- (app_nil_r x) at 1.
    by rewrite split_from_no_sep.
  - change (join (py ",") (x :: y :: xs))
      with (x ++ 44%N :: join (py ",") (y :: xs)).
    rewrite split_from_no_sep by done. cbn [split_from app].
    by rewrite IH.
Qed.

Lemma filter_items_join (xs : list pystr) :
  Forall selectable xs ->
  filter_items (Frontend.join_or_None xs)
  = match xs with [] => None | _ => Some xs end.
Proof.
  intros Hxs. destruct xs as [|x xs]; [done|].
  unfold Frontend.join_or_None, filter_items.
  assert (Ht : truthy (join (py ",") (x :: xs)) = true).
  { apply Forall_cons in Hxs as [(Hx & _ & _) _].
    destruct x as [|c x]; [done|]. by destruct xs. }
  rewrite Ht, split_join; [|done|].
  - f_equal. apply list_eq. intros i. rewrite list_lookup_fmap.
    destruct ((x :: xs) !! i) as [y|] eqn:E; [|done].
    cbn. f_equal. by eapply (Forall_lookup_1 _ _ _ _ Hxs E).
  - eapply Forall_impl; [exact Hxs|]. by intros y (_ & Hy & _).
Qed.

Lemma in_filter_join (xs : list pystr) (v : pystr) :
  Forall selectable xs ->
  in_filter (Frontend.join_or_None xs) (Some v) = chosen xs v.
Proof.
  intros Hxs. unfold in_filter. rewrite filter_items_join by done.
  by destruct xs.
Qed.

Lemma strip_or_None_blank (s : pystr) :
  strip s = [] -> filter_items (Frontend.strip_or_None s) = None.
Proof. intros H. unfold Frontend.strip_or_None. by rewrite H. Qed.

(** X16, the dashboard and the endpoint together.  When the values
    selected (for the languages: the codes of the names selected) are not
    empty, hold no comma and no whitespace at their ends, and the keyword
    box is blank, the articles that the dashboard receives are exactly
    the stored rows, in stored order, whose country, source, language and
    sentiment are among the values selected (a multiselect with nothing
    selected lets every row pass) and whose year passes the years typed,
    provided the engine takes the statement; when so much is selected or
    typed that the engine refuses it, the dashboard receives nothing. *)
Theorem frontend_filter_selects (w : World) (news : list Article)
    (cs ss ls ses : list pystr) (years kw : pystr) :
  Forall selectable cs -> Forall selectable ss ->
  Forall selectable (Frontend.language_code <$> ls) ->
  Forall selectable ses ->
  strip kw = [] ->
  Frontend.post_filter w news (Frontend.build_filters cs ss ls ses years kw)
  = if accepted w
         (build_query (Frontend.build_filters cs ss ls ses years kw))
    then List.filter (selected w cs ss ls ses years) news
    else [].
Proof.
  intros Hcs Hss Hls Hses Hkw. unfold Frontend.post_filter.
  rewrite filter_news_spec by (by apply strip_or_None_blank).
  destruct (accepted w _); [|done].
  apply List.filter_ext. intros row.
  unfold matches, selected, Frontend.build_filters.
  cbn [f_country f_source f_language f_sentiment f_year].
  by rewrite !in_filter_join.
Qed.

(** A check of [selectable] that computes. *)
Lemma selectable_check (x : pystr) :
  truthy x = true ->
  forallb (fun c => negb (c =? 44)%N) x = true ->
  strip x = x ->
  selectable x.
Proof.
  intros Hne Hall Hstrip. split; [by intros ->|]. split; [|done].
  intros Hin. rewrite forallb_forall in Hall.
  apply list_elem_of_In, Hall in Hin. by rewrite N.eqb_refl in Hin.
Qed.

Ltac check_selectable :=
  repeat (apply Forall_cons; split;
          [apply selectable_check; vm_compute; reflexivity|]);
  apply Forall_nil_2.

(** The USA, English and the sentiment positive selected, the keyword box
    holding spaces alone: the one row of the USA is shown; with an engine
    built for two parameters, nothing is. *)
Lemma frontend_filter_selects_witness :
  Frontend.post_filter Samples.quiet_world
    [Samples.story_monday; Samples.story_tuesday; Samples.story_other]
    (Frontend.build_filters [py "USA"] [] [py "English"] [py "positive"]
       [] (py "  "))
  = [Samples.story_other]
  /\ Frontend.post_filter Samples.small_engine_world
       [Samples.story_monday; Samples.story_tuesday; Samples.story_other]
       (Frontend.build_filters [py "USA"] [] [py "English"] [py "positive"]
          [] (py "  "))
     = [].
Proof.
  split.
  - refine (eq_trans
              (frontend_filter_selects Samples.quiet_world
                 [Samples.story_monday; Samples.story_tuesday;
                  Samples.story_other]
                 [py "USA"] [] [py "English"] [py "positive"] [] (py "  ")
                 _ _ _ _ eq_refl)
              eq_refl);
      check_selectable.
  - refine (eq_trans
              (frontend_filter_selects Samples.small_engine_world
                 [Samples.story_monday; Samples.story_tuesday;
                  Samples.story_other]
                 [py "USA"] [] [py "English"] [py "positive"] [] (py "  ")
                 _ _ _ _ eq_refl)
              eq_refl);
      check_selectable.
Defined.

(** X17, a keyword typed in the dashboard.  For every keyword that is not
    blank, whatever else is selected and whatever the table holds, the
    dashboard receives no article: the endpoint answers 500 and
    [post_data] turns the error into the empty list. *)
Theorem frontend_keyword_shows_nothing (w : World) (news : list Article)
    (cs ss ls ses : list pystr) (years kw : pystr) :
  strip kw <> [] ->
  Frontend.post_filter w news (Frontend.build_filters cs ss ls ses years kw)
  = [].
Proof.
  intros Hkw. unfold Frontend.post_filter, filter_news.
  set (filters := Frontend.build_filters cs ss ls ses years kw).
  assert (Hk : f_keyword filters = Some (strip kw)).
  { unfold filters, Frontend.build_filters, Frontend.strip_or_None.
    cbn [f_keyword]. by destruct (strip kw). }
  destruct (build_query_keyword filters _ Hk Hkw) as [q Hq].
  destruct (build_query filters) as [query params]. cbn [fst] in Hq.
  by rewrite Hq, read_sql_query_keyword.
Qed.

(** A search for [storm] on a table that holds two articles on a storm. *)
Lemma frontend_keyword_shows_nothing_witness :
  Frontend.post_filter Samples.quiet_world
    [Samples.story_monday; Samples.story_tuesday; Samples.story_other]
    (Frontend.build_filters [] [] [] [] [] (py "Storm"))
  = [].
Proof.
  apply frontend_keyword_shows_nothing. discriminate.
Defined.

(** ** The page of [rss_news_scraper.py] *)

Lemma startswith_spec (needle hay : pystr) :
  RssNewsScraper.startswith needle hay = true
  <-> exists post, hay = needle ++ post.
Proof.
  revert hay. induction needle as [|n ns IH]; intros hay.
  - split; [by exists hay|done].
  - destruct hay as [|h hs]; cbn [RssNewsScraper.startswith].
    + split; [done|]. by intros [post H].
    + rewrite andb_true_iff, N.eqb_eq, IH. split.
      * intros [-> [post ->]]. by exists post.
      * intros [post [= -> ->]]. split; [done|]. by exists post.
Qed.

Lemma contains_spec (needle hay : pystr) :
  RssNewsScraper.contains needle hay = true <-> occurs_in needle hay.
Proof.
  unfold occurs_in. induction hay as [|h hs IH];
    cbn [RssNewsScraper.contains]; rewrite orb_true_iff, startswith_spec.
  - split.
    + intros [[post H]|H]; [|done]. by exists [], post.
    + intros (pre & post & H). left. exists post.
      destruct pre; [done|discriminate].
  - rewrite IH. split.
    + intros [[post H]|(pre & post & H)]; [by exists [], post|].
      exists (h :: pre), post. by rewrite H.
    + intros (pre & post & H). destruct pre as [|c pre].
      * left. by exists post.
      * right. injection H as -> ->. by exists pre, post.
Qed.

Lemma contains_false (needle hay : pystr) :
  RssNewsScraper.contains needle hay = false <-> ~ occurs_in needle hay.
Proof.
  rewrite <- contains_spec. by destruct (RssNewsScraper.contains needle hay).
Qed.

(** X18, the country that [rss_news_scraper.py] shows.  [parse_rss_feed]
    gives one row for each entry of the feed, in the order of the feed,
    and every row carries the same country, which depends on the URL
    alone: UK when [bbc] occurs in the URL, wherever it occurs and
    whatever else occurs; else USA when [cnn] occurs; else Middle East
    for [aljazeera]; else Japan for [nhk]; and Unknown when none
    occurs. *)
Theorem parse_rss_feed_country :
  forall (feedparser_parse : pystr -> RssNewsScraper.Feed) (url : pystr),
    let rows := RssNewsScraper.parse_rss_feed feedparser_parse url in
    let c := RssNewsScraper.detect_country_from_url url in
    length rows = length (RssNewsScraper.entries (feedparser_parse url))
    /\ Forall (fun row => RssNewsScraper.Country row = c) rows
    /\ (occurs_in (py "bbc") url -> c = py "UK")
    /\ (~ occurs_in (py "bbc") url ->
        (occurs_in (py "cnn") url -> c = py "USA")
        /\ (~ occurs_in (py "cnn") url ->
            (occurs_in (py "aljazeera") url -> c = py "Middle East")
            /\ (~ occurs_in (py "aljazeera") url ->
                (occurs_in (py "nhk") url -> c = py "Japan")
                /\ (~ occurs_in (py "nhk") url -> c = py "Unknown")))).
Proof.
  intros parse url rows c. unfold rows, RssNewsScraper.parse_rss_feed.
  cbv zeta. rewrite length_fmap. split; [done|]. split.
  { apply Forall_fmap, Forall_forall. by intros entry _. }
  unfold c, RssNewsScraper.detect_country_from_url.
  split; [by intros ->%contains_spec|].
  intros ->%contains_false.
  split; [by intros ->%contains_spec|].
  intros ->%contains_false.
  split; [by intros ->%contains_spec|].
  intros ->%contains_false.
  split; [by intros ->%contains_spec|].
  by intros ->%contains_false.
Qed.
